(** * STM32H7 flash driver (src/target/stm32h7.c) of the Black Magic Debug probe

    A shallow embedding of the driver and the properties of its register
    protocol.  The driver talks to the device through the generic target
    layer ([target_mem_read32], [target_mem_write32], ...), which is not
    part of the driver: it is an interface here (class [Platform]), and every
    statement holds for every implementation of it.  A run of the driver is a
    computation in a small state monad over the [target] structure; the
    register accesses it performs are recorded, oldest first, in the target's
    [log].  The DEBUG_WARN and DEBUG_INFO macros are compiled out, as in the
    firmware build: they print nothing and their arguments are not
    evaluated. *)

From Stdlib Require Import ZArith List String Ascii Bool Lia.
Import ListNotations.
Open Scope Z_scope.

(** ** Machine integers *)

(** [uint32_t]: values are kept in [Z], reduced modulo 2^32 where C does. *)
Definition u32 (x : Z) : Z := x mod 2 ^ 32.
Definition add32 (a b : Z) : Z := u32 (a + b).

(** C truth value of an integer expression. *)
Definition nonzero (x : Z) : bool := negb (x =? 0).

(** ** Register map and bit masks *)

(* enum stm32h7_regs *)
Definition FLASH_ACR : Z := 0x00.
Definition FLASH_KEYR : Z := 0x04.
Definition FLASH_OPTKEYR : Z := 0x08.
Definition FLASH_CR : Z := 0x0c.
Definition FLASH_SR : Z := 0x10.
Definition FLASH_CCR : Z := 0x14.
Definition FLASH_OPTCR : Z := 0x18.
Definition FLASH_OPTSR_CUR : Z := 0x1C.
Definition FLASH_OPTSR : Z := 0x20.
Definition FLASH_CRCCR : Z := 0x50.
Definition FLASH_CRCDATA : Z := 0x5C.

Definition H7_IWDG_BASE : Z := 0x58004c00.
Definition FPEC1_BASE : Z := 0x52002000.
Definition FPEC2_BASE : Z := 0x52002100.
Definition FLASH_SR_BSY : Z := Z.shiftl 1 0.
Definition FLASH_SR_WBNE : Z := Z.shiftl 1 1.
Definition FLASH_SR_QW : Z := Z.shiftl 1 2.
Definition FLASH_SR_CRC_BUSY : Z := Z.shiftl 1 3.
Definition FLASH_SR_EOP : Z := Z.shiftl 1 16.
Definition FLASH_SR_WRPERR : Z := Z.shiftl 1 17.
Definition FLASH_SR_PGSERR : Z := Z.shiftl 1 18.
Definition FLASH_SR_STRBERR : Z := Z.shiftl 1 19.
Definition FLASH_SR_INCERR : Z := Z.shiftl 1 21.
Definition FLASH_SR_OPERR : Z := Z.shiftl 1 22.
Definition FLASH_SR_RDPERR : Z := Z.shiftl 1 23.
Definition FLASH_SR_RDSERR : Z := Z.shiftl 1 24.
Definition FLASH_SR_SNECCERR : Z := Z.shiftl 1 25.
Definition FLASH_SR_DBERRERR : Z := Z.shiftl 1 26.
Definition FLASH_SR_ERROR_READ : Z :=
  Z.lor (Z.lor (Z.lor FLASH_SR_RDPERR FLASH_SR_RDSERR) FLASH_SR_SNECCERR)
        FLASH_SR_DBERRERR.
Definition FLASH_SR_ERROR_MASK : Z :=
  Z.lor (Z.lor (Z.lor (Z.lor (Z.lor FLASH_SR_WRPERR FLASH_SR_PGSERR)
                                 FLASH_SR_STRBERR)
                      FLASH_SR_INCERR)
               FLASH_SR_OPERR)
        FLASH_SR_ERROR_READ.
Definition FLASH_CR_LOCK : Z := Z.shiftl 1 0.
Definition FLASH_CR_PG : Z := Z.shiftl 1 1.
Definition FLASH_CR_SER : Z := Z.shiftl 1 2.
Definition FLASH_CR_BER : Z := Z.shiftl 1 3.
Definition FLASH_CR_PSIZE8 : Z := Z.shiftl 0 4.
Definition FLASH_CR_PSIZE16 : Z := Z.shiftl 1 4.
Definition FLASH_CR_PSIZE32 : Z := Z.shiftl 2 4.
Definition FLASH_CR_PSIZE64 : Z := Z.shiftl 3 4.
Definition FLASH_CR_FW : Z := Z.shiftl 1 6.
Definition FLASH_CR_START : Z := Z.shiftl 1 7.
Definition FLASH_CR_SNB_1 : Z := Z.shiftl 1 8.
Definition FLASH_CR_SNB : Z := Z.shiftl 3 8.
Definition FLASH_CR_CRC_EN : Z := Z.shiftl 1 15.

Definition FLASH_OPTSR_IWDG1_SW : Z := Z.shiftl 1 4.

Definition FLASH_CRCCR_ALL_BANK : Z := Z.shiftl 1 7.
Definition FLASH_CRCCR_START_CRC : Z := Z.shiftl 1 16.
Definition FLASH_CRCCR_CLEAN_CRC : Z := Z.shiftl 1 17.
Definition FLASH_CRCCR_CRC_BURST_3 : Z := Z.shiftl 3 20.

Definition KEY1 : Z := 0x45670123.
Definition KEY2 : Z := 0xCDEF89AB.

Definition DBGMCU_IDCODE : Z := 0x5c001000.
Definition DBGMCU_IDC : Z := DBGMCU_IDCODE + 0.
Definition DBGMCU_CR : Z := DBGMCU_IDCODE + 4.
Definition DBGSLEEP_D1 : Z := Z.shiftl 1 0.
Definition D1DBGCKEN : Z := Z.shiftl 1 21.
Definition D3DBGCKEN : Z := Z.shiftl 1 22.

Definition BANK1_START : Z := 0x08000000.
Definition NUM_SECTOR_PER_BANK : Z := 8.
Definition FLASH_SECTOR_SIZE : Z := 0x20000.
Definition BANK2_START : Z := 0x08100000.

(* enum ID_STM32H7 *)
Definition ID_STM32H74x : Z := 0x4500.
Definition ID_STM32H7Bx : Z := 0x4800.
Definition ID_STM32H72x : Z := 0x4830.

(** The status bits the specification calls busy indicators. *)
Definition FLASH_SR_BUSY_INDICATORS : Z :=
  Z.lor (Z.lor (Z.lor FLASH_SR_BSY FLASH_SR_WBNE) FLASH_SR_QW) FLASH_SR_CRC_BUSY.

(** Modelled from the spec: [enum align] is declared in target.h, which is
    not among the sources; the write parallelism is one of 8, 16, 32 and 64
    bits and its numeric value, times a fixed shift, is the PSIZE field of
    FLASH_CR. *)
Inductive align : Type := ALIGN_BYTE | ALIGN_HALFWORD | ALIGN_WORD | ALIGN_DWORD.

Definition align_val (a : align) : Z :=
  match a with
  | ALIGN_BYTE => 0
  | ALIGN_HALFWORD => 1
  | ALIGN_WORD => 2
  | ALIGN_DWORD => 3
  end.

(** ** The target structure *)

(** Arguments of [tc_printf]: the output is kept as the format string and
    its arguments. *)
Inductive printf_arg : Type :=
| ArgStr (s : string)
| ArgChar (c : ascii)
| ArgInt (v : Z).

(** What the driver does to the outside world, in the order it does it. *)
Inductive event : Type :=
| EvRead32 (addr val : Z)               (* target_mem_read32 returned val *)
| EvWrite32 (addr val : Z)              (* target_mem_write32 *)
| EvWriteBlock (addr : Z) (data : list Z) (* target_mem_write *)
| EvPrintf (fmt : string) (args : list printf_arg)
| EvProgress (timeout : Z)              (* target_print_progress *)
| EvCortexmAttach (ok : bool)
| EvCortexmDetach.

(** Identity of the function pointers the driver installs and compares. *)
Inductive fn_ptr : Type :=
| fn_stm32h7_flash_erase
| fn_stm32h7_flash_write
| fn_stm32h7_mass_erase
| fn_stm32h7_attach
| fn_stm32h7_detach
| fn_stm32h7_cmd_psize
| fn_stm32h7_uid
| fn_stm32h7_crc
| fn_stm32h7_cmd_rev
| fn_foreign (n : nat).

Definition fn_ptr_eqb (a b : fn_ptr) : bool :=
  match a, b with
  | fn_stm32h7_flash_erase, fn_stm32h7_flash_erase => true
  | fn_stm32h7_flash_write, fn_stm32h7_flash_write => true
  | fn_stm32h7_mass_erase, fn_stm32h7_mass_erase => true
  | fn_stm32h7_attach, fn_stm32h7_attach => true
  | fn_stm32h7_detach, fn_stm32h7_detach => true
  | fn_stm32h7_cmd_psize, fn_stm32h7_cmd_psize => true
  | fn_stm32h7_uid, fn_stm32h7_uid => true
  | fn_stm32h7_crc, fn_stm32h7_crc => true
  | fn_stm32h7_cmd_rev, fn_stm32h7_cmd_rev => true
  | fn_foreign n, fn_foreign m => Nat.eqb n m
  | _, _ => false
  end.

Record command_s : Type := mk_command {
  cmd_name : string;
  cmd_handler : fn_ptr;
  cmd_help : string
}.

Record target_ram : Type := mk_ram {
  ram_start : Z;
  ram_length : Z
}.

(** [struct stm32h7_flash]: a [target_flash_s] followed by the driver's own
    two fields.  The flash list of a target holds the descriptors of every
    driver; the driver recognises its own by the [write] pointer and only
    then looks at [psize] and [regbase]. *)
Record stm32h7_flash : Type := mk_flash {
  f_start : Z;
  f_length : Z;
  f_blocksize : Z;
  f_erase : option fn_ptr;
  f_write : option fn_ptr;
  f_writesize : Z;
  f_erased : Z;
  psize : align;
  regbase : Z
}.

(* struct stm32h7_priv_s *)
Record stm32h7_priv_s : Type := mk_priv {
  dbg_cr : Z
}.

(** The services of the generic target layer and of the C library, over a
    state [W] of the probe, the link and the device.  [size_bits] is the width
    of [size_t] on the platform the driver is built for. *)
Class Platform (W : Type) : Type := {
  size_bits : Z;
  size_bits_ge_32 : 32 <= size_bits;
  mem_read32 : W -> Z -> Z * W;
  mem_write32 : W -> Z -> Z -> W;
  mem_write : W -> Z -> list Z -> W;
  check_error : W -> bool * W;
  core_attach : W -> bool * W;
  core_detach : W -> W;
  heap_calloc : W -> bool * W
}.

Section Target.

Context {W : Type}.

(** [budget] bounds the 32-bit register reads a run may still perform: the
    polling loops of the driver have no bound of their own, and a run that
    outlives the budget ends as [Stall]. *)
Record target : Type := mk_target {
  world : W;
  log : list event;
  budget : nat;
  part_id : Z;
  driver : option string;
  mass_erase : option fn_ptr;
  attach : option fn_ptr;
  detach : option fn_ptr;
  commands : list (string * list command_s);
  ram : list target_ram;
  flash : list stm32h7_flash;
  target_storage : option stm32h7_priv_s
}.

Definition set_world (w : W) (t : target) : target :=
  mk_target w (log t) (budget t) (part_id t) (driver t) (mass_erase t)
            (attach t) (detach t) (commands t) (ram t) (flash t)
            (target_storage t).
Definition set_budget (b : nat) (t : target) : target :=
  mk_target (world t) (log t) b (part_id t) (driver t) (mass_erase t)
            (attach t) (detach t) (commands t) (ram t) (flash t)
            (target_storage t).
Definition emit (e : event) (t : target) : target :=
  mk_target (world t) (log t ++ [e]) (budget t) (part_id t) (driver t)
            (mass_erase t) (attach t) (detach t) (commands t) (ram t)
            (flash t) (target_storage t).
Definition set_hooks (d : string) (me a dt : fn_ptr) (t : target) : target :=
  mk_target (world t) (log t) (budget t) (part_id t) (Some d) (Some me)
            (Some a) (Some dt) (commands t) (ram t) (flash t)
            (target_storage t).
Definition set_commands (c : list (string * list command_s)) (t : target)
  : target :=
  mk_target (world t) (log t) (budget t) (part_id t) (driver t) (mass_erase t)
            (attach t) (detach t) c (ram t) (flash t) (target_storage t).
Definition set_ram (r : list target_ram) (t : target) : target :=
  mk_target (world t) (log t) (budget t) (part_id t) (driver t) (mass_erase t)
            (attach t) (detach t) (commands t) r (flash t) (target_storage t).
Definition set_flash (f : list stm32h7_flash) (t : target) : target :=
  mk_target (world t) (log t) (budget t) (part_id t) (driver t) (mass_erase t)
            (attach t) (detach t) (commands t) (ram t) f (target_storage t).
Definition set_storage (s : option stm32h7_priv_s) (t : target) : target :=
  mk_target (world t) (log t) (budget t) (part_id t) (driver t) (mass_erase t)
            (attach t) (detach t) (commands t) (ram t) (flash t) s.

(** ** The monad of driver code *)

(** A run returns a value, or outlives the read budget ([Stall]), or
    dereferences what is not there ([Fault]: a null private storage, an
    argument vector shorter than the code assumes). *)
Inductive outcome (A : Type) : Type :=
| Ret (a : A) (t : target)
| Stall (t : target)
| Fault (t : target).
Arguments Ret {A} a t.
Arguments Stall {A} t.
Arguments Fault {A} t.

Definition M (A : Type) : Type := target -> outcome A.

Definition ret {A} (a : A) : M A := fun t => Ret a t.
Definition bind {A B} (m : M A) (k : A -> M B) : M B :=
  fun t => match m t with
           | Ret a t' => k a t'
           | Stall t' => Stall t'
           | Fault t' => Fault t'
           end.
Definition stall {A} : M A := fun t => Stall t.
Definition fault {A} : M A := fun t => Fault t.

Definition final {A} (o : outcome A) : target :=
  match o with Ret _ t => t | Stall t => t | Fault t => t end.

(** Read or change the host-side fields of the target. *)
Definition gets {A} (f : target -> A) : M A := fun t => Ret (f t) t.
Definition modify (f : target -> target) : M unit := fun t => Ret tt (f t).

(** The unbounded loops recurse on a counter that starts above the read
    budget: every iteration of every such loop reads a register, so the
    budget runs out before the counter does. *)
Definition with_budget {A} (loop : nat -> M A) : M A :=
  fun t => loop (S (budget t)) t.

(** The host-side fields of the target: what no register access changes. *)
Definition session (t : target) :=
  (part_id t, driver t, mass_erase t, attach t, detach t, commands t, ram t,
   flash t, target_storage t).

End Target.

Arguments Ret {W A} a t.
Arguments Stall {W A} t.
Arguments Fault {W A} t.

Notation "x <- m ;; k" := (bind m (fun x => k))
  (at level 61, m at next level, right associativity).
Notation "m ;;; k" := (bind m (fun _ => k))
  (at level 61, right associativity).

Section Driver.

Context {W : Type} {P : Platform W}.

(** *** The generic target layer, as the driver sees it *)

(** The register accesses, the error query, the core attach and detach and
    the allocator are the platform's; each call is recorded in the log. *)

Definition target_mem_read32 (addr : Z) : M Z := fun t =>
  match budget t with
  | O => Stall t
  | S b =>
      let (v, w) := mem_read32 (world t) addr in
      Ret (u32 v) (emit (EvRead32 addr (u32 v)) (set_budget b (set_world w t)))
  end.

Definition target_mem_write32 (addr val : Z) : M unit := fun t =>
  Ret tt (emit (EvWrite32 addr val)
               (set_world (mem_write32 (world t) addr val) t)).

Definition target_mem_write (dest : Z) (src : list Z) : M unit := fun t =>
  Ret tt (emit (EvWriteBlock dest src)
               (set_world (mem_write (world t) dest src) t)).

Definition target_check_error : M bool := fun t =>
  let (e, w) := check_error (world t) in Ret e (set_world w t).

Definition tc_printf (fmt : string) (args : list printf_arg) : M unit :=
  fun t : @target W => Ret tt (emit (EvPrintf fmt args) t).

Definition target_print_progress (timeout : Z) : M unit :=
  fun t : @target W => Ret tt (emit (EvProgress timeout) t).

Definition cortexm_attach : M bool := fun t =>
  let (ok, w) := core_attach (world t) in
  Ret ok (emit (EvCortexmAttach ok) (set_world w t)).

Definition cortexm_detach : M unit := fun t =>
  Ret tt (emit EvCortexmDetach (set_world (core_detach (world t)) t)).

Definition calloc : M bool := fun t =>
  let (ok, w) := heap_calloc (world t) in Ret ok (set_world w t).

(** Modelled from the spec: target_mem_map_free belongs to target.c, which
    is not among the sources; it discards every registered memory region. *)
Definition target_mem_map_free : M unit :=
  fun t : @target W => Ret tt (set_flash [] (set_ram [] t)).

(** Modelled from the spec: target_add_ram (target.c) registers a RAM region;
    the regions are kept in the order of registration. *)
Definition target_add_ram (start len : Z) : M unit :=
  fun t : @target W => Ret tt (set_ram (ram t ++ [mk_ram start len]) t).

(** Modelled from the spec: target_add_flash (target.c) registers a flash
    descriptor; the descriptors are kept in the order of registration. *)
Definition target_add_flash (f : stm32h7_flash) : M unit :=
  fun t : @target W => Ret tt (set_flash (flash t ++ [f]) t).

(** Modelled from the spec: target_add_commands (command.c) registers a
    command table under the name of the driver. *)
Definition target_add_commands (cmds : list command_s) (name : string)
  : M unit :=
  fun t : @target W => Ret tt (set_commands (commands t ++ [(name, cmds)]) t).

(** ** The driver *)

(** [size_t] arithmetic wraps at the platform's width. *)
Definition size_t (x : Z) : Z := x mod 2 ^ size_bits.

Definition stm32h7_driver_str : string := "STM32H7".

Definition stm32h7_cmd_list : list command_s :=
  [ mk_command "psize" fn_stm32h7_cmd_psize
      "Configure flash write parallelism: (x8|x16|x32|x64(default))";
    mk_command "uid" fn_stm32h7_uid "Print unique device ID";
    mk_command "crc" fn_stm32h7_crc "Print CRC of both banks";
    mk_command "revision" fn_stm32h7_cmd_rev
      "Returns the Device ID and Revision" ].

(** The bank an address belongs to: [regbase = FPEC1_BASE; if (addr >=
    BANK2_START) regbase = FPEC2_BASE;]. *)
Definition regbase_of (addr : Z) : Z :=
  if BANK2_START <=? addr then FPEC2_BASE else FPEC1_BASE.

Definition stm32h7_add_flash (addr length blocksize : Z) : M unit :=
  sf <- calloc;;
  if negb sf then ret tt (* calloc failed: heap exhaustion *)
  else
    target_add_flash
      (mk_flash addr length blocksize
                (Some fn_stm32h7_flash_erase) (Some fn_stm32h7_flash_write)
                2048 0xff ALIGN_DWORD (regbase_of addr)).

Definition stm32h7_attach : M bool :=
  ok <- cortexm_attach;;
  if negb ok then ret false
  else
    optsr <- target_mem_read32 (FPEC1_BASE + FLASH_OPTSR);;
    (if negb (nonzero (Z.land optsr FLASH_OPTSR_IWDG1_SW))
     then tc_printf "Hardware IWDG running. Expect failure. Set IWDG1_SW!" []
     else ret tt);;;
    target_mem_map_free;;;
    target_add_ram 0x00000000 0x10000;;;
    target_add_ram 0x20000000 0x20000;;;
    target_add_ram 0x24000000 0x80000;;;
    target_add_ram 0x30000000 0x20000;;;
    target_add_ram 0x30020000 0x20000;;;
    target_add_ram 0x30040000 0x08000;;;
    target_add_ram 0x38000000 0x10000;;;
    stm32h7_add_flash 0x8000000 0x100000 FLASH_SECTOR_SIZE;;;
    stm32h7_add_flash 0x8100000 0x100000 FLASH_SECTOR_SIZE;;;
    ret true.

Definition stm32h7_detach : M unit :=
  ps <- gets target_storage;;
  match ps with
  | None => fault
  | Some ps =>
      target_mem_write32 DBGMCU_CR (dbg_cr ps);;;
      cortexm_detach
  end.

Definition stm32h7_probe : M bool :=
  id <- gets part_id;;
  if (id =? ID_STM32H74x) || (id =? ID_STM32H7Bx) || (id =? ID_STM32H72x)
  then
    modify (set_hooks stm32h7_driver_str fn_stm32h7_mass_erase
                      fn_stm32h7_attach fn_stm32h7_detach);;;
    target_add_commands stm32h7_cmd_list stm32h7_driver_str;;;
    priv_storage <- calloc;;
    v <- target_mem_read32 DBGMCU_CR;;
    if negb priv_storage then fault (* the result of calloc is not checked *)
    else
      modify (set_storage (Some (mk_priv v)));;;
      let dbgmcu_cr := Z.lor DBGSLEEP_D1 D1DBGCKEN in
      target_mem_write32 DBGMCU_CR dbgmcu_cr;;;
      ret true
  else ret false.

Fixpoint busy_wait_loop (n : nat) (regbase : Z) : M bool :=
  match n with
  | O => stall
  | S n' =>
      sr <- target_mem_read32 (add32 regbase FLASH_SR);;
      err <- (if nonzero (Z.land sr FLASH_SR_ERROR_MASK) then ret true
              else target_check_error);;
      if err then
        target_mem_write32 (add32 regbase FLASH_CCR)
                           (Z.land sr FLASH_SR_ERROR_MASK);;;
        ret false
      else if nonzero (Z.land sr (Z.lor FLASH_SR_BSY FLASH_SR_QW))
           then busy_wait_loop n' regbase
           else ret true
  end.

Definition stm32h7_flash_busy_wait (regbase : Z) : M bool :=
  with_budget (fun n => busy_wait_loop n regbase).

Definition stm32h7_flash_unlock (addr : Z) : M bool :=
  let regbase := regbase_of addr in
  ok <- stm32h7_flash_busy_wait regbase;;
  if negb ok then ret false
  else
    cr <- target_mem_read32 (add32 regbase FLASH_CR);;
    (if nonzero (Z.land cr FLASH_CR_LOCK) then
       (* Enable FLASH controller access *)
       target_mem_write32 (add32 regbase FLASH_KEYR) KEY1;;;
       target_mem_write32 (add32 regbase FLASH_KEYR) KEY2
     else ret tt);;;
    cr <- target_mem_read32 (add32 regbase FLASH_CR);;
    ret (negb (nonzero (Z.land cr FLASH_CR_LOCK))).

(** The loop [while (start_sector <= end_sector)] of the sector erase. *)
Fixpoint erase_loop (n : nat) (sf : stm32h7_flash) (psize : align)
         (start_sector end_sector : Z) : M bool :=
  match n with
  | O => stall
  | S n' =>
      if start_sector <=? end_sector then
        let ctrl_reg :=
          u32 (Z.lor (Z.lor (align_val psize * FLASH_CR_PSIZE16) FLASH_CR_SER)
                     (size_t (start_sector * FLASH_CR_SNB_1))) in
        target_mem_write32 (add32 (regbase sf) FLASH_CR) ctrl_reg;;;
        let ctrl_reg := Z.lor ctrl_reg FLASH_CR_START in
        target_mem_write32 (add32 (regbase sf) FLASH_CR) ctrl_reg;;;
        ok <- stm32h7_flash_busy_wait (regbase sf);;
        if negb ok then ret false
        else erase_loop n' sf psize (size_t (start_sector + 1)) end_sector
      else ret true
  end.

Definition stm32h7_flash_erase (f : stm32h7_flash) (addr len : Z) : M bool :=
  let sf := f in
  ok <- stm32h7_flash_unlock addr;;
  if negb ok then ret false
  else
    (* We come out of reset with HSI 64 MHz. Adapt FLASH_ACR. *)
    target_mem_write32 (add32 (regbase sf) FLASH_ACR) 0;;;
    let addr := Z.land addr (NUM_SECTOR_PER_BANK * FLASH_SECTOR_SIZE - 1) in
    let start_sector := addr / FLASH_SECTOR_SIZE in
    let end_sector := size_t (addr + len - 1) / FLASH_SECTOR_SIZE in
    let psize := psize f in
    with_budget (fun n => erase_loop n sf psize start_sector end_sector).

(** [src] holds the [len] bytes to program. *)
Definition stm32h7_flash_write (f : stm32h7_flash) (dest : Z) (src : list Z)
  : M bool :=
  let sf := f in
  let psize := psize sf in
  ok <- stm32h7_flash_unlock dest;;
  if negb ok then ret false
  else
    let cr := align_val psize * FLASH_CR_PSIZE16 in
    target_mem_write32 (add32 (regbase sf) FLASH_CR) cr;;;
    let cr := Z.lor cr FLASH_CR_PG in
    target_mem_write32 (add32 (regbase sf) FLASH_CR) cr;;;
    target_mem_write dest src;;;
    ok <- stm32h7_flash_busy_wait (regbase sf);;
    if negb ok then ret false
    else
      (* Close write windows. *)
      target_mem_write32 (add32 (regbase sf) FLASH_CR) 0;;;
      ret true.

Definition stm32h7_erase_bank (psize : align) (start_addr reg_base : Z)
  : M bool :=
  ok <- stm32h7_flash_unlock start_addr;;
  if negb ok then ret false
  else
    (* BER and start can be merged (3.3.10). *)
    let ctrl_reg :=
      Z.lor (Z.lor (align_val psize * FLASH_CR_PSIZE16) FLASH_CR_BER)
            FLASH_CR_START in
    target_mem_write32 (add32 reg_base FLASH_CR) ctrl_reg;;;
    ret true.

Fixpoint wait_erase_bank_loop (n : nat) (timeout reg_base : Z) : M bool :=
  match n with
  | O => stall
  | S n' =>
      sr <- target_mem_read32 (add32 reg_base FLASH_SR);;
      if nonzero (Z.land sr FLASH_SR_QW) then
        err <- target_check_error;;
        if err then ret false
        else
          target_print_progress timeout;;;
          wait_erase_bank_loop n' timeout reg_base
      else ret true
  end.

Definition stm32h7_wait_erase_bank (timeout reg_base : Z) : M bool :=
  with_budget (fun n => wait_erase_bank_loop n timeout reg_base).

Definition stm32h7_check_bank (reg_base : Z) : M bool :=
  status <- target_mem_read32 (add32 reg_base FLASH_SR);;
  ret (negb (nonzero (Z.land status FLASH_SR_ERROR_MASK))).

(** The walk over [t->flash] that looks for the driver's own descriptors
    ([flash->write == stm32h7_flash_write]) and keeps the [psize] of the last
    one, starting from [ALIGN_DWORD]. *)
Definition is_stm32h7_flash (f : stm32h7_flash) : bool :=
  match f_write f with
  | Some w => fn_ptr_eqb w fn_stm32h7_flash_write
  | None => false
  end.

Definition configured_psize (fl : list stm32h7_flash) : align :=
  fold_left (fun ps f => if is_stm32h7_flash f then psize f else ps)
            fl ALIGN_DWORD.

(* Both banks are erased in parallel. *)
Definition stm32h7_mass_erase : M bool :=
  psize <- gets (fun t => configured_psize (flash t));;
  (* Send mass erase Flash start instruction *)
  ok1 <- stm32h7_erase_bank psize BANK1_START FPEC1_BASE;;
  abort_start <- (if negb ok1 then ret true
                    else stm32h7_erase_bank psize BANK2_START FPEC2_BASE);;
  if abort_start then ret false
  else
    let timeout := 500 in
    (* Wait for the banks to finish erasing *)
    w1 <- stm32h7_wait_erase_bank timeout FPEC1_BASE;;
    abort_wait <- (if negb w1 then ret true
                     else
                       w2 <- stm32h7_wait_erase_bank timeout FPEC2_BASE;;
                       ret (negb w2));;
    if abort_wait then ret false
    else
      (* Check the banks for final errors *)
      c1 <- stm32h7_check_bank FPEC1_BASE;;
      if c1 then stm32h7_check_bank FPEC2_BASE else ret false.

(** One round of the loop of [stm32h7_uid]: a word of the unique id, printed
    as four bytes, most significant first. *)
Definition uid_word (addr : Z) : M unit :=
  val <- target_mem_read32 addr;;
  tc_printf "%02X" [ArgInt (Z.land (Z.shiftr val 24) 0xff)];;;
  tc_printf "%02X" [ArgInt (Z.land (Z.shiftr val 16) 0xff)];;;
  tc_printf "%02X" [ArgInt (Z.land (Z.shiftr val 8) 0xff)];;;
  tc_printf "%02X" [ArgInt (Z.land (Z.shiftr val 0) 0xff)].

Definition stm32h7_uid : M bool :=
  id <- gets part_id;;
  let uid := if id =? ID_STM32H7Bx then 0x08fff800 else 0x1ff1e800 in
  tc_printf "0x" [];;;
  (* for (i = 0; i < 12; i = i + 4) *)
  uid_word (add32 uid 0);;;
  uid_word (add32 uid 4);;;
  uid_word (add32 uid 8);;;
  tc_printf "\n" [];;;
  ret true.

Fixpoint crc_bank_loop (n : nat) (regbase : Z) : M Z :=
  match n with
  | O => stall
  | S n' =>
      sr <- target_mem_read32 (add32 regbase FLASH_SR);;
      if nonzero (Z.land sr FLASH_SR_CRC_BUSY) then
        err <- target_check_error;;
        if err then ret (-1)
        else if nonzero (Z.land sr FLASH_SR_ERROR_READ) then ret (-1)
        else crc_bank_loop n' regbase
      else ret 0
  end.

Definition stm32h7_crc_bank (bank : Z) : M Z :=
  let regbase := regbase_of bank in
  ok <- stm32h7_flash_unlock bank;;
  if negb ok then ret (-1)
  else
    let cr := FLASH_CR_CRC_EN in
    target_mem_write32 (add32 regbase FLASH_CR) cr;;;
    let crccr := Z.lor (Z.lor FLASH_CRCCR_CRC_BURST_3 FLASH_CRCCR_CLEAN_CRC)
                       FLASH_CRCCR_ALL_BANK in
    target_mem_write32 (add32 regbase FLASH_CRCCR) crccr;;;
    target_mem_write32 (add32 regbase FLASH_CRCCR)
                       (Z.lor crccr FLASH_CRCCR_START_CRC);;;
    with_budget (fun n => crc_bank_loop n regbase).

Definition stm32h7_crc : M bool :=
  r1 <- stm32h7_crc_bank BANK1_START;;
  if nonzero r1 then ret false
  else
    crc1 <- target_mem_read32 (FPEC1_BASE + FLASH_CRCDATA);;
    r2 <- stm32h7_crc_bank BANK2_START;;
    if nonzero r2 then ret false
    else
      crc2 <- target_mem_read32 (FPEC1_BASE + FLASH_CRCDATA);;
      tc_printf "CRC: bank1 0x%08lx, bank2 0x%08lx\n"
                [ArgInt crc1; ArgInt crc2];;;
      ret true.

Definition psize_name (psize : align) : string :=
  match psize with
  | ALIGN_DWORD => "x64"
  | ALIGN_WORD => "x32"
  | ALIGN_HALFWORD => "x16"
  | ALIGN_BYTE => "x8"
  end.

(** The loop that stores [psize] in every descriptor of the driver. *)
Definition store_psize (psize : align) (fl : list stm32h7_flash)
  : list stm32h7_flash :=
  map (fun f =>
         if is_stm32h7_flash f then
           mk_flash (f_start f) (f_length f) (f_blocksize f) (f_erase f)
                    (f_write f) (f_writesize f) (f_erased f) psize (regbase f)
         else f) fl.

Definition stm32h7_cmd_psize (argc : Z) (argv : list string) : M bool :=
  if argc =? 1 then
    psize <- gets (fun t => configured_psize (flash t));;
    tc_printf "Flash write parallelism: %s\n" [ArgStr (psize_name psize)];;;
    ret true
  else
    match nth_error argv 1 with
    | None => fault
    | Some a =>
        if String.eqb a "x8" then
          modify (fun t => set_flash (store_psize ALIGN_BYTE (flash t)) t);;;
          ret true
        else if String.eqb a "x16" then
          modify (fun t => set_flash (store_psize ALIGN_HALFWORD (flash t)) t);;;
          ret true
        else if String.eqb a "x32" then
          modify (fun t => set_flash (store_psize ALIGN_WORD (flash t)) t);;;
          ret true
        else if String.eqb a "x64" then
          modify (fun t => set_flash (store_psize ALIGN_DWORD (flash t)) t);;;
          ret true
        else
          tc_printf "usage: monitor psize (x8|x16|x32|x64)\n" [];;;
          ret false
    end.

Record stm32h7xx_rev : Type := mk_rev {
  rev_id : Z;
  revision : ascii
}.

Definition stm32h7xx_revisions : list stm32h7xx_rev :=
  [ mk_rev 0x1000 "A";
    mk_rev 0x1001 "Z";
    mk_rev 0x1003 "Y";
    mk_rev 0x2001 "X";
    mk_rev 0x2003 "V" ].

(** The loop of [stm32h7_cmd_rev] over the table: [rev] starts as '?' and
    takes the letter of every entry whose [rev_id] matches. *)
Definition resolve_revision (id : Z) : ascii :=
  fold_left (fun rev e => if rev_id e =? id then revision e else rev)
            stm32h7xx_revisions "?"%char.

Definition stm32h7_cmd_rev : M bool :=
  (* DBGMCU identity code register *)
  dbgmcu_idc <- target_mem_read32 DBGMCU_IDC;;
  let rev_id := Z.land (Z.shiftr dbgmcu_idc 16) 0xFFFF in
  let dev_id := Z.land dbgmcu_idc 0xFFF in
  (if dev_id =? 0x450 then
     tc_printf "STM32H742/743/753/750\n" [];;;
     let rev := resolve_revision rev_id in
     tc_printf "Revision %c\n" [ArgChar rev]
   else if dev_id =? 0x480 then tc_printf "STM32H7B3/7A3/7B0\n" []
   else if dev_id =? 0x483 then tc_printf "STM32H723/733/725/735/730\n" []
   else tc_printf "Unknown STM32H7. This driver may not support it!\n" []);;;
  ret true.

End Driver.

(** ** A debug session *)

Section Session.

Context {W : Type} {P : Platform W}.

(** What the generic layer may ask of the driver once the probe has
    installed it: attach, mass erase, erase or write through one of the
    registered flash descriptors, and the monitor commands. *)
Inductive driver_call : Type :=
| CallAttach
| CallMassErase
| CallFlashErase (bank : nat) (addr len : Z)
| CallFlashWrite (bank : nat) (dest : Z) (src : list Z)
| CallPsize (argc : Z) (argv : list string)
| CallUid
| CallCrc
| CallRev.

Definition fn_ptr_is (p : option fn_ptr) (fn : fn_ptr) : bool :=
  match p with
  | Some q => fn_ptr_eqb q fn
  | None => false
  end.

(** An erase or a write reaches the driver through the function pointer of
    a descriptor in the flash list of the target. *)
Definition through_flash (bank : nat) (slot : stm32h7_flash -> option fn_ptr)
           (fn : fn_ptr) (op : stm32h7_flash -> @M W bool) : @M W unit :=
  fl <- gets flash;;
  match nth_error fl bank with
  | Some f => if fn_ptr_is (slot f) fn then (_ <- op f;; ret tt) else ret tt
  | None => ret tt
  end.

Definition run_call (c : driver_call) : M unit :=
  match c with
  | CallAttach => _ <- stm32h7_attach;; ret tt
  | CallMassErase => _ <- stm32h7_mass_erase;; ret tt
  | CallFlashErase bank addr len =>
      through_flash bank f_erase fn_stm32h7_flash_erase
                    (fun f => stm32h7_flash_erase f addr len)
  | CallFlashWrite bank dest src =>
      through_flash bank f_write fn_stm32h7_flash_write
                    (fun f => stm32h7_flash_write f dest src)
  | CallPsize argc argv => _ <- stm32h7_cmd_psize argc argv;; ret tt
  | CallUid => _ <- stm32h7_uid;; ret tt
  | CallCrc => _ <- stm32h7_crc;; ret tt
  | CallRev => _ <- stm32h7_cmd_rev;; ret tt
  end.

Fixpoint run_calls (cs : list driver_call) : M unit :=
  match cs with
  | [] => ret tt
  | c :: rest => run_call c;;; run_calls rest
  end.

End Session.

(** ** A simulated device *)

(** A register file that answers a read with the last value written (0 where
    nothing was), except that reads of the two status registers are first
    served from a script; the link error flag, the outcome of the core attach
    and the number of allocations that still succeed are fixed up front. *)
Record sim : Type := mk_sim {
  sim_regs : list (Z * Z);
  sim_sr : list Z;
  sim_error : bool;
  sim_attach : bool;
  sim_heap : nat
}.

Definition sim_lookup (regs : list (Z * Z)) (a : Z) : Z :=
  match find (fun p => fst p =? a) regs with
  | Some p => snd p
  | None => 0
  end.

Definition sim_read32 (w : sim) (a : Z) : Z * sim :=
  if (a =? FPEC1_BASE + FLASH_SR) || (a =? FPEC2_BASE + FLASH_SR) then
    match sim_sr w with
    | sr :: rest =>
        (sr, mk_sim (sim_regs w) rest (sim_error w) (sim_attach w) (sim_heap w))
    | [] => (sim_lookup (sim_regs w) a, w)
    end
  else (sim_lookup (sim_regs w) a, w).

Definition sim_write32 (w : sim) (a v : Z) : sim :=
  mk_sim ((a, v) :: sim_regs w) (sim_sr w) (sim_error w) (sim_attach w)
         (sim_heap w).

Definition sim_calloc (w : sim) : bool * sim :=
  match sim_heap w with
  | O => (false, w)
  | S h =>
      (true, mk_sim (sim_regs w) (sim_sr w) (sim_error w) (sim_attach w) h)
  end.

Lemma sim_size_bits : 32 <= 32.
Proof. lia. Qed.

#[export] Instance sim_platform : Platform sim := {|
  size_bits := 32;
  size_bits_ge_32 := sim_size_bits;
  mem_read32 := sim_read32;
  mem_write32 := sim_write32;
  mem_write := fun w _ _ => w;
  check_error := fun w => (sim_error w, w);
  core_attach := fun w => (sim_attach w, w);
  core_detach := fun w => w;
  heap_calloc := sim_calloc
|}.

(** A freshly scanned target on the simulated device. *)
Definition sim_target (w : sim) (reads : nat) (id : Z) : target :=
  mk_target w [] reads id None None None None [] [] [] None.

(** An idle, unlocked, error-free device. *)
Definition sim_idle : sim := mk_sim [] [] false true 8.

(** Bank 1 reports BSY, then QW, then end-of-operation: the busy-wait polls
    three times and succeeds. *)
Definition sim_busy_then_done : target :=
  sim_target (mk_sim [] [0x1; 0x4; 0x10000] false true 8) 16 ID_STM32H74x.

(** Bank 1 reports write-buffer-not-empty and nothing else: the busy-wait
    succeeds on the first read, with a busy indicator set. *)
Definition sim_write_buffer_pending : target :=
  sim_target (mk_sim [] [0x2] false true 8) 16 ID_STM32H74x.

(** Bank 1 reports a write-protection error (bit 17) together with BSY. *)
Definition sim_wrperr : target :=
  sim_target (mk_sim [] [0x20001] false true 8) 16 ID_STM32H74x.

(** The descriptor [stm32h7_add_flash] builds for bank 1. *)
Definition sim_bank1 : stm32h7_flash :=
  mk_flash 0x8000000 0x100000 FLASH_SECTOR_SIZE
           (Some fn_stm32h7_flash_erase) (Some fn_stm32h7_flash_write)
           2048 0xff ALIGN_DWORD FPEC1_BASE.

Definition sim_idle_target : target := sim_target sim_idle 64 ID_STM32H74x.

(** Bank 1 is idle when the write starts and reports a write-protection
    error once the block has been written. *)
Definition sim_write_protected : target :=
  sim_target (mk_sim [] [0x0; 0x20000] false true 8) 64 ID_STM32H74x.


(** The digest registers of the two controllers hold different words. *)
Definition sim_crc_target : target :=
  sim_target (mk_sim [ (FPEC1_BASE + FLASH_CRCDATA, 0x11111111);
                       (FPEC2_BASE + FLASH_CRCDATA, 0x22222222) ]
                     [] false true 8)
             64 ID_STM32H74x.

(** A device whose DBGMCU_CR holds 0x7 when it is scanned, with the software
    watchdog selected. *)
Definition sim_scanned : target :=
  sim_target (mk_sim [ (DBGMCU_CR, 0x7);
                       (FPEC1_BASE + FLASH_OPTSR, FLASH_OPTSR_IWDG1_SW) ]
                     [] false true 8)
             64 ID_STM32H74x.

Definition sim_probed : target := final (stm32h7_probe sim_scanned).

(** A scanned device whose DBGMCU_CR holds 0x7, for any part id. *)
Definition sim_part (id : Z) : target :=
  sim_target (mk_sim [(DBGMCU_CR, 0x7)] [] false true 8) 64 id.

(** A target with the two banks of the driver set to 32-bit parallelism and
    a descriptor of another driver. *)
Definition sim_with_flash : target :=
  mk_target sim_idle [] 64 ID_STM32H74x None None None None [] []
            [ mk_flash 0x8000000 0x100000 FLASH_SECTOR_SIZE
                       (Some fn_stm32h7_flash_erase)
                       (Some fn_stm32h7_flash_write)
                       2048 0xff ALIGN_WORD FPEC1_BASE;
              mk_flash 0x8100000 0x100000 FLASH_SECTOR_SIZE
                       (Some fn_stm32h7_flash_erase)
                       (Some fn_stm32h7_flash_write)
                       2048 0xff ALIGN_WORD FPEC2_BASE;
              mk_flash 0x90000000 0x1000 0x100
                       (Some (fn_foreign 0)) (Some (fn_foreign 1))
                       256 0xff ALIGN_BYTE 0 ]
            None.

(** ** The sector erase, as the specification words it *)

Section ErasePlan.

Context {W : Type} {P : Platform W}.

(** The sector indices [first], [first + 1], ... in ascending order. *)
Fixpoint span_from (first : Z) (count : nat) : list Z :=
  match count with
  | O => []
  | S c => first :: span_from (first + 1) c
  end.

(** The sectors [first .. last], both inclusive. *)
Definition sector_span (first last : Z) : list Z :=
  span_from first (Z.to_nat (last + 1 - first)).

(** The command word of a sector: parallelism, sector-erase mode and the
    sector number. *)
Definition sector_erase_cmd (psize : align) (sector : Z) : Z :=
  Z.lor (Z.lor (align_val psize * FLASH_CR_PSIZE16) FLASH_CR_SER)
        (sector * FLASH_CR_SNB_1).

(** The two writes that arm and then trigger the erase of a sector. *)
Definition arm_then_trigger (psize : align) (sector : Z) : list Z :=
  [sector_erase_cmd psize sector;
   Z.lor (sector_erase_cmd psize sector) FLASH_CR_START].

(** For each sector in turn: write the command word, write it again with the
    start bit, wait for readiness; the first failed wait ends the operation
    with failure. *)
Fixpoint erase_sectors (f : stm32h7_flash) (sectors : list Z) : M bool :=
  match sectors with
  | [] => ret true
  | k :: rest =>
      target_mem_write32 (add32 (regbase f) FLASH_CR)
                         (sector_erase_cmd (psize f) k);;;
      target_mem_write32 (add32 (regbase f) FLASH_CR)
                         (Z.lor (sector_erase_cmd (psize f) k) FLASH_CR_START);;;
      ok <- stm32h7_flash_busy_wait (regbase f);;
      if ok then erase_sectors f rest else ret false
  end.

(** The address masked to the bank window. *)
Definition bank_relative (addr : Z) : Z :=
  Z.land addr (NUM_SECTOR_PER_BANK * FLASH_SECTOR_SIZE - 1).

(** The sectors from [floor (addr_rel / sector_size)] to
    [floor ((addr_rel + len - 1) / sector_size)]. *)
Definition erase_span (addr len : Z) : list Z :=
  sector_span (bank_relative addr / FLASH_SECTOR_SIZE)
              ((bank_relative addr + len - 1) / FLASH_SECTOR_SIZE).

(** Unlock, reset the access-timing register, then erase the sectors of the
    span. *)
Definition erase_plan (f : stm32h7_flash) (addr len : Z) : M bool :=
  ok <- stm32h7_flash_unlock addr;;
  if ok then
    target_mem_write32 (add32 (regbase f) FLASH_ACR) 0;;;
    erase_sectors f (erase_span addr len)
  else ret false.

End ErasePlan.

(** ** Vocabulary of the statements *)

(** A status word on which the busy-wait polls again: no error bit, and BSY
    or QW set. *)
Definition keeps_polling (sr : Z) : Prop :=
  Z.land sr FLASH_SR_ERROR_MASK = 0 /\
  Z.land sr (Z.lor FLASH_SR_BSY FLASH_SR_QW) <> 0.

Definition polls (addr : Z) (srs : list Z) : list event :=
  map (EvRead32 addr) srs.

Definition is_read32 (e : event) : bool :=
  match e with EvRead32 _ _ => true | _ => false end.

(** Register accesses confined to the given addresses, and nothing else. *)
Definition touches (reads writes : list Z) (e : event) : Prop :=
  match e with
  | EvRead32 a _ => In a reads
  | EvWrite32 a _ => In a writes
  | _ => False
  end.

(** No condition on the events. *)
Definition anything (e : event) : Prop := True.

(** The value of the last 32-bit write to [addr] among [evs], if any. *)
Fixpoint last_write32 (addr : Z) (evs : list event) : option Z :=
  match evs with
  | [] => None
  | e :: rest =>
      match last_write32 addr rest with
      | Some v => Some v
      | None =>
          match e with
          | EvWrite32 a v => if a =? addr then Some v else None
          | _ => None
          end
      end
  end.

(** The values written to the 32-bit register [addr] among [evs], in
    order. *)
Fixpoint writes_to (addr : Z) (evs : list event) : list Z :=
  match evs with
  | [] => []
  | EvWrite32 a v :: rest =>
      if a =? addr then v :: writes_to addr rest else writes_to addr rest
  | _ :: rest => writes_to addr rest
  end.

(** ** Vocabulary of the further statements *)

(** The descriptor [stm32h7_add_flash] registers for the bank at [start],
    with the parallelism [ps] the psize command may have stored since. *)
Definition bank_descriptor (start : Z) (ps : align) : stm32h7_flash :=
  mk_flash start 0x100000 FLASH_SECTOR_SIZE
           (Some fn_stm32h7_flash_erase) (Some fn_stm32h7_flash_write)
           2048 0xff ps (regbase_of start).

(** A descriptor that carries the write routine of the driver is one of the
    two bank descriptors. *)
Definition driver_descriptor_ok (f : stm32h7_flash) : Prop :=
  is_stm32h7_flash f = true ->
  exists ps, f = bank_descriptor 0x8000000 ps
             \/ f = bank_descriptor 0x8100000 ps.

(** Events that change the device: register and block writes. *)
Definition is_write (e : event) : bool :=
  match e with
  | EvWrite32 _ _ | EvWriteBlock _ _ => true
  | _ => false
  end.

(** The arguments the psize command accepts and the parallelism each
    names. *)
Definition psize_arguments : list (string * align) :=
  [ ("x8"%string, ALIGN_BYTE); ("x16"%string, ALIGN_HALFWORD);
    ("x32"%string, ALIGN_WORD); ("x64"%string, ALIGN_DWORD) ].

(** [f'] is [f] up to the write parallelism, which is [p] if [f] is a
    descriptor of the driver and unchanged otherwise. *)
Definition psize_stored (p : align) (f f' : stm32h7_flash) : Prop :=
  f_start f' = f_start f /\ f_length f' = f_length f
  /\ f_blocksize f' = f_blocksize f /\ f_erase f' = f_erase f
  /\ f_write f' = f_write f /\ f_writesize f' = f_writesize f
  /\ f_erased f' = f_erased f /\ regbase f' = regbase f
  /\ psize f' = (if is_stm32h7_flash f then p else psize f).

(** The four bytes of a 32-bit word, most significant first, and the word
    they stand for. *)
Definition be_bytes (v : Z) : list Z :=
  [v / 2 ^ 24 mod 256; v / 2 ^ 16 mod 256; v / 2 ^ 8 mod 256; v mod 256].

Definition be_decode (bytes : list Z) : Z :=
  fold_left (fun acc b => acc * 256 + b) bytes 0.

(** What the uid command does for one word: the read, then one "%02X" per
    byte. *)
Definition uid_line (addr v : Z) : list event :=
  EvRead32 addr v :: map (fun b => EvPrintf "%02X" [ArgInt b]) (be_bytes v).

(** * Properties *)

Section Properties.

Context {W : Type} {P : Platform W}.

(** ** Runs of the busy-wait *)

Lemma nonzero_true (x : Z) : nonzero x = true <-> x <> 0.
Proof.
  unfold nonzero. destruct (Z.eqb_spec x 0); simpl; split; intros; congruence.
Qed.

Lemma nonzero_false (x : Z) : nonzero x = false <-> x = 0.
Proof.
  unfold nonzero. destruct (Z.eqb_spec x 0); simpl; split; intros; congruence.
Qed.

(** Projections of updated targets, and the monad's plumbing. *)
Ltac fields :=
  cbn [world log budget part_id driver mass_erase attach detach commands ram
       flash target_storage set_world set_budget emit set_hooks set_commands
       set_ram set_flash set_storage session ret bind gets modify final
       stall fault with_budget polls map fst snd] in *.

Ltac log_eq := rewrite <- ?app_assoc; cbn [app]; reflexivity.

(** *** What a piece of driver code may emit *)

(** [emits ok m]: from every target, [m] only appends to the log, every
    event it appends satisfies [ok], and it leaves the private storage of the
    driver alone. *)
Definition emits {A} (ok : event -> Prop) (m : M A) : Prop :=
  forall t : @target W,
    exists evs,
      log (final (m t)) = log t ++ evs
      /\ Forall ok evs
      /\ target_storage (final (m t)) = target_storage t.

Lemma emits_nothing {A} (ok : event -> Prop) (m : M A) :
  (forall t, log (final (m t)) = log t
             /\ target_storage (final (m t)) = target_storage t) ->
  emits ok m.
Proof.
  intros H t. exists []. rewrite app_nil_r. destruct (H t). auto.
Qed.

Lemma emits_ret {A} ok (a : A) : emits ok (ret a).
Proof. apply emits_nothing. intros t. cbn. auto. Qed.

Lemma emits_stall {A} ok : emits ok (@stall W A).
Proof. apply emits_nothing. intros t. cbn. auto. Qed.

Lemma emits_fault {A} ok : emits ok (@fault W A).
Proof. apply emits_nothing. intros t. cbn. auto. Qed.

Lemma emits_gets {A} ok (f : target -> A) : emits ok (gets f).
Proof. apply emits_nothing. intros t. cbn. auto. Qed.

Lemma emits_modify ok (f : @target W -> target) :
  (forall t, log (f t) = log t /\ target_storage (f t) = target_storage t) ->
  emits ok (modify f).
Proof. intros H. apply emits_nothing. intros t. cbn. apply H. Qed.

Lemma emits_bind {A B} ok (m : M A) (k : A -> M B) :
  emits ok m -> (forall a, emits ok (k a)) -> emits ok (bind m k).
Proof.
  intros Hm Hk t. unfold bind.
  destruct (Hm t) as (evs & Hl & Hok & Hs).
  destruct (m t) as [a t1|t1|t1]; cbn [final] in *.
  - destruct (Hk a t1) as (evs' & Hl' & Hok' & Hs').
    exists (evs ++ evs'). repeat apply conj.
    + rewrite Hl', Hl. log_eq.
    + apply Forall_app. auto.
    + congruence.
  - exists evs. auto.
  - exists evs. auto.
Qed.

Lemma emits_with_budget {A} ok (loop : nat -> M A) :
  (forall n, emits ok (loop n)) -> emits ok (with_budget loop).
Proof. intros H t. unfold with_budget. apply H. Qed.

Lemma emits_weaken {A} (ok ok' : event -> Prop) (m : M A) :
  (forall e, ok e -> ok' e) -> emits ok m -> emits ok' m.
Proof.
  intros Himp Hm t. destruct (Hm t) as (evs & Hl & Hok & Hs).
  exists evs. repeat apply conj; auto.
  eapply Forall_impl; eauto.
Qed.

Lemma emits_read32 ok (addr : Z) :
  (forall v, ok (EvRead32 addr v)) -> emits ok (target_mem_read32 addr).
Proof.
  intros Hok t. unfold target_mem_read32.
  destruct (budget t).
  - exists []. rewrite app_nil_r. cbn. auto.
  - destruct (mem_read32 (world t) addr) as [v w].
    exists [EvRead32 addr (u32 v)]. cbn. auto.
Qed.

Lemma emits_write32 (ok : event -> Prop) (addr val : Z) :
  ok (EvWrite32 addr val) -> emits ok (target_mem_write32 addr val).
Proof.
  intros Hok t. exists [EvWrite32 addr val]. cbn. auto.
Qed.

Lemma emits_write (ok : event -> Prop) (dest : Z) (src : list Z) :
  ok (EvWriteBlock dest src) -> emits ok (target_mem_write dest src).
Proof.
  intros Hok t. exists [EvWriteBlock dest src]. cbn. auto.
Qed.

Lemma emits_check_error ok : emits ok target_check_error.
Proof.
  apply emits_nothing. intros t. unfold target_check_error.
  destruct (check_error (world t)). cbn. auto.
Qed.

Lemma emits_calloc ok : emits ok calloc.
Proof.
  apply emits_nothing. intros t. unfold calloc.
  destruct (heap_calloc (world t)). cbn. auto.
Qed.

Lemma emits_printf (ok : event -> Prop) fmt args :
  ok (EvPrintf fmt args) -> emits ok (tc_printf fmt args).
Proof. intros Hok t. exists [EvPrintf fmt args]. cbn. auto. Qed.

Lemma emits_progress (ok : event -> Prop) timeout :
  ok (EvProgress timeout) -> emits ok (target_print_progress timeout).
Proof. intros Hok t. exists [EvProgress timeout]. cbn. auto. Qed.

Lemma emits_cortexm_attach (ok : event -> Prop) :
  (forall b, ok (EvCortexmAttach b)) -> emits ok cortexm_attach.
Proof.
  intros Hok t. unfold cortexm_attach.
  destruct (core_attach (world t)) as [b w].
  exists [EvCortexmAttach b]. cbn. auto.
Qed.

Lemma emits_cortexm_detach (ok : event -> Prop) :
  ok EvCortexmDetach -> emits ok cortexm_detach.
Proof. intros Hok t. exists [EvCortexmDetach]. cbn. auto. Qed.

(** Breaks driver code down to its primitives; what is left are the
    conditions on the events and the loops. *)
Ltac emits_step :=
  match goal with
  | |- emits _ (bind _ _) => apply emits_bind; [| intros ?]
  | |- emits _ (ret _) => apply emits_ret
  | |- emits _ stall => apply emits_stall
  | |- emits _ fault => apply emits_fault
  | |- emits _ (gets _) => apply emits_gets
  | |- emits _ (modify _) => apply emits_modify; intros ?; cbn; auto
  | |- emits _ (with_budget _) => apply emits_with_budget; intros ?
  | |- emits _ (target_mem_read32 _) => apply emits_read32; intros ?
  | |- emits _ (target_mem_write32 _ _) => apply emits_write32
  | |- emits _ (target_mem_write _ _) => apply emits_write
  | |- emits _ target_check_error => apply emits_check_error
  | |- emits _ calloc => apply emits_calloc
  | |- emits _ (tc_printf _ _) => apply emits_printf
  | |- emits _ (target_print_progress _) => apply emits_progress
  | |- emits _ cortexm_attach => apply emits_cortexm_attach; intros ?
  | |- emits _ cortexm_detach => apply emits_cortexm_detach
  | |- emits _ (if ?b then _ else _) => destruct b
  | |- emits _ (match ?x with _ => _ end) => destruct x
  end.

Lemma busy_wait_loop_run (n : nat) (regbase : Z) :
  forall t,
    match busy_wait_loop n regbase t with
    | Ret r t' =>
        exists srs sr,
          log t' = log t ++ polls (add32 regbase FLASH_SR) srs
                     ++ EvRead32 (add32 regbase FLASH_SR) sr
                     :: (if r then []
                         else [EvWrite32 (add32 regbase FLASH_CCR)
                                         (Z.land sr FLASH_SR_ERROR_MASK)])
          /\ Forall keeps_polling srs
          /\ (r = true ->
              Z.land sr FLASH_SR_ERROR_MASK = 0 /\
              Z.land sr (Z.lor FLASH_SR_BSY FLASH_SR_QW) = 0)
          /\ (budget t' < budget t)%nat
          /\ session t' = session t
    | Stall t' =>
        exists srs,
          log t' = log t ++ polls (add32 regbase FLASH_SR) srs
          /\ Forall keeps_polling srs
          /\ session t' = session t
    | Fault _ => False
    end.
Proof.
  induction n as [|n IH]; intros t.
  - cbn [busy_wait_loop stall]. exists []. cbn [polls map]. rewrite app_nil_r. auto.
  - cbn [busy_wait_loop]. unfold bind at 1. unfold target_mem_read32.
    destruct (budget t) as [|b] eqn:Hb.
    { exists []. cbn [polls map]. rewrite app_nil_r. auto. }
    destruct (mem_read32 (world t) (add32 regbase FLASH_SR)) as [v w] eqn:Hr.
    set (sr := u32 v).
    unfold bind at 1.
    destruct (nonzero (Z.land sr FLASH_SR_ERROR_MASK)) eqn:He.
    { unfold ret at 1. fields. exists [], sr. fields.
      repeat apply conj; auto; try discriminate.
      log_eq. }
    unfold target_check_error. fields.
    destruct (check_error w) as [e w'] eqn:Hc.
    apply nonzero_false in He.
    destruct e.
    { fields. exists [], sr. fields.
      repeat apply conj; auto; try discriminate.
      log_eq. }
    destruct (nonzero (Z.land sr (Z.lor FLASH_SR_BSY FLASH_SR_QW))) eqn:Hq.
    + apply nonzero_true in Hq.
      match goal with
      | |- match busy_wait_loop n regbase ?t1 with _ => _ end =>
          specialize (IH t1); destruct (busy_wait_loop n regbase t1)
            as [r t'|t'|t']
      end.
      * destruct IH as (srs & sr' & Hlog & Hall & Hok & Hbud & Hses).
        exists (sr :: srs), sr'. repeat apply conj.
        -- rewrite Hlog. fields. log_eq.
        -- constructor; [split; assumption | assumption].
        -- exact Hok.
        -- fields. lia.
        -- rewrite Hses. reflexivity.
      * destruct IH as (srs & Hlog & Hall & Hses).
        exists (sr :: srs). repeat apply conj.
        -- rewrite Hlog. fields. log_eq.
        -- constructor; [split; assumption | assumption].
        -- rewrite Hses. reflexivity.
      * exact IH.
    + apply nonzero_false in Hq. fields.
      exists [], sr. fields. repeat apply conj; auto.
Qed.

Lemma busy_wait_run (regbase : Z) (t : target) :
  match stm32h7_flash_busy_wait regbase t with
  | Ret r t' =>
      exists srs sr,
        log t' = log t ++ polls (add32 regbase FLASH_SR) srs
                   ++ EvRead32 (add32 regbase FLASH_SR) sr
                   :: (if r then []
                       else [EvWrite32 (add32 regbase FLASH_CCR)
                                       (Z.land sr FLASH_SR_ERROR_MASK)])
        /\ Forall keeps_polling srs
        /\ (r = true ->
            Z.land sr FLASH_SR_ERROR_MASK = 0 /\
            Z.land sr (Z.lor FLASH_SR_BSY FLASH_SR_QW) = 0)
        /\ (budget t' < budget t)%nat
        /\ session t' = session t
  | Stall t' =>
      exists srs,
        log t' = log t ++ polls (add32 regbase FLASH_SR) srs
        /\ Forall keeps_polling srs
        /\ session t' = session t
  | Fault _ => False
  end.
Proof. apply busy_wait_loop_run. Qed.

(** Where a status word with an error bit can stand in a run of polls that
    ends with [last] and the events [tl]: only at [last]. *)
Lemma error_poll_is_last (a : Z) (srs : list Z) :
  forall pre post sr last tl,
    Forall keeps_polling srs ->
    Z.land sr FLASH_SR_ERROR_MASK <> 0 ->
    existsb is_read32 tl = false ->
    pre ++ EvRead32 a sr :: post = polls a srs ++ EvRead32 a last :: tl ->
    sr = last /\ post = tl.
Proof.
  induction srs as [|s srs IH]; intros pre post sr last tl Hall Herr Htl Heq.
  - cbn [polls map app] in Heq. destruct pre as [|e pre].
    + cbn [app] in Heq. injection Heq as -> ->. auto.
    + cbn [app] in Heq. injection Heq as _ Heq.
      assert (Hin : In (EvRead32 a sr) tl).
      { rewrite <- Heq. apply in_or_app. right. left. reflexivity. }
      assert (Hex : existsb is_read32 tl = true).
      { apply existsb_exists. exists (EvRead32 a sr). auto. }
      congruence.
  - inversion Hall as [|? ? Hs Hall']; subst.
    cbn [polls map app] in Heq. destruct pre as [|e pre].
    + cbn [app] in Heq. injection Heq as Hsr _. subst s.
      destruct Hs as [Hs _]. contradiction.
    + cbn [app] in Heq. injection Heq as _ Heq.
      eapply IH; eauto.
Qed.

Lemma error_poll_not_among (a : Z) (srs : list Z) (pre post : list event)
      (sr : Z) :
  Forall keeps_polling srs ->
  Z.land sr FLASH_SR_ERROR_MASK <> 0 ->
  pre ++ EvRead32 a sr :: post <> polls a srs.
Proof.
  intros Hall Herr Heq.
  assert (Hin : In (EvRead32 a sr) (polls a srs)).
  { rewrite <- Heq. apply in_or_app. right. left. reflexivity. }
  unfold polls in Hin. apply in_map_iff in Hin.
  destruct Hin as (s & Hs & Hin). injection Hs as ->.
  rewrite Forall_forall in Hall. destruct (Hall _ Hin). contradiction.
Qed.

(** *** What the busy-wait guarantees *)

(** C3 (amended): the busy-wait never returns success while the busy (BSY)
    or the queued-write-pending (QW) bit is set in the status word it read
    last: a successful busy-wait ends with a read of the bank's status
    register whose value has BSY, QW and every error bit clear.  The
    write-buffer-not-empty and crc-busy bits are not looked at. *)
Theorem busy_wait_success_not_busy (regbase : Z) (t t' : target) :
  stm32h7_flash_busy_wait regbase t = Ret true t' ->
  exists pre sr,
    log t' = log t ++ pre ++ [EvRead32 (add32 regbase FLASH_SR) sr]
    /\ Z.land sr FLASH_SR_BSY = 0
    /\ Z.land sr FLASH_SR_QW = 0
    /\ Z.land sr FLASH_SR_ERROR_MASK = 0.
Proof.
  intros Hrun. pose proof (busy_wait_run regbase t) as H.
  rewrite Hrun in H. destruct H as (srs & sr & Hlog & _ & Hok & _).
  destruct (Hok eq_refl) as [Herr Hbusy].
  rewrite Z.land_lor_distr_r in Hbusy. apply Z.lor_eq_0_iff in Hbusy.
  exists (polls (add32 regbase FLASH_SR) srs), sr. tauto.
Qed.

(** C6: whenever the busy-wait reads a status word with an error bit set, that
    read is its last: it returns failure, and the one thing it still does is
    to write the observed word, masked with FLASH_SR_ERROR_MASK, to the
    clear-status register FLASH_CCR of the same bank. *)
Theorem busy_wait_error_acknowledged
        (regbase : Z) (t : target) (pre post : list event) (sr : Z) :
  log (final (stm32h7_flash_busy_wait regbase t))
  = log t ++ pre ++ EvRead32 (add32 regbase FLASH_SR) sr :: post ->
  Z.land sr FLASH_SR_ERROR_MASK <> 0 ->
  exists t',
    stm32h7_flash_busy_wait regbase t = Ret false t'
    /\ post = [EvWrite32 (add32 regbase FLASH_CCR)
                         (Z.land sr FLASH_SR_ERROR_MASK)].
Proof.
  intros Hlog Herr. pose proof (busy_wait_run regbase t) as H.
  destruct (stm32h7_flash_busy_wait regbase t) as [r t1|t1|t1];
    cbn [final] in Hlog.
  - destruct H as (srs & last & Hl & Hall & Hok & _).
    rewrite Hl in Hlog. apply app_inv_head in Hlog. symmetry in Hlog.
    destruct r.
    + apply error_poll_is_last in Hlog; auto.
      destruct Hlog as [-> _]. destruct (Hok eq_refl). contradiction.
    + apply error_poll_is_last in Hlog; auto.
      destruct Hlog as [-> ->]. exists t1. auto.
  - destruct H as (srs & Hl & Hall & _).
    rewrite Hl in Hlog. apply app_inv_head in Hlog. symmetry in Hlog.
    exfalso. eapply error_poll_not_among; eauto.
  - contradiction.
Qed.

(** *** Unfolding a step *)

Lemma bind_read32 {A} (addr : Z) (k : Z -> M A) (t : target) :
  bind (target_mem_read32 addr) k t
  = match budget t with
    | O => Stall t
    | S b =>
        k (u32 (fst (mem_read32 (world t) addr)))
          (emit (EvRead32 addr (u32 (fst (mem_read32 (world t) addr))))
                (set_budget b (set_world (snd (mem_read32 (world t) addr)) t)))
    end.
Proof.
  unfold bind, target_mem_read32. destruct (budget t); [reflexivity|].
  destruct (mem_read32 (world t) addr). reflexivity.
Qed.

Lemma bind_check_error {A} (k : bool -> M A) (t : target) :
  bind target_check_error k t
  = k (fst (check_error (world t)))
      (set_world (snd (check_error (world t))) t).
Proof.
  unfold bind, target_check_error. destruct (check_error (world t)).
  reflexivity.
Qed.

Lemma bind_ret {A B} (a : A) (k : A -> M B) (t : @target W) :
  bind (ret a) k t = k a t.
Proof. reflexivity. Qed.

(** *** The loop counters are idle *)

(** A polling loop never ends because of its counter: above the read budget
    the counter makes no difference. *)
Lemma busy_wait_loop_counter (regbase : Z) (n : nat) :
  forall (m : nat) (t : target),
    (budget t < n)%nat -> (budget t < m)%nat ->
    busy_wait_loop n regbase t = busy_wait_loop m regbase t.
Proof.
  induction n as [|n IH]; intros m t Hn Hm; [lia|].
  destruct m as [|m]; [lia|].
  cbn [busy_wait_loop]. rewrite !bind_read32.
  destruct (budget t) as [|b] eqn:Hb; [reflexivity|].
  destruct (nonzero (Z.land _ FLASH_SR_ERROR_MASK)).
  - rewrite !bind_ret. reflexivity.
  - rewrite !bind_check_error.
    destruct (fst (check_error _)); [reflexivity|].
    destruct (nonzero (Z.land _ (Z.lor FLASH_SR_BSY FLASH_SR_QW)));
      [|reflexivity].
    apply IH; fields; lia.
Qed.

Lemma wait_erase_bank_loop_counter (timeout reg_base : Z) (n : nat) :
  forall (m : nat) (t : target),
    (budget t < n)%nat -> (budget t < m)%nat ->
    wait_erase_bank_loop n timeout reg_base t
    = wait_erase_bank_loop m timeout reg_base t.
Proof.
  induction n as [|n IH]; intros m t Hn Hm; [lia|].
  destruct m as [|m]; [lia|].
  cbn [wait_erase_bank_loop]. rewrite !bind_read32.
  destruct (budget t) as [|b] eqn:Hb; [reflexivity|].
  destruct (nonzero (Z.land _ FLASH_SR_QW)); [|reflexivity].
  rewrite !bind_check_error.
  destruct (fst (check_error _)); [reflexivity|].
  unfold bind, target_print_progress. apply IH; fields; lia.
Qed.

Lemma crc_bank_loop_counter (regbase : Z) (n : nat) :
  forall (m : nat) (t : target),
    (budget t < n)%nat -> (budget t < m)%nat ->
    crc_bank_loop n regbase t = crc_bank_loop m regbase t.
Proof.
  induction n as [|n IH]; intros m t Hn Hm; [lia|].
  destruct m as [|m]; [lia|].
  cbn [crc_bank_loop]. rewrite !bind_read32.
  destruct (budget t) as [|b] eqn:Hb; [reflexivity|].
  destruct (nonzero (Z.land _ FLASH_SR_CRC_BUSY)); [|reflexivity].
  rewrite !bind_check_error.
  destruct (fst (check_error _)); [reflexivity|].
  destruct (nonzero (Z.land _ FLASH_SR_ERROR_READ)); [reflexivity|].
  apply IH; fields; lia.
Qed.

(** A status word without busy and error bits ends the busy-wait at the
    first poll, with success. *)
Lemma busy_wait_idle (regbase : Z) (t : target) (b : nat) (v : Z) (w w' : W) :
  budget t = S b ->
  mem_read32 (world t) (add32 regbase FLASH_SR) = (v, w) ->
  Z.land (u32 v) FLASH_SR_ERROR_MASK = 0 ->
  Z.land (u32 v) (Z.lor FLASH_SR_BSY FLASH_SR_QW) = 0 ->
  check_error w = (false, w') ->
  exists t',
    stm32h7_flash_busy_wait regbase t = Ret true t'
    /\ log t' = log t ++ [EvRead32 (add32 regbase FLASH_SR) (u32 v)].
Proof.
  intros Hb Hr He Hq Hc. unfold stm32h7_flash_busy_wait, with_budget.
  rewrite Hb. cbn [busy_wait_loop]. unfold bind at 1.
  unfold target_mem_read32. rewrite Hb, Hr.
  apply nonzero_false in He. apply nonzero_false in Hq.
  unfold bind at 1. rewrite He. unfold target_check_error. fields.
  rewrite Hc, Hq. eexists. split; reflexivity.
Qed.

(** *** The busy-wait and the unlock sequence touch their own bank only *)

Lemma busy_wait_emits (regbase : Z) :
  emits (touches [add32 regbase FLASH_SR] [add32 regbase FLASH_CCR])
        (stm32h7_flash_busy_wait regbase).
Proof.
  unfold stm32h7_flash_busy_wait. apply emits_with_budget. intros n.
  induction n as [|n IH]; cbn [busy_wait_loop].
  - apply emits_stall.
  - repeat emits_step; cbn; auto.
Qed.

Lemma unlock_emits (addr : Z) :
  emits (touches [add32 (regbase_of addr) FLASH_SR;
                  add32 (regbase_of addr) FLASH_CR]
                 [add32 (regbase_of addr) FLASH_CCR;
                  add32 (regbase_of addr) FLASH_KEYR])
        (stm32h7_flash_unlock addr).
Proof.
  unfold stm32h7_flash_unlock.
  apply emits_bind.
  { eapply emits_weaken; [| apply busy_wait_emits].
    intros [] H; cbn in *; tauto. }
  intros ok. repeat emits_step; cbn; auto.
Qed.

Lemma last_write32_app (addr : Z) (l1 l2 : list event) :
  last_write32 addr (l1 ++ l2)
  = match last_write32 addr l2 with
    | Some v => Some v
    | None => last_write32 addr l1
    end.
Proof.
  induction l1 as [|e l1 IH]; cbn [app last_write32].
  - destruct (last_write32 addr l2); reflexivity.
  - rewrite IH. destruct (last_write32 addr l2); reflexivity.
Qed.

Lemma last_write32_untouched (addr : Z) (reads writes : list Z)
      (evs : list event) :
  Forall (touches reads writes) evs -> ~ In addr writes ->
  last_write32 addr evs = None.
Proof.
  intros Hall Hnot. induction Hall as [|e evs He Hall IH]; cbn [last_write32].
  - reflexivity.
  - rewrite IH. destruct e; try reflexivity.
    cbn in He. destruct (Z.eqb_spec addr0 addr); [subst; contradiction|].
    reflexivity.
Qed.

Lemma last_write32_polls (addr a : Z) (srs : list Z) :
  last_write32 addr (polls a srs) = None.
Proof.
  induction srs as [|s srs IH]; cbn [polls map last_write32]; [reflexivity|].
  unfold polls in IH. rewrite IH. reflexivity.
Qed.

(** *** Program *)

(** C4 (amended): in program (flash write) the control register is cleared
    to 0, closing the write window, exactly on the path that reports
    success.  When the write reports failure the control register is not
    cleared: either the unlock failed and FLASH_CR was never written, or the
    busy-wait after the block write reported an error and the last value
    written to FLASH_CR is the program-enable word (psize field with PG
    set). *)
Theorem flash_write_window
        (f : stm32h7_flash) (dest : Z) (src : list Z) (t : target)
        (r : bool) (t' : target) :
  regbase f = FPEC1_BASE \/ regbase f = FPEC2_BASE ->
  stm32h7_flash_write f dest src t = Ret r t' ->
  exists evs,
    log t' = log t ++ evs
    /\ if r then last_write32 (add32 (regbase f) FLASH_CR) evs = Some 0
       else last_write32 (add32 (regbase f) FLASH_CR) evs <> Some 0
            /\ (last_write32 (add32 (regbase f) FLASH_CR) evs = None
                \/ last_write32 (add32 (regbase f) FLASH_CR) evs
                   = Some (Z.lor (align_val (psize f) * FLASH_CR_PSIZE16)
                                 FLASH_CR_PG)).
Proof.
  intros Hrb Hrun. unfold stm32h7_flash_write in Hrun.
  unfold bind at 1 in Hrun.
  destruct (unlock_emits dest t) as (evs1 & Hl1 & Hok1 & _).
  destruct (stm32h7_flash_unlock dest t) as [ok t1|t1|t1] eqn:Hu;
    try discriminate.
  cbn [final] in Hl1.
  destruct ok; cbn [negb] in Hrun.
  2:{ cbn in Hrun. injection Hrun as <- <-.
      exists evs1. split; [exact Hl1|].
      assert (Hnone : last_write32 (add32 (regbase f) FLASH_CR) evs1 = None).
      { eapply last_write32_untouched; [exact Hok1|].
        unfold regbase_of. destruct (BANK2_START <=? dest);
          destruct Hrb as [-> | ->]; vm_compute; intuition discriminate. }
      rewrite Hnone. split; [discriminate | left; reflexivity]. }
  unfold bind, target_mem_write32, target_mem_write in Hrun.
  set (cr := add32 (regbase f) FLASH_CR) in *.
  assert (Hcc : (add32 (regbase f) FLASH_CCR =? cr) = false).
  { subst cr. destruct Hrb as [-> | ->]; reflexivity. }
  match type of Hrun with
  | match stm32h7_flash_busy_wait ?rb ?t3 with _ => _ end = _ =>
      pose proof (busy_wait_run rb t3) as Hbw;
      destruct (stm32h7_flash_busy_wait rb t3) as [ok2 t4|t4|t4];
      try discriminate
  end.
  destruct Hbw as (srs & sr & Hl4 & _).
  fields. rewrite Hl1 in Hl4.
  destruct ok2; cbn [negb] in Hrun.
  - cbn in Hrun. injection Hrun as <- <-. fields.
    exists (evs1 ++ [EvWrite32 cr (align_val (psize f) * FLASH_CR_PSIZE16);
                     EvWrite32 cr (Z.lor (align_val (psize f) * FLASH_CR_PSIZE16)
                                         FLASH_CR_PG);
                     EvWriteBlock dest src]
                 ++ polls (add32 (regbase f) FLASH_SR) srs
                 ++ [EvRead32 (add32 (regbase f) FLASH_SR) sr]
                 ++ [EvWrite32 cr 0]).
    split.
    + rewrite Hl4. log_eq.
    + rewrite !last_write32_app. cbn [last_write32].
      rewrite Z.eqb_refl. reflexivity.
  - cbn in Hrun. injection Hrun as <- <-.
    exists (evs1 ++ [EvWrite32 cr (align_val (psize f) * FLASH_CR_PSIZE16);
                     EvWrite32 cr (Z.lor (align_val (psize f) * FLASH_CR_PSIZE16)
                                         FLASH_CR_PG);
                     EvWriteBlock dest src]
                 ++ polls (add32 (regbase f) FLASH_SR) srs
                 ++ [EvRead32 (add32 (regbase f) FLASH_SR) sr;
                     EvWrite32 (add32 (regbase f) FLASH_CCR)
                               (Z.land sr FLASH_SR_ERROR_MASK)]).
    split.
    + rewrite Hl4. log_eq.
    + rewrite !last_write32_app. cbn [last_write32].
      rewrite Hcc, last_write32_polls, Z.eqb_refl.
      split; [| right; reflexivity].
      intros H. injection H as H. apply Z.lor_eq_0_iff in H.
      destruct H as [_ H]. discriminate.
Qed.

(** *** The erase loop visits the sectors of the plan *)

Lemma lor_below (n a b : Z) :
  0 <= a < 2 ^ n -> 0 <= b < 2 ^ n -> 0 <= Z.lor a b < 2 ^ n.
Proof.
  intros Ha Hb. split; [apply Z.lor_nonneg; lia|].
  destruct (Z.eq_dec (Z.lor a b) 0) as [->|Hnz]; [lia|].
  assert (Hn : 0 < n).
  { destruct (Z.lt_trichotomy n 0) as [H|[H|H]]; [| |exact H].
    - rewrite Z.pow_neg_r in Ha by lia. lia.
    - subst n. change (2 ^ 0) with 1 in *.
      assert (a = 0) by lia. assert (b = 0) by lia. subst. contradiction. }
  assert (Hnn : 0 <= Z.lor a b) by (apply Z.lor_nonneg; lia).
  apply Z.log2_lt_pow2; [lia|].
  rewrite Z.log2_lor by lia.
  apply Z.max_lub_lt.
  - destruct (Z.eq_dec a 0) as [->|]; [cbn; lia|].
    apply Z.log2_lt_pow2; lia.
  - destruct (Z.eq_dec b 0) as [->|]; [cbn; lia|].
    apply Z.log2_lt_pow2; lia.
Qed.

Lemma size_t_small (x : Z) : 0 <= x < 2 ^ 32 -> size_t x = x.
Proof.
  intros Hx. unfold size_t. apply Z.mod_small.
  pose proof size_bits_ge_32.
  assert (2 ^ 32 <= 2 ^ size_bits) by (apply Z.pow_le_mono_r; lia).
  lia.
Qed.

Lemma ctrl_reg_sector (ps : align) (k : Z) :
  0 <= k < 2 ^ 15 ->
  u32 (Z.lor (Z.lor (align_val ps * FLASH_CR_PSIZE16) FLASH_CR_SER)
             (size_t (k * FLASH_CR_SNB_1)))
  = sector_erase_cmd ps k.
Proof.
  intros Hk. unfold sector_erase_cmd.
  change FLASH_CR_SNB_1 with 256. change (2 ^ 15) with 32768 in Hk.
  rewrite size_t_small by (change (2 ^ 32) with 4294967296; lia).
  unfold u32. apply Z.mod_small.
  apply lor_below.
  - apply lor_below; destruct ps; vm_compute; split; congruence.
  - change (2 ^ 32) with 4294967296. lia.
Qed.

Lemma span_from_step (first last : Z) :
  first <= last ->
  sector_span first last = first :: sector_span (first + 1) last.
Proof.
  intros Hle. unfold sector_span.
  replace (Z.to_nat (last + 1 - first))
    with (S (Z.to_nat (last + 1 - (first + 1)))) by lia.
  reflexivity.
Qed.

Lemma span_from_empty (first last : Z) :
  last < first -> sector_span first last = [].
Proof.
  intros Hlt. unfold sector_span.
  replace (Z.to_nat (last + 1 - first)) with O by lia. reflexivity.
Qed.

Lemma erase_loop_sectors (sf : stm32h7_flash) (last : Z) :
  last < 2 ^ 15 ->
  forall (count : nat) (n : nat) (first : Z) (t : target),
    count = Z.to_nat (last + 1 - first) ->
    0 <= first ->
    (budget t < n)%nat ->
    erase_loop n sf (psize sf) first last t
    = erase_sectors sf (sector_span first last) t.
Proof.
  intros Hlast. induction count as [|c IH]; intros n first t Hc Hf Hn.
  - destruct n as [|n]; [lia|]. cbn [erase_loop].
    assert (Hlt : last < first) by lia.
    rewrite span_from_empty by exact Hlt.
    destruct (Z.leb_spec first last); [lia|]. reflexivity.
  - destruct n as [|n]; [lia|]. cbn [erase_loop].
    assert (Hle : first <= last) by lia.
    rewrite span_from_step by exact Hle.
    destruct (Z.leb_spec first last); [|lia].
    rewrite ctrl_reg_sector by lia.
    cbn [erase_sectors]. unfold bind, target_mem_write32.
    match goal with
    | |- match stm32h7_flash_busy_wait ?rb ?t2 with _ => _ end = _ =>
        pose proof (busy_wait_run rb t2) as Hbw;
        destruct (stm32h7_flash_busy_wait rb t2) as [ok t3|t3|t3]
    end; [|reflexivity|reflexivity].
    destruct Hbw as (_ & _ & _ & _ & _ & Hbud & _). fields.
    destruct ok; cbn [negb]; [|reflexivity].
    rewrite size_t_small
      by (change (2 ^ 32) with 4294967296; change (2 ^ 15) with 32768 in Hlast;
          lia).
    apply IH; lia.
Qed.

Lemma writes_to_app (addr : Z) (l1 l2 : list event) :
  writes_to addr (l1 ++ l2) = writes_to addr l1 ++ writes_to addr l2.
Proof.
  induction l1 as [|e l1 IH]; cbn [app writes_to]; [reflexivity|].
  destruct e; try exact IH.
  destruct (addr0 =? addr); cbn [app]; congruence.
Qed.

Lemma writes_to_polls (addr a : Z) (srs : list Z) :
  writes_to addr (polls a srs) = [].
Proof. induction srs as [|x srs IH]; cbn; auto. Qed.

Lemma ccr_is_not_cr (regbase : Z) :
  (add32 regbase FLASH_CCR =? add32 regbase FLASH_CR) = false.
Proof.
  apply Z.eqb_neq. unfold add32, u32, FLASH_CCR, FLASH_CR.
  change (2 ^ 32) with 4294967296. intros H.
  pose proof (Z.div_mod (regbase + 20) 4294967296 ltac:(lia)) as H1.
  pose proof (Z.div_mod (regbase + 12) 4294967296 ltac:(lia)) as H2.
  rewrite H in H1. lia.
Qed.

Lemma erase_sectors_trace (f : stm32h7_flash) (sectors : list Z) :
  forall t,
    exists done rest evs,
      sectors = done ++ rest
      /\ log (final (erase_sectors f sectors t)) = log t ++ evs
      /\ writes_to (add32 (regbase f) FLASH_CR) evs
         = flat_map (arm_then_trigger (psize f)) done
      /\ (sectors <> [] -> done <> [])
      /\ match erase_sectors f sectors t with
         | Ret true _ => rest = []
         | Ret false _ =>
             exists pre sr,
               evs = pre ++ [EvRead32 (add32 (regbase f) FLASH_SR) sr;
                             EvWrite32 (add32 (regbase f) FLASH_CCR)
                                       (Z.land sr FLASH_SR_ERROR_MASK)]
         | Stall _ => True
         | Fault _ => False
         end.
Proof.
  induction sectors as [|k sectors IH]; intros t.
  - exists [], [], []. cbn. rewrite app_nil_r. auto.
  - cbn [erase_sectors]. unfold bind, target_mem_write32.
    set (cr := add32 (regbase f) FLASH_CR).
    match goal with
    | |- context [stm32h7_flash_busy_wait ?rb ?t2] =>
        pose proof (busy_wait_run rb t2) as Hbw;
        destruct (stm32h7_flash_busy_wait rb t2) as [ok t3|t3|t3]
    end; fields.
    + destruct Hbw as (srs & sr & Hl & _).
      destruct ok.
      * destruct (IH t3) as (done & rest & evs & Hs & Hl' & Hw & _ & Hout).
        exists (k :: done), rest,
          ([EvWrite32 cr (sector_erase_cmd (psize f) k);
            EvWrite32 cr (Z.lor (sector_erase_cmd (psize f) k) FLASH_CR_START)]
             ++ polls (add32 (regbase f) FLASH_SR) srs
             ++ [EvRead32 (add32 (regbase f) FLASH_SR) sr] ++ evs).
        subst cr. repeat apply conj.
        -- rewrite Hs. reflexivity.
        -- rewrite Hl', Hl. log_eq.
        -- rewrite !writes_to_app, writes_to_polls. cbn [writes_to app].
           rewrite Z.eqb_refl, Hw. reflexivity.
        -- intros _. discriminate.
        -- destruct (erase_sectors f sectors t3) as [[|] ?|?|?]; auto.
           destruct Hout as (pre & sr' & ->).
           exists ([EvWrite32 (add32 (regbase f) FLASH_CR)
                              (sector_erase_cmd (psize f) k);
                    EvWrite32 (add32 (regbase f) FLASH_CR)
                              (Z.lor (sector_erase_cmd (psize f) k)
                                     FLASH_CR_START)]
                     ++ polls (add32 (regbase f) FLASH_SR) srs
                     ++ [EvRead32 (add32 (regbase f) FLASH_SR) sr] ++ pre),
             sr'.
           log_eq.
      * exists [k], sectors,
          ([EvWrite32 cr (sector_erase_cmd (psize f) k);
            EvWrite32 cr (Z.lor (sector_erase_cmd (psize f) k) FLASH_CR_START)]
             ++ polls (add32 (regbase f) FLASH_SR) srs
             ++ [EvRead32 (add32 (regbase f) FLASH_SR) sr;
                 EvWrite32 (add32 (regbase f) FLASH_CCR)
                           (Z.land sr FLASH_SR_ERROR_MASK)]).
        subst cr. repeat apply conj.
        -- reflexivity.
        -- cbn [final ret]. rewrite Hl. log_eq.
        -- rewrite !writes_to_app, writes_to_polls. cbn [writes_to app].
           rewrite Z.eqb_refl, ccr_is_not_cr. reflexivity.
        -- intros _. discriminate.
        -- unfold ret.
           exists ([EvWrite32 (add32 (regbase f) FLASH_CR)
                              (sector_erase_cmd (psize f) k);
                    EvWrite32 (add32 (regbase f) FLASH_CR)
                              (Z.lor (sector_erase_cmd (psize f) k)
                                     FLASH_CR_START)]
                     ++ polls (add32 (regbase f) FLASH_SR) srs),
             sr.
           log_eq.
    + destruct Hbw as (srs & Hl & _).
      exists [k], sectors,
        ([EvWrite32 cr (sector_erase_cmd (psize f) k);
          EvWrite32 cr (Z.lor (sector_erase_cmd (psize f) k) FLASH_CR_START)]
           ++ polls (add32 (regbase f) FLASH_SR) srs).
      subst cr. repeat apply conj; auto.
      * cbn [final]. rewrite Hl. log_eq.
      * rewrite !writes_to_app, writes_to_polls. cbn [writes_to app].
        rewrite Z.eqb_refl. reflexivity.
      * intros _. discriminate.
    + contradiction.
Qed.

Lemma bank_relative_bounds (addr : Z) :
  0 <= addr -> 0 <= bank_relative addr <= addr.
Proof.
  intros Ha. unfold bank_relative.
  change (NUM_SECTOR_PER_BANK * FLASH_SECTOR_SIZE - 1) with (Z.ones 20).
  rewrite Z.land_ones by lia.
  pose proof (Z.mod_pos_bound addr (2 ^ 20) ltac:(lia)).
  pose proof (Z.mod_le addr (2 ^ 20) Ha ltac:(lia)). lia.
Qed.

Lemma flash_erase_is_plan (f : stm32h7_flash) (addr len : Z) (t : target) :
  0 <= addr < 2 ^ 32 -> 0 < len -> addr + len <= 2 ^ 32 ->
  stm32h7_flash_erase f addr len t = erase_plan f addr len t.
Proof.
  intros Haddr Hlen Hend.
  unfold stm32h7_flash_erase, erase_plan. unfold bind at 1 3.
  destruct (stm32h7_flash_unlock addr t) as [ok t1|t1|t1];
    [|reflexivity|reflexivity].
  destruct ok; cbn [negb]; [|reflexivity].
  unfold bind, target_mem_write32, with_budget, erase_span.
  fold (bank_relative addr).
  pose proof (bank_relative_bounds addr ltac:(lia)) as Hrel.
  change (2 ^ 32) with 4294967296 in *.
  rewrite size_t_small by (change (2 ^ 32) with 4294967296; lia).
  eapply erase_loop_sectors.
  - change (2 ^ 15) with 32768. change FLASH_SECTOR_SIZE with 131072.
    apply Z.div_lt_upper_bound; lia.
  - reflexivity.
  - apply Z.div_pos; [lia | reflexivity].
  - fields. lia.
Qed.

Lemma erase_span_first (addr len : Z) :
  0 <= addr -> 0 < len -> erase_span addr len <> [].
Proof.
  intros Ha Hl. unfold erase_span.
  pose proof (bank_relative_bounds addr Ha) as Hrel.
  rewrite span_from_step; [discriminate|].
  apply Z.div_le_mono; [reflexivity | lia].
Qed.


(** *** Every operation of the driver only appends to the log and leaves
    the private storage alone *)

Ltac emits_any := repeat emits_step; try exact I.

Lemma busy_wait_emits_any (regbase : Z) :
  emits anything (stm32h7_flash_busy_wait regbase).
Proof.
  eapply emits_weaken; [| apply busy_wait_emits]. intros; exact I.
Qed.

Lemma unlock_emits_any (addr : Z) :
  emits anything (stm32h7_flash_unlock addr).
Proof.
  eapply emits_weaken; [| apply unlock_emits]. intros; exact I.
Qed.

Lemma erase_loop_emits (sf : stm32h7_flash) (ps : align) (last : Z) (n : nat) :
  forall first, emits anything (erase_loop n sf ps first last).
Proof.
  induction n as [|n IH]; intros first; cbn [erase_loop].
  - apply emits_stall.
  - destruct (first <=? last); [|apply emits_ret].
    apply emits_bind; [emits_any|]. intros _.
    apply emits_bind; [emits_any|]. intros _.
    apply emits_bind; [apply busy_wait_emits_any|]. intros ok'.
    destruct (negb ok'); [apply emits_ret | apply IH].
Qed.

Lemma flash_erase_emits (f : stm32h7_flash) (addr len : Z) :
  emits anything (stm32h7_flash_erase f addr len).
Proof.
  unfold stm32h7_flash_erase.
  apply emits_bind; [apply unlock_emits_any|]. intros ok.
  destruct (negb ok); [apply emits_ret|].
  apply emits_bind; [emits_any|]. intros _.
  apply emits_with_budget. intros n. apply erase_loop_emits.
Qed.

Lemma flash_write_emits (f : stm32h7_flash) (dest : Z) (src : list Z) :
  emits anything (stm32h7_flash_write f dest src).
Proof.
  unfold stm32h7_flash_write.
  apply emits_bind; [apply unlock_emits_any|]. intros ok.
  destruct (negb ok); [apply emits_ret|].
  do 3 (apply emits_bind; [emits_any|]; intros _).
  apply emits_bind; [apply busy_wait_emits_any|]. intros ok'.
  emits_any.
Qed.

Lemma erase_bank_emits (ps : align) (start_addr reg_base : Z) :
  emits anything (stm32h7_erase_bank ps start_addr reg_base).
Proof.
  unfold stm32h7_erase_bank.
  apply emits_bind; [apply unlock_emits_any|]. intros ok. emits_any.
Qed.

Lemma wait_erase_bank_emits (timeout reg_base : Z) :
  emits anything (stm32h7_wait_erase_bank timeout reg_base).
Proof.
  unfold stm32h7_wait_erase_bank. apply emits_with_budget. intros n.
  induction n as [|n IH]; cbn [wait_erase_bank_loop].
  - apply emits_stall.
  - emits_any. exact IH.
Qed.

Lemma check_bank_emits (reg_base : Z) :
  emits anything (stm32h7_check_bank reg_base).
Proof. unfold stm32h7_check_bank. emits_any. Qed.

Lemma mass_erase_emits : emits anything stm32h7_mass_erase.
Proof.
  unfold stm32h7_mass_erase.
  apply emits_bind; [emits_any|]. intros ps.
  apply emits_bind; [apply erase_bank_emits|]. intros ok1.
  apply emits_bind.
  { destruct (negb ok1); [apply emits_ret | apply erase_bank_emits]. }
  intros stop. destruct stop; [apply emits_ret|].
  apply emits_bind; [apply wait_erase_bank_emits|]. intros w1.
  apply emits_bind.
  { destruct (negb w1); [apply emits_ret|].
    apply emits_bind; [apply wait_erase_bank_emits|]. intros; apply emits_ret. }
  intros stop. destruct stop; [apply emits_ret|].
  apply emits_bind; [apply check_bank_emits|]. intros c1.
  destruct c1; [apply check_bank_emits | apply emits_ret].
Qed.

Lemma uid_emits : emits anything stm32h7_uid.
Proof. unfold stm32h7_uid, uid_word. emits_any. Qed.

Lemma crc_bank_emits (bank : Z) : emits anything (stm32h7_crc_bank bank).
Proof.
  unfold stm32h7_crc_bank.
  apply emits_bind; [apply unlock_emits_any|]. intros ok.
  destruct (negb ok); [apply emits_ret|].
  do 3 (apply emits_bind; [emits_any|]; intros _).
  apply emits_with_budget. intros n.
  induction n as [|n IH]; cbn [crc_bank_loop].
  - apply emits_stall.
  - emits_any. exact IH.
Qed.

Lemma crc_emits : emits anything stm32h7_crc.
Proof.
  unfold stm32h7_crc.
  apply emits_bind; [apply crc_bank_emits|]. intros r1.
  destruct (nonzero r1); [apply emits_ret|].
  apply emits_bind; [emits_any|]. intros crc1.
  apply emits_bind; [apply crc_bank_emits|]. intros r2.
  emits_any.
Qed.

Lemma cmd_psize_emits (argc : Z) (argv : list string) :
  emits anything (stm32h7_cmd_psize argc argv).
Proof. unfold stm32h7_cmd_psize. emits_any. Qed.

Lemma cmd_rev_emits : emits anything stm32h7_cmd_rev.
Proof. unfold stm32h7_cmd_rev. emits_any. Qed.

Lemma attach_emits : emits anything stm32h7_attach.
Proof.
  unfold stm32h7_attach, stm32h7_add_flash, target_mem_map_free,
    target_add_ram, target_add_flash.
  repeat first
    [ emits_step
    | apply emits_nothing; intros ?; cbn; auto ];
    try exact I.
Qed.

Lemma run_call_emits (c : driver_call) : emits anything (run_call c).
Proof.
  destruct c; cbn [run_call]; unfold through_flash.
  - apply emits_bind; [apply attach_emits | intros; apply emits_ret].
  - apply emits_bind; [apply mass_erase_emits | intros; apply emits_ret].
  - apply emits_bind; [apply emits_gets|]. intros fl.
    destruct (nth_error fl bank) as [f|]; [|apply emits_ret].
    destruct (fn_ptr_is (f_erase f) fn_stm32h7_flash_erase);
      [|apply emits_ret].
    apply emits_bind; [apply flash_erase_emits | intros; apply emits_ret].
  - apply emits_bind; [apply emits_gets|]. intros fl.
    destruct (nth_error fl bank) as [f|]; [|apply emits_ret].
    destruct (fn_ptr_is (f_write f) fn_stm32h7_flash_write);
      [|apply emits_ret].
    apply emits_bind; [apply flash_write_emits | intros; apply emits_ret].
  - apply emits_bind; [apply cmd_psize_emits | intros; apply emits_ret].
  - apply emits_bind; [apply uid_emits | intros; apply emits_ret].
  - apply emits_bind; [apply crc_emits | intros; apply emits_ret].
  - apply emits_bind; [apply cmd_rev_emits | intros; apply emits_ret].
Qed.

Lemma run_calls_emits (cs : list driver_call) : emits anything (run_calls cs).
Proof.
  induction cs as [|c cs IH]; cbn [run_calls].
  - apply emits_ret.
  - apply emits_bind; [apply run_call_emits | intros; exact IH].
Qed.

(** *** Mass erase *)

(** When the erase of both banks has been started, the mass erase returns
    failure at once: the second operand of the start condition is the result
    of [stm32h7_erase_bank] for bank 2, not its negation. *)
Lemma mass_erase_both_started (t t1 t2 : target) :
  stm32h7_erase_bank (configured_psize (flash t)) BANK1_START FPEC1_BASE t
  = Ret true t1 ->
  stm32h7_erase_bank (configured_psize (flash t)) BANK2_START FPEC2_BASE t1
  = Ret true t2 ->
  stm32h7_mass_erase t = Ret false t2.
Proof.
  intros H1 H2. unfold stm32h7_mass_erase.
  unfold bind at 1. unfold gets at 1.
  unfold bind at 1. rewrite H1. cbn [negb].
  unfold bind at 1. rewrite H2. reflexivity.
Qed.

(** *** The crc command *)

(** The word printed for bank 2 is the one read, after the CRC run of bank 2,
    from the digest register of controller 1. *)
Lemma crc_bank2_digest_source (t t' : target) :
  stm32h7_crc t = Ret true t' ->
  exists pre crc1 crc2,
    log t' = log t ++ pre
               ++ [EvRead32 (FPEC1_BASE + FLASH_CRCDATA) crc2;
                   EvPrintf "CRC: bank1 0x%08lx, bank2 0x%08lx\n"
                            [ArgInt crc1; ArgInt crc2]].
Proof.
  unfold stm32h7_crc. intros H.
  unfold bind at 1 in H.
  destruct (crc_bank_emits BANK1_START t) as (e1 & Hl1 & _).
  destruct (stm32h7_crc_bank BANK1_START t) as [r1 t1|t1|t1];
    try discriminate.
  cbn [final] in Hl1.
  destruct (nonzero r1); [discriminate|].
  unfold bind at 1 in H. unfold target_mem_read32 at 1 in H.
  destruct (budget t1) as [|b1]; [discriminate|].
  destruct (mem_read32 (world t1) (FPEC1_BASE + FLASH_CRCDATA)) as [v1 w1].
  unfold bind at 1 in H.
  match type of H with
  | match stm32h7_crc_bank _ ?t2 with _ => _ end = _ =>
      destruct (crc_bank_emits BANK2_START t2) as (e2 & Hl2 & _);
      destruct (stm32h7_crc_bank BANK2_START t2) as [r2 t3|t3|t3];
      try discriminate
  end.
  cbn [final] in Hl2. fields.
  destruct (nonzero r2); [discriminate|].
  unfold bind at 1 in H. unfold target_mem_read32 at 1 in H.
  destruct (budget t3) as [|b3]; [discriminate|].
  destruct (mem_read32 (world t3) (FPEC1_BASE + FLASH_CRCDATA)) as [v2 w2].
  cbn in H. injection H as <-.
  exists (e1 ++ [EvRead32 (FPEC1_BASE + FLASH_CRCDATA) (u32 v1)] ++ e2),
    (u32 v1), (u32 v2).
  fields. rewrite Hl2, Hl1. log_eq.
Qed.

(** *** Probe, attach, detach *)

Lemma probe_run (t t1 : target) :
  stm32h7_probe t = Ret true t1 ->
  exists v,
    log t1 = log t ++ [EvRead32 DBGMCU_CR v;
                       EvWrite32 DBGMCU_CR (Z.lor DBGSLEEP_D1 D1DBGCKEN)]
    /\ target_storage t1 = Some (mk_priv v).
Proof.
  unfold stm32h7_probe. unfold bind at 1. unfold gets at 1.
  destruct ((part_id t =? ID_STM32H74x) || (part_id t =? ID_STM32H7Bx)
            || (part_id t =? ID_STM32H72x)); [|discriminate].
  unfold bind, modify, target_add_commands, calloc. fields.
  destruct (heap_calloc (world t)) as [ok w0].
  unfold target_mem_read32. fields.
  destruct (budget t) as [|b]; [discriminate|].
  destruct (mem_read32 w0 DBGMCU_CR) as [v w1].
  destruct ok; cbn [negb]; [|discriminate].
  unfold target_mem_write32, ret. intros H. injection H as <-.
  exists (u32 v). fields. split; [log_eq | reflexivity].
Qed.

Lemma detach_run (t : target) (ps : stm32h7_priv_s) :
  target_storage t = Some ps ->
  exists t',
    stm32h7_detach t = Ret tt t'
    /\ log t' = log t ++ [EvWrite32 DBGMCU_CR (dbg_cr ps); EvCortexmDetach].
Proof.
  intros Hs. unfold stm32h7_detach. unfold bind at 1. unfold gets at 1.
  rewrite Hs. unfold bind, target_mem_write32, cortexm_detach.
  eexists. split; [reflexivity|]. fields. log_eq.
Qed.

(** C7 (amended): the value written to DBGMCU_CR at detach equals the value
    observed at probe.  The driver captures DBGMCU_CR in the probe routine,
    just before it overwrites the register with DBGSLEEP_D1 | D1DBGCKEN, and
    detach writes that exact value back, whatever the driver is asked to do
    in between (attach, which does not access DBGMCU_CR, included). *)
Theorem detach_restores_probed_dbgmcu_cr (t t1 : target) :
  stm32h7_probe t = Ret true t1 ->
  exists v,
    log t1 = log t ++ [EvRead32 DBGMCU_CR v;
                       EvWrite32 DBGMCU_CR (Z.lor DBGSLEEP_D1 D1DBGCKEN)]
    /\ forall calls : list driver_call,
        exists t3,
          stm32h7_detach (final (run_calls calls t1)) = Ret tt t3
          /\ log t3 = log (final (run_calls calls t1))
                        ++ [EvWrite32 DBGMCU_CR v; EvCortexmDetach].
Proof.
  intros Hp. destruct (probe_run t t1 Hp) as (v & Hl & Hs).
  exists v. split; [exact Hl|]. intros calls.
  destruct (run_calls_emits calls t1) as (evs & _ & _ & Hkeep).
  rewrite Hs in Hkeep.
  destruct (detach_run _ _ Hkeep) as (t3 & Hd & Hl3).
  exists t3. split; [exact Hd | exact Hl3].
Qed.

(** *** The revision table *)

(** C8: the revision lookup is a total function of the revision id:
    0x1000 gives 'A', 0x1001 'Z', 0x1003 'Y', 0x2001 'X', 0x2003 'V', and
    every other id gives '?'. *)
Theorem resolve_revision_table (id : Z) :
  resolve_revision id
  = if id =? 0x1000 then "A"%char
    else if id =? 0x1001 then "Z"%char
    else if id =? 0x1003 then "Y"%char
    else if id =? 0x2001 then "X"%char
    else if id =? 0x2003 then "V"%char
    else "?"%char.
Proof.
  unfold resolve_revision, stm32h7xx_revisions. cbn [fold_left rev_id revision].
  rewrite !(Z.eqb_sym _ id).
  destruct (Z.eqb_spec id 0x1000) as [->|]; [reflexivity|].
  destruct (Z.eqb_spec id 0x1001) as [->|]; [reflexivity|].
  destruct (Z.eqb_spec id 0x1003) as [->|]; [reflexivity|].
  destruct (Z.eqb_spec id 0x2001) as [->|]; [reflexivity|].
  destruct (Z.eqb_spec id 0x2003) as [->|]; reflexivity.
Qed.

(** The revision command prints the letter of the table for the upper 16
    bits of the identity code of an H742/743/753/750. *)
Lemma cmd_rev_prints_revision (t : target) (b : nat) (idc : Z) (w : W) :
  budget t = S b ->
  mem_read32 (world t) DBGMCU_IDC = (idc, w) ->
  Z.land (u32 idc) 0xFFF = 0x450 ->
  exists t',
    stm32h7_cmd_rev t = Ret true t'
    /\ log t' = log t
                ++ [EvRead32 DBGMCU_IDC (u32 idc);
                    EvPrintf "STM32H742/743/753/750\n" [];
                    EvPrintf "Revision %c\n"
                      [ArgChar (resolve_revision
                                  (Z.land (Z.shiftr (u32 idc) 16) 0xFFFF))]].
Proof.
  intros Hb Hr Hdev. unfold stm32h7_cmd_rev.
  unfold bind at 1. unfold target_mem_read32. rewrite Hb, Hr.
  rewrite Hdev. cbn [Z.eqb Pos.eqb].
  unfold bind, tc_printf, ret. eexists. split; [reflexivity|].
  fields. log_eq.
Qed.

(** *** The psize command *)

(** C9: with an argument that is none of x8, x16, x32 and x64 the psize
    command prints the usage message and returns failure, and that is all it
    does: the flash descriptors, their write parallelism included, and every
    other field of the target are as before. *)
Theorem psize_unrecognized_argument
        (argc : Z) (argv : list string) (a : string) (t : @target W) :
  argc <> 1 ->
  nth_error argv 1 = Some a ->
  a <> "x8"%string -> a <> "x16"%string ->
  a <> "x32"%string -> a <> "x64"%string ->
  exists t' : @target W,
    stm32h7_cmd_psize argc argv t = Ret false t'
    /\ log t' = log t ++ [EvPrintf "usage: monitor psize (x8|x16|x32|x64)\n" []]
    /\ flash t' = flash t
    /\ map psize (flash t') = map psize (flash t)
    /\ session t' = session t
    /\ world t' = world t.
Proof.
  intros Hargc Harg H8 H16 H32 H64. unfold stm32h7_cmd_psize.
  destruct (Z.eqb_spec argc 1); [contradiction|].
  rewrite Harg.
  destruct (String.eqb_spec a "x8"); [contradiction|].
  destruct (String.eqb_spec a "x16"); [contradiction|].
  destruct (String.eqb_spec a "x32"); [contradiction|].
  destruct (String.eqb_spec a "x64"); [contradiction|].
  unfold bind, tc_printf, ret. eexists. split; [reflexivity|].
  fields. auto.
Qed.

(** *** The memory map *)

(** C10: when the core attach succeeds and the two descriptors can be
    allocated, attach registers the same memory map whatever the part id of
    the target: seven RAM regions and two flash banks of 1 MiB at 0x08000000
    and 0x08100000, each with 128 KiB sectors, a write size of 2048 bytes and
    the erased value 0xff (and with the erase and write routines of the
    driver, 64-bit parallelism and the register base of its bank). *)
Theorem attach_memory_map
        (t : target) (b : nat) (w1 w2 w3 w4 : W) (optsr : Z) :
  core_attach (world t) = (true, w1) ->
  budget t = S b ->
  mem_read32 w1 (FPEC1_BASE + FLASH_OPTSR) = (optsr, w2) ->
  heap_calloc w2 = (true, w3) ->
  heap_calloc w3 = (true, w4) ->
  exists t',
    stm32h7_attach t = Ret true t'
    /\ ram t' = [ mk_ram 0x00000000 0x10000;
                  mk_ram 0x20000000 0x20000;
                  mk_ram 0x24000000 0x80000;
                  mk_ram 0x30000000 0x20000;
                  mk_ram 0x30020000 0x20000;
                  mk_ram 0x30040000 0x08000;
                  mk_ram 0x38000000 0x10000 ]
    /\ flash t' = [ mk_flash 0x08000000 (1024 * 1024) (128 * 1024)
                             (Some fn_stm32h7_flash_erase)
                             (Some fn_stm32h7_flash_write)
                             2048 0xff ALIGN_DWORD FPEC1_BASE;
                    mk_flash 0x08100000 (1024 * 1024) (128 * 1024)
                             (Some fn_stm32h7_flash_erase)
                             (Some fn_stm32h7_flash_write)
                             2048 0xff ALIGN_DWORD FPEC2_BASE ].
Proof.
  intros Ha Hb Hr Hc1 Hc2. unfold stm32h7_attach.
  unfold bind at 1. unfold cortexm_attach. rewrite Ha. cbn [negb].
  unfold bind at 1. unfold target_mem_read32. fields. rewrite Hb, Hr.
  unfold stm32h7_add_flash, target_mem_map_free, target_add_ram,
    target_add_flash.
  destruct (negb (nonzero (Z.land (u32 optsr) FLASH_OPTSR_IWDG1_SW)));
    unfold bind, tc_printf, calloc, ret; fields; rewrite Hc1; cbn [negb];
    fields; rewrite Hc2; cbn [negb]; eexists; (split; [reflexivity|]);
    fields; split; reflexivity.
Qed.

(** ** Further properties of the driver *)

(** *** Operations that leave the host-side fields alone *)

(** [quiet m]: [m] changes none of the host-side fields of the target (part
    id, hooks, commands, memory map, private storage). *)
Definition quiet {A} (m : M A) : Prop :=
  forall t : @target W, session (final (m t)) = session t.

Lemma quiet_ret {A} (a : A) : quiet (ret a).
Proof. intros t. reflexivity. Qed.

Lemma quiet_stall {A} : quiet (@stall W A).
Proof. intros t. reflexivity. Qed.

Lemma quiet_fault {A} : quiet (@fault W A).
Proof. intros t. reflexivity. Qed.

Lemma quiet_gets {A} (f : target -> A) : quiet (gets f).
Proof. intros t. reflexivity. Qed.

Lemma quiet_bind {A B} (m : M A) (k : A -> M B) :
  quiet m -> (forall a, quiet (k a)) -> quiet (bind m k).
Proof.
  intros Hm Hk t. unfold bind. specialize (Hm t).
  destruct (m t) as [a t1|t1|t1]; cbn [final] in *; [|exact Hm|exact Hm].
  rewrite (Hk a t1). exact Hm.
Qed.

Lemma quiet_with_budget {A} (loop : nat -> M A) :
  (forall n, quiet (loop n)) -> quiet (with_budget loop).
Proof. intros H t. unfold with_budget. apply H. Qed.

Lemma quiet_read32 (addr : Z) : quiet (target_mem_read32 addr).
Proof.
  intros t. unfold target_mem_read32. destruct (budget t); [reflexivity|].
  destruct (mem_read32 (world t) addr). reflexivity.
Qed.

Lemma quiet_write32 (addr val : Z) : quiet (target_mem_write32 addr val).
Proof. intros t. reflexivity. Qed.

Lemma quiet_write (dest : Z) (src : list Z) : quiet (target_mem_write dest src).
Proof. intros t. reflexivity. Qed.

Lemma quiet_check_error : quiet target_check_error.
Proof.
  intros t. unfold target_check_error. destruct (check_error (world t)).
  reflexivity.
Qed.

Lemma quiet_printf fmt args : quiet (tc_printf fmt args).
Proof. intros t. reflexivity. Qed.

Lemma quiet_progress timeout : quiet (target_print_progress timeout).
Proof. intros t. reflexivity. Qed.

Ltac quiet_step :=
  match goal with
  | |- quiet (bind _ _) => apply quiet_bind; [| intros ?]
  | |- quiet (ret _) => apply quiet_ret
  | |- quiet stall => apply quiet_stall
  | |- quiet fault => apply quiet_fault
  | |- quiet (gets _) => apply quiet_gets
  | |- quiet (with_budget _) => apply quiet_with_budget; intros ?
  | |- quiet (target_mem_read32 _) => apply quiet_read32
  | |- quiet (target_mem_write32 _ _) => apply quiet_write32
  | |- quiet (target_mem_write _ _) => apply quiet_write
  | |- quiet target_check_error => apply quiet_check_error
  | |- quiet (tc_printf _ _) => apply quiet_printf
  | |- quiet (target_print_progress _) => apply quiet_progress
  | |- quiet (if ?b then _ else _) => destruct b
  | |- quiet (match ?x with _ => _ end) => destruct x
  end.

Lemma busy_wait_quiet (regbase : Z) : quiet (stm32h7_flash_busy_wait regbase).
Proof.
  unfold stm32h7_flash_busy_wait. apply quiet_with_budget. intros n.
  induction n as [|n IH]; cbn [busy_wait_loop].
  - apply quiet_stall.
  - repeat quiet_step. exact IH.
Qed.

Lemma unlock_quiet (addr : Z) : quiet (stm32h7_flash_unlock addr).
Proof.
  unfold stm32h7_flash_unlock.
  apply quiet_bind; [apply busy_wait_quiet|]. intros ok. repeat quiet_step.
Qed.

Lemma erase_loop_quiet (sf : stm32h7_flash) (ps : align) (last : Z) (n : nat) :
  forall first, quiet (erase_loop n sf ps first last).
Proof.
  induction n as [|n IH]; intros first; cbn [erase_loop].
  - apply quiet_stall.
  - destruct (first <=? last); [|apply quiet_ret].
    do 2 (apply quiet_bind; [apply quiet_write32|]; intros _).
    apply quiet_bind; [apply busy_wait_quiet|]. intros ok.
    destruct (negb ok); [apply quiet_ret | apply IH].
Qed.

Lemma flash_erase_quiet (f : stm32h7_flash) (addr len : Z) :
  quiet (stm32h7_flash_erase f addr len).
Proof.
  unfold stm32h7_flash_erase.
  apply quiet_bind; [apply unlock_quiet|]. intros ok.
  destruct (negb ok); [apply quiet_ret|].
  apply quiet_bind; [apply quiet_write32|]. intros _.
  apply quiet_with_budget. intros n. apply erase_loop_quiet.
Qed.

Lemma flash_write_quiet (f : stm32h7_flash) (dest : Z) (src : list Z) :
  quiet (stm32h7_flash_write f dest src).
Proof.
  unfold stm32h7_flash_write.
  apply quiet_bind; [apply unlock_quiet|]. intros ok.
  destruct (negb ok); [apply quiet_ret|].
  do 3 (apply quiet_bind; [repeat quiet_step|]; intros _).
  apply quiet_bind; [apply busy_wait_quiet|]. intros ok'.
  repeat quiet_step.
Qed.

Lemma erase_bank_quiet (ps : align) (start_addr reg_base : Z) :
  quiet (stm32h7_erase_bank ps start_addr reg_base).
Proof.
  unfold stm32h7_erase_bank.
  apply quiet_bind; [apply unlock_quiet|]. intros ok. repeat quiet_step.
Qed.

Lemma wait_erase_bank_quiet (timeout reg_base : Z) :
  quiet (stm32h7_wait_erase_bank timeout reg_base).
Proof.
  unfold stm32h7_wait_erase_bank. apply quiet_with_budget. intros n.
  induction n as [|n IH]; cbn [wait_erase_bank_loop].
  - apply quiet_stall.
  - repeat quiet_step. exact IH.
Qed.

Lemma check_bank_quiet (reg_base : Z) : quiet (stm32h7_check_bank reg_base).
Proof. unfold stm32h7_check_bank. repeat quiet_step. Qed.

Lemma mass_erase_quiet : quiet stm32h7_mass_erase.
Proof.
  unfold stm32h7_mass_erase.
  apply quiet_bind; [apply quiet_gets|]. intros ps.
  apply quiet_bind; [apply erase_bank_quiet|]. intros ok1.
  apply quiet_bind.
  { destruct (negb ok1); [apply quiet_ret | apply erase_bank_quiet]. }
  intros stop. destruct stop; [apply quiet_ret|].
  apply quiet_bind; [apply wait_erase_bank_quiet|]. intros w1.
  apply quiet_bind.
  { destruct (negb w1); [apply quiet_ret|].
    apply quiet_bind; [apply wait_erase_bank_quiet|]. intros; apply quiet_ret. }
  intros stop. destruct stop; [apply quiet_ret|].
  apply quiet_bind; [apply check_bank_quiet|]. intros c1.
  destruct c1; [apply check_bank_quiet | apply quiet_ret].
Qed.

Lemma uid_quiet : quiet stm32h7_uid.
Proof. unfold stm32h7_uid, uid_word. repeat quiet_step. Qed.

Lemma crc_bank_quiet (bank : Z) : quiet (stm32h7_crc_bank bank).
Proof.
  unfold stm32h7_crc_bank.
  apply quiet_bind; [apply unlock_quiet|]. intros ok.
  destruct (negb ok); [apply quiet_ret|].
  do 3 (apply quiet_bind; [apply quiet_write32|]; intros _).
  apply quiet_with_budget. intros n.
  induction n as [|n IH]; cbn [crc_bank_loop].
  - apply quiet_stall.
  - repeat quiet_step. exact IH.
Qed.

Lemma crc_quiet : quiet stm32h7_crc.
Proof.
  unfold stm32h7_crc.
  apply quiet_bind; [apply crc_bank_quiet|]. intros r1.
  destruct (nonzero r1); [apply quiet_ret|].
  apply quiet_bind; [apply quiet_read32|]. intros crc1.
  apply quiet_bind; [apply crc_bank_quiet|]. intros r2.
  repeat quiet_step.
Qed.

Lemma cmd_rev_quiet : quiet stm32h7_cmd_rev.
Proof. unfold stm32h7_cmd_rev. repeat quiet_step. Qed.

(** X1: erasing, programming, the mass erase and the crc, uid and revision
    commands change none of the host-side fields of the target: part id,
    installed hooks, command tables, RAM and flash maps and the private
    storage are the same after the operation, whatever its outcome. *)
Theorem device_operations_keep_session :
  (forall f addr len, quiet (stm32h7_flash_erase f addr len))
  /\ (forall f dest src, quiet (stm32h7_flash_write f dest src))
  /\ quiet stm32h7_mass_erase
  /\ quiet stm32h7_crc
  /\ quiet stm32h7_uid
  /\ quiet stm32h7_cmd_rev.
Proof.
  repeat apply conj.
  - apply flash_erase_quiet.
  - apply flash_write_quiet.
  - apply mass_erase_quiet.
  - apply crc_quiet.
  - apply uid_quiet.
  - apply cmd_rev_quiet.
Qed.

(** *** The flash descriptors of the driver *)

Lemma quiet_flash {A} (m : M A) (t : target) :
  quiet m -> flash (final (m t)) = flash t.
Proof.
  intros H. specialize (H t). unfold session in H. congruence.
Qed.

(** [keeps_descriptors m]: if every descriptor of the driver in the flash
    list is one of the two bank descriptors, this is still so after [m]. *)
Definition keeps_descriptors {A} (m : M A) : Prop :=
  forall t : @target W,
    Forall driver_descriptor_ok (flash t) ->
    Forall driver_descriptor_ok (flash (final (m t))).

Lemma quiet_keeps_descriptors {A} (m : M A) : quiet m -> keeps_descriptors m.
Proof. intros H t Hok. rewrite (quiet_flash m t H). exact Hok. Qed.

Lemma keeps_descriptors_same_flash {A} (m : M A) :
  (forall t, flash (final (m t)) = flash t) -> keeps_descriptors m.
Proof. intros H t Hok. rewrite H. exact Hok. Qed.

Lemma keeps_descriptors_bind {A B} (m : M A) (k : A -> M B) :
  keeps_descriptors m -> (forall a, keeps_descriptors (k a)) ->
  keeps_descriptors (bind m k).
Proof.
  intros Hm Hk t Hok. unfold bind. specialize (Hm t Hok).
  destruct (m t) as [a t1|t1|t1]; cbn [final] in *; [|exact Hm|exact Hm].
  apply Hk. exact Hm.
Qed.

Lemma bank_descriptor_ok (ps : align) :
  driver_descriptor_ok (bank_descriptor 0x8000000 ps)
  /\ driver_descriptor_ok (bank_descriptor 0x8100000 ps).
Proof. split; intros _; exists ps; [left | right]; reflexivity. Qed.

Lemma add_flash_keeps_descriptors (addr : Z) :
  addr = 0x8000000 \/ addr = 0x8100000 ->
  keeps_descriptors (stm32h7_add_flash addr 0x100000 FLASH_SECTOR_SIZE).
Proof.
  intros Haddr. unfold stm32h7_add_flash.
  apply keeps_descriptors_bind.
  { apply keeps_descriptors_same_flash. intros t. unfold calloc.
    destruct (heap_calloc (world t)). reflexivity. }
  intros sf. destruct (negb sf).
  - apply keeps_descriptors_same_flash. reflexivity.
  - intros t Hok. unfold target_add_flash. fields.
    apply Forall_app. split; [exact Hok|].
    constructor; [|constructor].
    destruct Haddr as [-> | ->];
      apply (bank_descriptor_ok ALIGN_DWORD).
Qed.

Lemma attach_keeps_descriptors : keeps_descriptors stm32h7_attach.
Proof.
  unfold stm32h7_attach.
  apply keeps_descriptors_bind.
  { apply keeps_descriptors_same_flash. intros t. unfold cortexm_attach.
    destruct (core_attach (world t)). reflexivity. }
  intros ok. destruct (negb ok).
  { apply keeps_descriptors_same_flash. reflexivity. }
  apply keeps_descriptors_bind.
  { apply quiet_keeps_descriptors, quiet_read32. }
  intros optsr. apply keeps_descriptors_bind.
  { apply quiet_keeps_descriptors.
    destruct (negb _); [apply quiet_printf | apply quiet_ret]. }
  intros _. apply keeps_descriptors_bind.
  { intros t _. unfold target_mem_map_free. fields. constructor. }
  intros _.
  do 7 (apply keeps_descriptors_bind;
        [apply keeps_descriptors_same_flash; reflexivity | intros _]).
  apply keeps_descriptors_bind.
  { apply add_flash_keeps_descriptors. left. reflexivity. }
  intros _. apply keeps_descriptors_bind.
  { apply add_flash_keeps_descriptors. right. reflexivity. }
  intros _. apply keeps_descriptors_same_flash. reflexivity.
Qed.

Lemma store_psize_ok (p : align) (fl : list stm32h7_flash) :
  Forall driver_descriptor_ok fl ->
  Forall driver_descriptor_ok (store_psize p fl).
Proof.
  intros Hok. unfold store_psize. apply Forall_map.
  eapply Forall_impl; [|exact Hok]. intros f Hf.
  destruct (is_stm32h7_flash f) eqn:Hd; [|exact Hf].
  destruct (Hf Hd) as (ps & [-> | ->]); intros _; exists p;
    [left | right]; reflexivity.
Qed.

Lemma cmd_psize_keeps_descriptors (argc : Z) (argv : list string) :
  keeps_descriptors (stm32h7_cmd_psize argc argv).
Proof.
  unfold stm32h7_cmd_psize. destruct (argc =? 1).
  { apply quiet_keeps_descriptors. repeat quiet_step. }
  destruct (nth_error argv 1) as [a|].
  2:{ apply quiet_keeps_descriptors, quiet_fault. }
  repeat match goal with
         | |- keeps_descriptors (if ?b then _ else _) => destruct b
         end;
    try (apply keeps_descriptors_bind;
         [ intros t Hok; unfold modify; fields; apply store_psize_ok; exact Hok
         | intros _; apply quiet_keeps_descriptors, quiet_ret ]).
  apply quiet_keeps_descriptors. repeat quiet_step.
Qed.

Lemma run_call_keeps_descriptors (c : driver_call) :
  keeps_descriptors (run_call c).
Proof.
  destruct c; cbn [run_call]; unfold through_flash.
  - apply keeps_descriptors_bind; [apply attach_keeps_descriptors|].
    intros; apply quiet_keeps_descriptors, quiet_ret.
  - apply quiet_keeps_descriptors.
    apply quiet_bind; [apply mass_erase_quiet | intros; apply quiet_ret].
  - apply quiet_keeps_descriptors.
    apply quiet_bind; [apply quiet_gets|]. intros fl.
    destruct (nth_error fl bank) as [f|]; [|apply quiet_ret].
    destruct (fn_ptr_is _ _); [|apply quiet_ret].
    apply quiet_bind; [apply flash_erase_quiet | intros; apply quiet_ret].
  - apply quiet_keeps_descriptors.
    apply quiet_bind; [apply quiet_gets|]. intros fl.
    destruct (nth_error fl bank) as [f|]; [|apply quiet_ret].
    destruct (fn_ptr_is _ _); [|apply quiet_ret].
    apply quiet_bind; [apply flash_write_quiet | intros; apply quiet_ret].
  - apply keeps_descriptors_bind; [apply cmd_psize_keeps_descriptors|].
    intros; apply quiet_keeps_descriptors, quiet_ret.
  - apply quiet_keeps_descriptors.
    apply quiet_bind; [apply uid_quiet | intros; apply quiet_ret].
  - apply quiet_keeps_descriptors.
    apply quiet_bind; [apply crc_quiet | intros; apply quiet_ret].
  - apply quiet_keeps_descriptors.
    apply quiet_bind; [apply cmd_rev_quiet | intros; apply quiet_ret].
Qed.

Lemma run_calls_keep_descriptors (cs : list driver_call) :
  keeps_descriptors (run_calls cs).
Proof.
  induction cs as [|c cs IH]; cbn [run_calls].
  - apply quiet_keeps_descriptors, quiet_ret.
  - apply keeps_descriptors_bind;
      [apply run_call_keeps_descriptors | intros; exact IH].
Qed.

(** X2: throughout a session (any sequence of attach, mass erase, erase,
    program and monitor commands), every descriptor of the driver in the
    flash list stays bound to the controller of its own bank: for every
    address inside the descriptor, the controller the unlock sequence
    selects from the address is the controller [regbase] the erase and
    program routines command; its block size is the sector size and its
    write size 2048. *)
Theorem descriptors_stay_bound_to_their_bank
        (t : target) (calls : list driver_call) (f : stm32h7_flash)
        (addr : Z) :
  Forall driver_descriptor_ok (flash t) ->
  In f (flash (final (run_calls calls t))) ->
  is_stm32h7_flash f = true ->
  f_start f <= addr < f_start f + f_length f ->
  regbase_of addr = regbase f
  /\ f_blocksize f = FLASH_SECTOR_SIZE
  /\ f_writesize f = 2048.
Proof.
  intros Hok Hin Hdrv Haddr.
  pose proof (run_calls_keep_descriptors calls t Hok) as Hall.
  rewrite Forall_forall in Hall.
  destruct (Hall f Hin Hdrv) as (ps & [-> | ->]);
    cbn [bank_descriptor f_start f_length regbase f_blocksize f_writesize]
      in *;
    (split; [|split; reflexivity]);
    unfold regbase_of, BANK2_START in *.
  - destruct (Z.leb_spec 0x08100000 addr); [lia|].
    destruct (Z.leb_spec 0x08100000 0x8000000); [lia | reflexivity].
  - destruct (Z.leb_spec 0x08100000 addr); [|lia].
    destruct (Z.leb_spec 0x08100000 0x8100000); [reflexivity | lia].
Qed.

(** *** The unlock sequence *)

Lemma add32_offsets_differ (regbase x y : Z) :
  0 <= x < 2 ^ 32 -> 0 <= y < 2 ^ 32 -> x <> y ->
  (add32 regbase x =? add32 regbase y) = false.
Proof.
  intros Hx Hy Hne. apply Z.eqb_neq. unfold add32, u32.
  change (2 ^ 32) with 4294967296 in *. intros H.
  pose proof (Z.div_mod (regbase + x) 4294967296 ltac:(lia)) as H1.
  pose proof (Z.div_mod (regbase + y) 4294967296 ltac:(lia)) as H2.
  rewrite H in H1. lia.
Qed.

Lemma ccr_is_not_keyr (regbase : Z) :
  (add32 regbase FLASH_CCR =? add32 regbase FLASH_KEYR) = false.
Proof. apply add32_offsets_differ; vm_compute; intuition discriminate. Qed.

(** X3: the unlock sequence reports success only when the last thing it did
    was to read the control register of the bank with the lock bit clear,
    and it reports a set lock bit or a failed busy-wait as failure.  The key
    register receives either nothing or exactly KEY1 followed by KEY2, and
    the keys only directly after a read of the control register that showed
    the lock bit set. *)
Theorem unlock_outcome (addr : Z) (t : target) :
  exists evs,
    log (final (stm32h7_flash_unlock addr t)) = log t ++ evs
    /\ (writes_to (add32 (regbase_of addr) FLASH_KEYR) evs = []
        \/ (writes_to (add32 (regbase_of addr) FLASH_KEYR) evs = [KEY1; KEY2]
            /\ exists pre cr post,
                evs = pre
                        ++ EvRead32 (add32 (regbase_of addr) FLASH_CR) cr
                        :: EvWrite32 (add32 (regbase_of addr) FLASH_KEYR) KEY1
                        :: EvWrite32 (add32 (regbase_of addr) FLASH_KEYR) KEY2
                        :: post
                /\ Z.land cr FLASH_CR_LOCK <> 0))
    /\ match stm32h7_flash_unlock addr t with
       | Ret true _ =>
           exists pre cr,
             evs = pre ++ [EvRead32 (add32 (regbase_of addr) FLASH_CR) cr]
             /\ Z.land cr FLASH_CR_LOCK = 0
       | Ret false _ =>
           (exists pre cr,
               evs = pre ++ [EvRead32 (add32 (regbase_of addr) FLASH_CR) cr]
               /\ Z.land cr FLASH_CR_LOCK <> 0)
           \/ (exists pre sr,
                  evs = pre
                          ++ [EvRead32 (add32 (regbase_of addr) FLASH_SR) sr;
                              EvWrite32 (add32 (regbase_of addr) FLASH_CCR)
                                        (Z.land sr FLASH_SR_ERROR_MASK)])
       | Stall _ => True
       | Fault _ => False
       end.
Proof.
  remember (stm32h7_flash_unlock addr t) as o eqn:Ho.
  unfold stm32h7_flash_unlock in Ho. set (b := regbase_of addr) in *.
  unfold bind at 1 in Ho.
  pose proof (busy_wait_run b t) as Hbw.
  destruct (stm32h7_flash_busy_wait b t) as [ok t1|t1|t1]; [| |contradiction].
  2:{ destruct Hbw as (srs & Hl & _). subst o. cbn [final].
      exists (polls (add32 b FLASH_SR) srs). rewrite writes_to_polls. auto. }
  destruct Hbw as (srs & sr & Hl & _).
  destruct ok; cbn [negb] in Ho.
  2:{ subst o. cbn [final ret].
      exists (polls (add32 b FLASH_SR) srs
                ++ [EvRead32 (add32 b FLASH_SR) sr;
                    EvWrite32 (add32 b FLASH_CCR)
                              (Z.land sr FLASH_SR_ERROR_MASK)]).
      repeat apply conj.
      - rewrite Hl. log_eq.
      - left. rewrite writes_to_app, writes_to_polls. cbn [writes_to app].
        rewrite ccr_is_not_keyr. reflexivity.
      - right. eauto. }
  unfold bind at 1 in Ho. unfold target_mem_read32 at 1 in Ho.
  destruct (budget t1) as [|b1] eqn:Hb1.
  { subst o. cbn [final].
    exists (polls (add32 b FLASH_SR) srs ++ [EvRead32 (add32 b FLASH_SR) sr]).
    repeat apply conj; auto.
    left. rewrite writes_to_app, writes_to_polls. reflexivity. }
  destruct (mem_read32 (world t1) (add32 b FLASH_CR)) as [v1 w1].
  unfold bind at 1 in Ho.
  destruct (nonzero (Z.land (u32 v1) FLASH_CR_LOCK)) eqn:Hlock.
  - apply nonzero_true in Hlock.
    unfold bind, target_mem_write32, target_mem_read32 in Ho. fields.
    destruct b1 as [|b2].
    { subst o. cbn [final]. fields.
      exists (polls (add32 b FLASH_SR) srs
                ++ [EvRead32 (add32 b FLASH_SR) sr;
                    EvRead32 (add32 b FLASH_CR) (u32 v1);
                    EvWrite32 (add32 b FLASH_KEYR) KEY1;
                    EvWrite32 (add32 b FLASH_KEYR) KEY2]).
      repeat apply conj; auto.
      - rewrite Hl. log_eq.
      - right. split.
        + rewrite writes_to_app, writes_to_polls. cbn [writes_to app].
          rewrite Z.eqb_refl. reflexivity.
        + exists (polls (add32 b FLASH_SR) srs
                    ++ [EvRead32 (add32 b FLASH_SR) sr]), (u32 v1), [].
          split; [log_eq | exact Hlock]. }
    match type of Ho with
    | context [mem_read32 ?w ?a] => destruct (mem_read32 w a) as [v2 w2]
    end.
    subst o. cbn [final ret]. fields.
    exists (polls (add32 b FLASH_SR) srs
              ++ [EvRead32 (add32 b FLASH_SR) sr;
                  EvRead32 (add32 b FLASH_CR) (u32 v1);
                  EvWrite32 (add32 b FLASH_KEYR) KEY1;
                  EvWrite32 (add32 b FLASH_KEYR) KEY2;
                  EvRead32 (add32 b FLASH_CR) (u32 v2)]).
    repeat apply conj.
    + rewrite Hl. log_eq.
    + right. split.
      * rewrite writes_to_app, writes_to_polls. cbn [writes_to app].
        rewrite Z.eqb_refl. reflexivity.
      * exists (polls (add32 b FLASH_SR) srs
                  ++ [EvRead32 (add32 b FLASH_SR) sr]), (u32 v1),
          [EvRead32 (add32 b FLASH_CR) (u32 v2)].
        split; [log_eq | exact Hlock].
    + destruct (nonzero (Z.land (u32 v2) FLASH_CR_LOCK)) eqn:Hl2; cbn [negb].
      * apply nonzero_true in Hl2. left.
        exists (polls (add32 b FLASH_SR) srs
                  ++ [EvRead32 (add32 b FLASH_SR) sr;
                      EvRead32 (add32 b FLASH_CR) (u32 v1);
                      EvWrite32 (add32 b FLASH_KEYR) KEY1;
                      EvWrite32 (add32 b FLASH_KEYR) KEY2]), (u32 v2).
        split; [log_eq | exact Hl2].
      * apply nonzero_false in Hl2.
        exists (polls (add32 b FLASH_SR) srs
                  ++ [EvRead32 (add32 b FLASH_SR) sr;
                      EvRead32 (add32 b FLASH_CR) (u32 v1);
                      EvWrite32 (add32 b FLASH_KEYR) KEY1;
                      EvWrite32 (add32 b FLASH_KEYR) KEY2]), (u32 v2).
        split; [log_eq | exact Hl2].
  - unfold bind, ret, target_mem_read32 in Ho. fields.
    destruct b1 as [|b2].
    { subst o. cbn [final]. fields.
      exists (polls (add32 b FLASH_SR) srs
                ++ [EvRead32 (add32 b FLASH_SR) sr;
                    EvRead32 (add32 b FLASH_CR) (u32 v1)]).
      repeat apply conj; auto.
      - rewrite Hl. log_eq.
      - left. rewrite writes_to_app, writes_to_polls. reflexivity. }
    match type of Ho with
    | context [mem_read32 ?w ?a] => destruct (mem_read32 w a) as [v2 w2]
    end.
    subst o. cbn [final ret]. fields.
    exists (polls (add32 b FLASH_SR) srs
              ++ [EvRead32 (add32 b FLASH_SR) sr;
                  EvRead32 (add32 b FLASH_CR) (u32 v1);
                  EvRead32 (add32 b FLASH_CR) (u32 v2)]).
    repeat apply conj.
    + rewrite Hl. log_eq.
    + left. rewrite writes_to_app, writes_to_polls. reflexivity.
    + destruct (nonzero (Z.land (u32 v2) FLASH_CR_LOCK)) eqn:Hl2; cbn [negb].
      * apply nonzero_true in Hl2. left.
        exists (polls (add32 b FLASH_SR) srs
                  ++ [EvRead32 (add32 b FLASH_SR) sr;
                      EvRead32 (add32 b FLASH_CR) (u32 v1)]), (u32 v2).
        split; [log_eq | exact Hl2].
      * apply nonzero_false in Hl2.
        exists (polls (add32 b FLASH_SR) srs
                  ++ [EvRead32 (add32 b FLASH_SR) sr;
                      EvRead32 (add32 b FLASH_CR) (u32 v1)]), (u32 v2).
        split; [log_eq | exact Hl2].
Qed.

(** X4: the unlock sequence for an address confines itself to the
    controller that owns the address: below BANK2_START it reads only
    FLASH_SR and FLASH_CR and writes only FLASH_CCR and FLASH_KEYR of
    controller 1, from BANK2_START on only those of controller 2; it does
    nothing else that is recorded (no block write, no output). *)
Theorem unlock_stays_on_its_controller (addr : Z) (t : target) :
  exists evs,
    log (final (stm32h7_flash_unlock addr t)) = log t ++ evs
    /\ Forall (if BANK2_START <=? addr
               then touches [FPEC2_BASE + FLASH_SR; FPEC2_BASE + FLASH_CR]
                            [FPEC2_BASE + FLASH_CCR; FPEC2_BASE + FLASH_KEYR]
               else touches [FPEC1_BASE + FLASH_SR; FPEC1_BASE + FLASH_CR]
                            [FPEC1_BASE + FLASH_CCR; FPEC1_BASE + FLASH_KEYR])
              evs.
Proof.
  destruct (unlock_emits addr t) as (evs & Hl & Hok & _).
  exists evs. split; [exact Hl|].
  unfold regbase_of in Hok. destruct (BANK2_START <=? addr); exact Hok.
Qed.

(** *** More on the busy-wait *)

(** X5: a link error ends the busy-wait like a flash error does.  When the
    status word has no error bit but the error query of the link reports a
    failure, the busy-wait returns failure after this one poll, whatever the
    busy bits say, and still writes to the clear-status register: the word
    it writes is 0. *)
Theorem busy_wait_link_error
        (regbase : Z) (t : target) (b : nat) (v : Z) (w w' : W) :
  budget t = S b ->
  mem_read32 (world t) (add32 regbase FLASH_SR) = (v, w) ->
  Z.land (u32 v) FLASH_SR_ERROR_MASK = 0 ->
  check_error w = (true, w') ->
  exists t',
    stm32h7_flash_busy_wait regbase t = Ret false t'
    /\ log t' = log t ++ [EvRead32 (add32 regbase FLASH_SR) (u32 v);
                          EvWrite32 (add32 regbase FLASH_CCR) 0]
    /\ world t' = mem_write32 w' (add32 regbase FLASH_CCR) 0.
Proof.
  intros Hb Hr He Hc. unfold stm32h7_flash_busy_wait, with_budget.
  rewrite Hb. cbn [busy_wait_loop]. unfold bind at 1.
  unfold target_mem_read32. rewrite Hb, Hr.
  pose proof He as He'. apply nonzero_false in He'.
  unfold bind at 1. rewrite He'. unfold target_check_error. fields.
  rewrite Hc. unfold bind, target_mem_write32, ret. rewrite He.
  eexists. split; [reflexivity|]. fields. split; [log_eq | reflexivity].
Qed.

(** *** Waiting for a bank erase *)

(** A poll of the wait loop that found QW set, and the progress report that
    follows it. *)
Definition busy_poll (timeout addr : Z) (sr : Z) : list event :=
  [EvRead32 addr sr; EvProgress timeout].

Lemma wait_erase_bank_loop_run (timeout reg_base : Z) (n : nat) :
  forall t,
    match wait_erase_bank_loop n timeout reg_base t with
    | Ret r t' =>
        exists srs sr,
          log t' = log t
                     ++ flat_map (busy_poll timeout (add32 reg_base FLASH_SR))
                                 srs
                     ++ [EvRead32 (add32 reg_base FLASH_SR) sr]
          /\ Forall (fun s => Z.land s FLASH_SR_QW <> 0) srs
          /\ (if r then Z.land sr FLASH_SR_QW = 0
              else Z.land sr FLASH_SR_QW <> 0)
    | Stall t' =>
        exists srs,
          log t' = log t
                     ++ flat_map (busy_poll timeout (add32 reg_base FLASH_SR))
                                 srs
          /\ Forall (fun s => Z.land s FLASH_SR_QW <> 0) srs
    | Fault _ => False
    end.
Proof.
  induction n as [|n IH]; intros t.
  - cbn [wait_erase_bank_loop stall]. exists []. cbn [flat_map].
    rewrite app_nil_r. auto.
  - cbn [wait_erase_bank_loop]. unfold bind at 1. unfold target_mem_read32.
    destruct (budget t) as [|b].
    { exists []. cbn [flat_map]. rewrite app_nil_r. auto. }
    destruct (mem_read32 (world t) (add32 reg_base FLASH_SR)) as [v w].
    set (sr := u32 v).
    destruct (nonzero (Z.land sr FLASH_SR_QW)) eqn:Hq.
    + apply nonzero_true in Hq. unfold bind at 1. unfold target_check_error.
      fields. destruct (check_error w) as [e w'].
      destruct e.
      { cbn [ret]. exists [], sr. fields. cbn [flat_map app]. auto. }
      unfold bind at 1. unfold target_print_progress.
      match goal with
      | |- match wait_erase_bank_loop n timeout reg_base ?t1 with _ => _ end =>
          specialize (IH t1);
          destruct (wait_erase_bank_loop n timeout reg_base t1)
            as [r t'|t'|t']
      end.
      * destruct IH as (srs & sr' & Hl & Hall & Hr).
        exists (sr :: srs), sr'. repeat apply conj.
        -- rewrite Hl. fields. cbn [flat_map busy_poll]. log_eq.
        -- constructor; assumption.
        -- exact Hr.
      * destruct IH as (srs & Hl & Hall).
        exists (sr :: srs). split.
        -- rewrite Hl. fields. cbn [flat_map busy_poll]. log_eq.
        -- constructor; assumption.
      * exact IH.
    + apply nonzero_false in Hq. cbn [ret].
      exists [], sr. fields. cbn [flat_map app]. auto.
Qed.

(** The run of the wait for a bank erase, by outcome. *)
Lemma wait_erase_bank_polls (timeout reg_base : Z) (t : target) :
  match stm32h7_wait_erase_bank timeout reg_base t with
  | Ret r t' =>
      exists srs sr,
        log t' = log t
                   ++ flat_map (busy_poll timeout (add32 reg_base FLASH_SR))
                               srs
                   ++ [EvRead32 (add32 reg_base FLASH_SR) sr]
        /\ Forall (fun s => Z.land s FLASH_SR_QW <> 0) srs
        /\ (if r then Z.land sr FLASH_SR_QW = 0
            else Z.land sr FLASH_SR_QW <> 0)
  | Stall t' =>
      exists srs,
        log t' = log t
                   ++ flat_map (busy_poll timeout (add32 reg_base FLASH_SR))
                               srs
        /\ Forall (fun s => Z.land s FLASH_SR_QW <> 0) srs
  | Fault _ => False
  end.
Proof.
  unfold stm32h7_wait_erase_bank, with_budget.
  apply wait_erase_bank_loop_run.
Qed.

(** X6: the wait for a bank erase does nothing but poll the status register
    of the bank and report progress.  Every poll but the last one of a run
    shows the queue-wait bit QW set and is followed by one progress report;
    the last poll of a run that returns is followed by nothing.  The wait
    returns true exactly when that last poll shows QW clear; it returns false
    on a last poll with QW still set, and this is what happens when the link
    reports an error on a poll with QW set: the wait ends at once with false
    and without a progress report for that poll.  The error bits of the
    status word play no part, and nothing is written to the device. *)
Theorem wait_erase_bank_run (timeout reg_base : Z) (t : target) :
  match stm32h7_wait_erase_bank timeout reg_base t with
  | Ret r t' =>
      exists srs sr,
        log t' = log t
                   ++ flat_map (busy_poll timeout (add32 reg_base FLASH_SR))
                               srs
                   ++ [EvRead32 (add32 reg_base FLASH_SR) sr]
        /\ Forall (fun s => Z.land s FLASH_SR_QW <> 0) srs
        /\ (if r then Z.land sr FLASH_SR_QW = 0
            else Z.land sr FLASH_SR_QW <> 0)
  | Stall t' =>
      exists srs,
        log t' = log t
                   ++ flat_map (busy_poll timeout (add32 reg_base FLASH_SR))
                               srs
        /\ Forall (fun s => Z.land s FLASH_SR_QW <> 0) srs
  | Fault _ => False
  end
  /\ (forall (b : nat) (v : Z) (w w' : W),
         budget t = S b ->
         mem_read32 (world t) (add32 reg_base FLASH_SR) = (v, w) ->
         Z.land (u32 v) FLASH_SR_QW <> 0 ->
         check_error w = (true, w') ->
         exists t',
           stm32h7_wait_erase_bank timeout reg_base t = Ret false t'
           /\ log t' = log t ++ [EvRead32 (add32 reg_base FLASH_SR) (u32 v)]).
Proof.
  split; [exact (wait_erase_bank_polls timeout reg_base t)|].
  intros b v w w' Hb Hr Hq Hc.
  unfold stm32h7_wait_erase_bank, with_budget.
  rewrite Hb. cbn [wait_erase_bank_loop]. unfold bind at 1.
  unfold target_mem_read32. rewrite Hb, Hr.
  apply nonzero_true in Hq. rewrite Hq.
  unfold bind at 1. unfold target_check_error. fields. rewrite Hc.
  unfold ret. eexists. split; [reflexivity|]. fields. reflexivity.
Qed.

(** *** More on the mass erase *)

Lemma writes_to_untouched (addr : Z) (reads writes : list Z)
      (evs : list event) :
  Forall (touches reads writes) evs -> ~ In addr writes ->
  writes_to addr evs = [].
Proof.
  intros Hall Hnot. induction Hall as [|e evs He Hall IH]; cbn [writes_to].
  - reflexivity.
  - destruct e; try exact IH.
    cbn in He. destruct (Z.eqb_spec addr0 addr); [subst; contradiction|].
    exact IH.
Qed.

Lemma writes_to_busy_polls (addr timeout a : Z) (srs : list Z) :
  writes_to addr (flat_map (busy_poll timeout a) srs) = [].
Proof. induction srs as [|s srs IH]; cbn; auto. Qed.

Lemma erase_bank_run (ps : align) (start_addr reg_base : Z)
      (t : target) (r : bool) (t' : target) :
  stm32h7_erase_bank ps start_addr reg_base t = Ret r t' ->
  exists t1,
    stm32h7_flash_unlock start_addr t = Ret r t1
    /\ if r then
         log t' = log t1
                    ++ [EvWrite32 (add32 reg_base FLASH_CR)
                          (Z.lor (Z.lor (align_val ps * FLASH_CR_PSIZE16)
                                        FLASH_CR_BER)
                                 FLASH_CR_START)]
       else t' = t1.
Proof.
  unfold stm32h7_erase_bank. unfold bind at 1.
  destruct (stm32h7_flash_unlock start_addr t) as [ok t1|t1|t1];
    try discriminate.
  destruct ok; cbn [negb].
  - unfold bind, target_mem_write32, ret. intros H. injection H as <- <-.
    exists t1. split; reflexivity.
  - unfold ret. intros H. injection H as <- <-. exists t1. auto.
Qed.

Lemma check_bank_run (reg_base : Z) (t : target) (r : bool) (t' : target) :
  stm32h7_check_bank reg_base t = Ret r t' ->
  exists status,
    log t' = log t ++ [EvRead32 (add32 reg_base FLASH_SR) status]
    /\ r = negb (nonzero (Z.land status FLASH_SR_ERROR_MASK)).
Proof.
  unfold stm32h7_check_bank, bind, target_mem_read32.
  destruct (budget t); [discriminate|].
  destruct (mem_read32 (world t) (add32 reg_base FLASH_SR)) as [v w].
  unfold ret. intros H. injection H as <- <-.
  exists (u32 v). split; reflexivity.
Qed.

(** The stages of a mass erase that reports success. *)
Lemma mass_erase_success_path (t t' : target) :
  stm32h7_mass_erase t = Ret true t' ->
  exists t1 t2 t3 t4 t5,
    stm32h7_erase_bank (configured_psize (flash t)) BANK1_START FPEC1_BASE t
    = Ret true t1
    /\ stm32h7_erase_bank (configured_psize (flash t)) BANK2_START FPEC2_BASE
                          t1
       = Ret false t2
    /\ stm32h7_wait_erase_bank 500 FPEC1_BASE t2 = Ret true t3
    /\ stm32h7_wait_erase_bank 500 FPEC2_BASE t3 = Ret true t4
    /\ stm32h7_check_bank FPEC1_BASE t4 = Ret true t5
    /\ stm32h7_check_bank FPEC2_BASE t5 = Ret true t'.
Proof.
  unfold stm32h7_mass_erase. unfold bind at 1. unfold gets at 1.
  unfold bind at 1.
  destruct (stm32h7_erase_bank _ BANK1_START FPEC1_BASE t) as [ok1 t1|t1|t1]
    eqn:E1; try discriminate.
  destruct ok1; cbn [negb]; [|discriminate].
  unfold bind at 1.
  destruct (stm32h7_erase_bank _ BANK2_START FPEC2_BASE t1)
    as [ok2 t2|t2|t2] eqn:E2; try discriminate.
  destruct ok2; [discriminate|].
  unfold bind at 1.
  destruct (stm32h7_wait_erase_bank 500 FPEC1_BASE t2) as [w1 t3|t3|t3]
    eqn:E3; try discriminate.
  destruct w1; cbn [negb]; [|discriminate].
  unfold bind at 1 2.
  destruct (stm32h7_wait_erase_bank 500 FPEC2_BASE t3) as [w2 t4|t4|t4]
    eqn:E4; try discriminate.
  destruct w2; cbn [negb ret]; [|discriminate].
  unfold bind at 1.
  destruct (stm32h7_check_bank FPEC1_BASE t4) as [c1 t5|t5|t5]
    eqn:E5; try discriminate.
  destruct c1; [|discriminate].
  intros H. exists t1, t2, t3, t4, t5. repeat split; assumption.
Qed.

(** X7: a mass erase that reports success has not started the erase of bank
    2.  On every run that returns success, the bank-erase command was
    written once to FLASH_CR of controller 1 and nothing at all was written
    to FLASH_CR of controller 2 (the run reaches the wait phase only when
    starting bank 2 failed). *)
Theorem mass_erase_success_without_bank2 (t t' : target) :
  stm32h7_mass_erase t = Ret true t' ->
  exists evs,
    log t' = log t ++ evs
    /\ writes_to (FPEC1_BASE + FLASH_CR) evs
       = [Z.lor (Z.lor (align_val (configured_psize (flash t))
                          * FLASH_CR_PSIZE16)
                       FLASH_CR_BER)
                FLASH_CR_START]
    /\ writes_to (FPEC2_BASE + FLASH_CR) evs = [].
Proof.
  intros Hrun.
  destruct (mass_erase_success_path t t' Hrun)
    as (s1 & s2 & s3 & s4 & s5 & H1 & H2 & H3 & H4 & H5 & H6).
  (* bank 1 *)
  pose proof H1 as H1'. unfold stm32h7_erase_bank in H1'.
  unfold bind at 1 in H1'.
  destruct (unlock_emits BANK1_START t) as (e1 & Hl1 & Hok1 & _).
  destruct (stm32h7_flash_unlock BANK1_START t) as [ok u1|u1|u1] eqn:Hu1;
    try discriminate.
  destruct ok; cbn [negb] in H1'; [|discriminate].
  unfold bind, target_mem_write32, ret in H1'. injection H1' as H1'.
  cbn [final] in Hl1.
  (* bank 2 *)
  destruct (erase_bank_run _ _ _ _ _ _ H2) as (u2 & Hu2 & ->).
  destruct (unlock_emits BANK2_START s1) as (e2 & Hl2 & Hok2 & _).
  rewrite Hu2 in Hl2. cbn [final] in Hl2.
  (* waits and checks *)
  pose proof (wait_erase_bank_polls 500 FPEC1_BASE u2) as Hw1.
  rewrite H3 in Hw1. destruct Hw1 as (p1 & q1 & Hl3 & _).
  pose proof (wait_erase_bank_polls 500 FPEC2_BASE s3) as Hw2.
  rewrite H4 in Hw2. destruct Hw2 as (p2 & q2 & Hl4 & _).
  destruct (check_bank_run _ _ _ _ H5) as (c1 & Hl5 & _).
  destruct (check_bank_run _ _ _ _ H6) as (c2 & Hl6 & _).
  set (cmd := Z.lor (Z.lor (align_val (configured_psize (flash t))
                              * FLASH_CR_PSIZE16) FLASH_CR_BER)
                    FLASH_CR_START) in *.
  exists (e1 ++ [EvWrite32 (FPEC1_BASE + FLASH_CR) cmd] ++ e2
             ++ flat_map (busy_poll 500 (add32 FPEC1_BASE FLASH_SR)) p1
             ++ [EvRead32 (add32 FPEC1_BASE FLASH_SR) q1]
             ++ flat_map (busy_poll 500 (add32 FPEC2_BASE FLASH_SR)) p2
             ++ [EvRead32 (add32 FPEC2_BASE FLASH_SR) q2]
             ++ [EvRead32 (add32 FPEC1_BASE FLASH_SR) c1]
             ++ [EvRead32 (add32 FPEC2_BASE FLASH_SR) c2]).
  assert (Hn11 : writes_to (FPEC1_BASE + FLASH_CR) e1 = []).
  { eapply writes_to_untouched; [exact Hok1|].
    vm_compute. intuition discriminate. }
  assert (Hn12 : writes_to (FPEC2_BASE + FLASH_CR) e1 = []).
  { eapply writes_to_untouched; [exact Hok1|].
    vm_compute. intuition discriminate. }
  assert (Hn21 : writes_to (FPEC1_BASE + FLASH_CR) e2 = []).
  { eapply writes_to_untouched; [exact Hok2|].
    vm_compute. intuition discriminate. }
  assert (Hn22 : writes_to (FPEC2_BASE + FLASH_CR) e2 = []).
  { eapply writes_to_untouched; [exact Hok2|].
    vm_compute. intuition discriminate. }
  repeat apply conj.
  - rewrite Hl6, Hl5, Hl4, Hl3, Hl2, <- H1'. fields. rewrite Hl1. log_eq.
  - rewrite !writes_to_app, !writes_to_busy_polls, Hn11, Hn21.
    cbn [writes_to app]. rewrite Z.eqb_refl. reflexivity.
  - rewrite !writes_to_app, !writes_to_busy_polls, Hn12, Hn22.
    cbn [writes_to app].
    change (FPEC1_BASE + FLASH_CR =? FPEC2_BASE + FLASH_CR) with false.
    reflexivity.
Qed.

(** X8: a mass erase that reports success ends with the two status checks:
    its last two accesses are reads of FLASH_SR of controller 1 and of
    controller 2, in this order, and neither word has an error bit. *)
Theorem mass_erase_success_checks (t t' : target) :
  stm32h7_mass_erase t = Ret true t' ->
  exists pre s1 s2,
    log t' = log t ++ pre
               ++ [EvRead32 (FPEC1_BASE + FLASH_SR) s1;
                   EvRead32 (FPEC2_BASE + FLASH_SR) s2]
    /\ Z.land s1 FLASH_SR_ERROR_MASK = 0
    /\ Z.land s2 FLASH_SR_ERROR_MASK = 0.
Proof.
  intros Hrun.
  destruct (mass_erase_success_path t t' Hrun)
    as (s1 & s2 & s3 & s4 & s5 & H1 & H2 & H3 & H4 & H5 & H6).
  destruct (check_bank_run _ _ _ _ H5) as (c1 & Hl5 & Hc1).
  destruct (check_bank_run _ _ _ _ H6) as (c2 & Hl6 & Hc2).
  assert (Hgrow : exists pre, log s4 = log t ++ pre).
  { destruct (erase_bank_emits (configured_psize (flash t)) BANK1_START
                               FPEC1_BASE t) as (e1 & Hl1 & _).
    rewrite H1 in Hl1.
    destruct (erase_bank_emits (configured_psize (flash t)) BANK2_START
                               FPEC2_BASE s1) as (e2 & Hl2 & _).
    rewrite H2 in Hl2.
    destruct (wait_erase_bank_emits 500 FPEC1_BASE s2) as (e3 & Hl3 & _).
    rewrite H3 in Hl3.
    destruct (wait_erase_bank_emits 500 FPEC2_BASE s3) as (e4 & Hl4 & _).
    rewrite H4 in Hl4. cbn [final] in *.
    exists (e1 ++ e2 ++ e3 ++ e4). rewrite Hl4, Hl3, Hl2, Hl1. log_eq. }
  destruct Hgrow as (pre & Hpre).
  exists pre, c1, c2. repeat apply conj.
  - rewrite Hl6, Hl5, Hpre. log_eq.
  - symmetry in Hc1. apply negb_true_iff in Hc1.
    apply nonzero_false in Hc1. exact Hc1.
  - symmetry in Hc2. apply negb_true_iff in Hc2.
    apply nonzero_false in Hc2. exact Hc2.
Qed.

(** *** The psize command: store, then query *)

Lemma configured_psize_store (p : align) (fl : list stm32h7_flash) :
  forall acc,
    fold_left (fun ps f => if is_stm32h7_flash f then psize f else ps)
              (store_psize p fl) acc
    = if existsb is_stm32h7_flash fl then p else acc.
Proof.
  induction fl as [|f fl IH]; intros acc; cbn [store_psize map fold_left existsb].
  - reflexivity.
  - fold (store_psize p fl). rewrite IH.
    destruct (is_stm32h7_flash f) eqn:Hd; cbn [orb].
    + unfold is_stm32h7_flash in *. cbn [f_write psize]. rewrite Hd.
      destruct (existsb _ fl); reflexivity.
    + rewrite Hd. reflexivity.
Qed.

Lemma store_psize_stored (p : align) (fl : list stm32h7_flash) :
  Forall2 (psize_stored p) fl (store_psize p fl).
Proof.
  induction fl as [|f fl IH]; cbn [store_psize map]; constructor.
  - unfold psize_stored. destruct (is_stm32h7_flash f); cbn; auto 10.
  - exact IH.
Qed.

Lemma cmd_psize_store
      (argc : Z) (argv : list string) (a : string) (p : align)
      (t : @target W) :
  In (a, p) psize_arguments ->
  argc <> 1 ->
  nth_error argv 1 = Some a ->
  stm32h7_cmd_psize argc argv t
  = Ret true (set_flash (store_psize p (flash t)) t).
Proof.
  intros Hin Hargc Harg. unfold stm32h7_cmd_psize.
  destruct (Z.eqb_spec argc 1); [contradiction|]. rewrite Harg.
  destruct Hin as [H|[H|[H|[H|[]]]]]; injection H as <- <-; reflexivity.
Qed.

(** X9: storing and querying the write parallelism round-trips.  After the
    psize command with one of the arguments x8, x16, x32, x64, on a target
    with at least one flash descriptor of the driver, every descriptor of
    the driver carries the parallelism the argument names, nothing was
    printed and the device was not accessed; the psize command without
    argument then prints exactly that argument and changes nothing. *)
Theorem psize_store_then_query
        (argc : Z) (argv argv' : list string) (a : string) (p : align)
        (t : @target W) :
  In (a, p) psize_arguments ->
  argc <> 1 ->
  nth_error argv 1 = Some a ->
  existsb is_stm32h7_flash (flash t) = true ->
  exists t1 t2 : @target W,
    stm32h7_cmd_psize argc argv t = Ret true t1
    /\ log t1 = log t
    /\ world t1 = world t
    /\ Forall (fun f => is_stm32h7_flash f = true -> psize f = p) (flash t1)
    /\ stm32h7_cmd_psize 1 argv' t1 = Ret true t2
    /\ log t2 = log t ++ [EvPrintf "Flash write parallelism: %s\n" [ArgStr a]]
    /\ flash t2 = flash t1.
Proof.
  intros Hin Hargc Harg Hdrv.
  exists (set_flash (store_psize p (flash t)) t).
  eexists. split; [apply (cmd_psize_store argc argv a p t); assumption|].
  split; [reflexivity|]. split; [reflexivity|]. split.
  { fields. unfold store_psize. apply Forall_map, Forall_forall.
    intros f _. destruct (is_stm32h7_flash f) eqn:Hd.
    - intros _. reflexivity.
    - unfold is_stm32h7_flash in *. congruence. }
  unfold stm32h7_cmd_psize. cbn [Z.eqb Pos.eqb].
  unfold bind, gets, tc_printf, ret. split; [reflexivity|]. fields.
  unfold configured_psize. rewrite configured_psize_store, Hdrv.
  split; [|reflexivity].
  destruct Hin as [H|[H|[H|[H|[]]]]]; injection H as <- <-; reflexivity.
Qed.

(** X10: the psize command with a recognised argument changes the write
    parallelism of the descriptors of the driver and nothing else: the flash
    list keeps its length and order, every descriptor keeps its range, block
    and write sizes, routines and register base, and the descriptors of other
    drivers keep their parallelism field too. *)
Theorem psize_store_changes_psize_only
        (argc : Z) (argv : list string) (a : string) (p : align)
        (t : @target W) :
  In (a, p) psize_arguments ->
  argc <> 1 ->
  nth_error argv 1 = Some a ->
  Forall2 (psize_stored p) (flash t)
          (flash (final (stm32h7_cmd_psize argc argv t)))
  /\ ram (final (stm32h7_cmd_psize argc argv t)) = ram t
  /\ target_storage (final (stm32h7_cmd_psize argc argv t)) = target_storage t.
Proof.
  intros Hin Hargc Harg.
  rewrite (cmd_psize_store argc argv a p t Hin Hargc Harg).
  cbn [final]. fields. split; [apply store_psize_stored | auto].
Qed.

(** *** The uid command *)

Lemma byte_of_word (v k : Z) :
  0 <= k -> Z.land (Z.shiftr v k) 0xff = v / 2 ^ k mod 256.
Proof.
  intros Hk. rewrite Z.shiftr_div_pow2 by exact Hk.
  change 0xff with (Z.ones 8). rewrite Z.land_ones by lia. reflexivity.
Qed.

Lemma be_bytes_decode (v : Z) :
  0 <= v < 2 ^ 32 -> be_decode (be_bytes v) = v.
Proof.
  intros Hv. unfold be_decode, be_bytes. cbn [fold_left].
  change (2 ^ 32) with 4294967296 in Hv.
  change (2 ^ 24) with 16777216. change (2 ^ 16) with 65536.
  change (2 ^ 8) with 256.
  assert (E16 : v / 65536 = v / 256 / 256)
    by (rewrite Z.div_div by lia; reflexivity).
  assert (E24 : v / 16777216 = v / 256 / 256 / 256)
    by (rewrite !Z.div_div by lia; reflexivity).
  rewrite E16, E24.
  pose proof (Z.div_mod v 256 ltac:(lia)) as D0.
  pose proof (Z.div_mod (v / 256) 256 ltac:(lia)) as D1.
  pose proof (Z.div_mod (v / 256 / 256) 256 ltac:(lia)) as D2.
  pose proof (Z.mod_pos_bound v 256 ltac:(lia)) as B0.
  pose proof (Z.mod_pos_bound (v / 256) 256 ltac:(lia)) as B1.
  pose proof (Z.mod_pos_bound (v / 256 / 256) 256 ltac:(lia)) as B2.
  assert (Hsmall : 0 <= v / 256 / 256 / 256 < 256).
  { split.
    - repeat apply Z.div_pos; lia.
    - apply Z.div_lt_upper_bound; [lia|].
      apply Z.div_lt_upper_bound; [lia|].
      apply Z.div_lt_upper_bound; lia. }
  rewrite (Z.mod_small (v / 256 / 256 / 256) 256) by lia.
  lia.
Qed.

Lemma be_bytes_range (v : Z) : Forall (fun b => 0 <= b < 256) (be_bytes v).
Proof.
  unfold be_bytes. repeat constructor; apply Z.mod_pos_bound; lia.
Qed.

Lemma u32_range (v : Z) : 0 <= u32 v < 2 ^ 32.
Proof. unfold u32. apply Z.mod_pos_bound. reflexivity. Qed.

Lemma uid_word_run (addr : Z) (t : target) (b : nat) :
  budget t = S b ->
  exists t' v,
    uid_word addr t = Ret tt t'
    /\ log t' = log t ++ uid_line addr v
    /\ budget t' = b
    /\ part_id t' = part_id t
    /\ 0 <= v < 2 ^ 32.
Proof.
  intros Hb. unfold uid_word. rewrite bind_read32, Hb.
  unfold bind, tc_printf. eexists.
  exists (u32 (fst (mem_read32 (world t) addr))). split; [reflexivity|].
  fields. repeat apply conj; try reflexivity.
  - unfold uid_line, be_bytes. cbn [map].
    rewrite !byte_of_word by lia.
    change (2 ^ 0) with 1. rewrite Z.div_1_r. log_eq.
  - apply u32_range.
  - apply u32_range.
Qed.

(** X11: with three register reads to spend, the uid command returns
    success after reading three consecutive words, at 0x08fff800 for an
    H7Bx part and at 0x1ff1e800 for any other, and it writes nothing to the
    device.  Its output is "0x", then for each word in turn its four bytes
    as "%02X", most significant byte first, then a newline: each argument is
    a byte, and the four bytes of a word decode, big-endian, to the word
    that was read. *)
Theorem uid_prints_identifier (t : target) :
  (3 <= budget t)%nat ->
  exists t' v0 v1 v2,
    let uid := if part_id t =? ID_STM32H7Bx then 0x08fff800 else 0x1ff1e800 in
    stm32h7_uid t = Ret true t'
    /\ log t' = log t ++ [EvPrintf "0x" []]
                  ++ uid_line uid v0
                  ++ uid_line (uid + 4) v1
                  ++ uid_line (uid + 8) v2
                  ++ [EvPrintf "\n" []]
    /\ Forall (fun v => 0 <= v < 2 ^ 32
                        /\ be_decode (be_bytes v) = v
                        /\ Forall (fun b => 0 <= b < 256) (be_bytes v))
              [v0; v1; v2].
Proof.
  intros Hb. unfold stm32h7_uid. unfold bind at 1. unfold gets at 1.
  set (uid := if part_id t =? ID_STM32H7Bx then 0x08fff800 else 0x1ff1e800).
  assert (H0 : add32 uid 0 = uid)
    by (subst uid; destruct (part_id t =? ID_STM32H7Bx); reflexivity).
  assert (H4 : add32 uid 4 = uid + 4)
    by (subst uid; destruct (part_id t =? ID_STM32H7Bx); reflexivity).
  assert (H8 : add32 uid 8 = uid + 8)
    by (subst uid; destruct (part_id t =? ID_STM32H7Bx); reflexivity).
  rewrite H0, H4, H8.
  destruct (budget t) as [|[|[|b]]] eqn:Hbt; try lia.
  unfold bind at 1. unfold tc_printf at 1.
  destruct (uid_word_run uid (emit (EvPrintf "0x" []) t) (S (S b)))
    as (t1 & v0 & Hr0 & Hl0 & Hb0 & Hp0 & Hv0); [exact Hbt|].
  unfold bind at 1. rewrite Hr0.
  destruct (uid_word_run (uid + 4) t1 (S b))
    as (t2 & v1 & Hr1 & Hl1 & Hb1 & Hp1 & Hv1); [exact Hb0|].
  unfold bind at 1. rewrite Hr1.
  destruct (uid_word_run (uid + 8) t2 b)
    as (t3 & v2 & Hr2 & Hl2 & Hb2 & Hp2 & Hv2); [exact Hb1|].
  unfold bind at 1. rewrite Hr2.
  unfold bind, tc_printf, ret.
  eexists. exists v0, v1, v2. cbn zeta.
  split; [reflexivity|]. split.
  - fields. rewrite Hl2, Hl1, Hl0. fields. log_eq.
  - repeat (apply Forall_cons || apply Forall_nil);
      (split; [assumption|]);
      (split; [apply be_bytes_decode; assumption | apply be_bytes_range]).
Qed.

(** *** Commands that only read *)

Lemma uid_reads_only : emits (fun e => is_write e = false) stm32h7_uid.
Proof. unfold stm32h7_uid, uid_word. repeat emits_step; reflexivity. Qed.

Lemma cmd_rev_reads_only : emits (fun e => is_write e = false) stm32h7_cmd_rev.
Proof. unfold stm32h7_cmd_rev. repeat emits_step; reflexivity. Qed.

Lemma cmd_psize_reads_only (argc : Z) (argv : list string) :
  emits (fun e => is_write e = false) (stm32h7_cmd_psize argc argv).
Proof. unfold stm32h7_cmd_psize. repeat emits_step; reflexivity. Qed.

(** X12: the uid, revision and psize commands never write to the device:
    whatever their arguments and outcome, the accesses they add to the log
    contain no register write and no block write. *)
Theorem monitor_commands_do_not_write :
  (forall t : @target W,
      exists evs, log (final (stm32h7_uid t)) = log t ++ evs
                  /\ Forall (fun e => is_write e = false) evs)
  /\ (forall t : @target W,
         exists evs, log (final (stm32h7_cmd_rev t)) = log t ++ evs
                     /\ Forall (fun e => is_write e = false) evs)
  /\ (forall argc argv (t : @target W),
         exists evs,
           log (final (stm32h7_cmd_psize argc argv t)) = log t ++ evs
           /\ Forall (fun e => is_write e = false) evs).
Proof.
  repeat apply conj.
  - intros t. destruct (uid_reads_only t) as (evs & Hl & Hok & _). eauto.
  - intros t. destruct (cmd_rev_reads_only t) as (evs & Hl & Hok & _). eauto.
  - intros argc argv t.
    destruct (cmd_psize_reads_only argc argv t) as (evs & Hl & Hok & _).
    eauto.
Qed.

(** *** The CRC run of a bank *)

(** A status word on which the CRC loop polls again: CRC_BUSY set and no
    read error. *)
Definition crc_in_progress (sr : Z) : Prop :=
  Z.land sr FLASH_SR_CRC_BUSY <> 0 /\ Z.land sr FLASH_SR_ERROR_READ = 0.

Lemma crc_bank_loop_run (regbase : Z) (n : nat) :
  forall t,
    match crc_bank_loop n regbase t with
    | Ret r t' =>
        exists srs sr,
          log t' = log t ++ polls (add32 regbase FLASH_SR) srs
                     ++ [EvRead32 (add32 regbase FLASH_SR) sr]
          /\ Forall crc_in_progress srs
          /\ ((r = 0 /\ Z.land sr FLASH_SR_CRC_BUSY = 0)
              \/ (r = -1 /\ Z.land sr FLASH_SR_CRC_BUSY <> 0))
    | Stall t' =>
        exists srs,
          log t' = log t ++ polls (add32 regbase FLASH_SR) srs
          /\ Forall crc_in_progress srs
    | Fault _ => False
    end.
Proof.
  induction n as [|n IH]; intros t.
  - cbn [crc_bank_loop stall]. exists []. cbn [polls map].
    rewrite app_nil_r. auto.
  - cbn [crc_bank_loop]. unfold bind at 1. unfold target_mem_read32.
    destruct (budget t) as [|b].
    { exists []. cbn [polls map]. rewrite app_nil_r. auto. }
    destruct (mem_read32 (world t) (add32 regbase FLASH_SR)) as [v w].
    set (sr := u32 v).
    destruct (nonzero (Z.land sr FLASH_SR_CRC_BUSY)) eqn:Hq.
    + apply nonzero_true in Hq. unfold bind at 1. unfold target_check_error.
      fields. destruct (check_error w) as [e w'].
      destruct e.
      { cbn [ret]. exists [], sr. fields. cbn [app]. auto. }
      destruct (nonzero (Z.land sr FLASH_SR_ERROR_READ)) eqn:He.
      { cbn [ret]. exists [], sr. fields. cbn [app]. auto. }
      apply nonzero_false in He.
      match goal with
      | |- match crc_bank_loop n regbase ?t1 with _ => _ end =>
          specialize (IH t1);
          destruct (crc_bank_loop n regbase t1) as [r t'|t'|t']
      end.
      * destruct IH as (srs & sr' & Hl & Hall & Hr).
        exists (sr :: srs), sr'. repeat apply conj.
        -- rewrite Hl. fields. log_eq.
        -- constructor; [split; assumption | assumption].
        -- exact Hr.
      * destruct IH as (srs & Hl & Hall).
        exists (sr :: srs). split.
        -- rewrite Hl. fields. log_eq.
        -- constructor; [split; assumption | assumption].
      * exact IH.
    + apply nonzero_false in Hq. cbn [ret].
      exists [], sr. fields. cbn [app]. auto.
Qed.

(** X13: the CRC run of a bank returns 0 or -1 and nothing else.  When it
    returns 0, the unlock of the bank succeeded, and what follows it in the
    log is: FLASH_CR := CRC_EN, FLASH_CRCCR := burst 3 | clean | all-bank,
    the same word again with the start bit, then polls of FLASH_SR that all
    show CRC_BUSY without read error, and a last poll with CRC_BUSY clear.
    The error bits of that last status word are not examined. *)
Theorem crc_bank_run (bank : Z) (t : target) (r : Z) (t' : target) :
  stm32h7_crc_bank bank t = Ret r t' ->
  (r = 0 \/ r = -1)
  /\ (r = 0 ->
      exists t1 srs sr,
        stm32h7_flash_unlock bank t = Ret true t1
        /\ log t' = log t1
                      ++ [EvWrite32 (add32 (regbase_of bank) FLASH_CR)
                                    FLASH_CR_CRC_EN;
                          EvWrite32 (add32 (regbase_of bank) FLASH_CRCCR)
                            (Z.lor (Z.lor FLASH_CRCCR_CRC_BURST_3
                                          FLASH_CRCCR_CLEAN_CRC)
                                   FLASH_CRCCR_ALL_BANK);
                          EvWrite32 (add32 (regbase_of bank) FLASH_CRCCR)
                            (Z.lor (Z.lor (Z.lor FLASH_CRCCR_CRC_BURST_3
                                                 FLASH_CRCCR_CLEAN_CRC)
                                          FLASH_CRCCR_ALL_BANK)
                                   FLASH_CRCCR_START_CRC)]
                      ++ polls (add32 (regbase_of bank) FLASH_SR) srs
                      ++ [EvRead32 (add32 (regbase_of bank) FLASH_SR) sr]
        /\ Forall crc_in_progress srs
        /\ Z.land sr FLASH_SR_CRC_BUSY = 0).
Proof.
  unfold stm32h7_crc_bank. unfold bind at 1.
  destruct (stm32h7_flash_unlock bank t) as [ok t1|t1|t1]; try discriminate.
  destruct ok; cbn [negb].
  2:{ unfold ret. intros H. injection H as <- <-.
      split; [right; reflexivity | discriminate]. }
  unfold bind, target_mem_write32, with_budget.
  match goal with
  | |- crc_bank_loop ?n ?rb ?t2 = _ -> _ =>
      pose proof (crc_bank_loop_run rb n t2) as Hrun;
      destruct (crc_bank_loop n rb t2) as [r2 t3|t3|t3]; try discriminate
  end.
  intros H. injection H as <- <-.
  destruct Hrun as (srs & sr & Hl & Hall & [[-> Hq] | [-> Hq]]).
  - split; [left; reflexivity|]. intros _.
    exists t1, srs, sr. repeat apply conj; auto.
    rewrite Hl. fields. log_eq.
  - split; [right; reflexivity | discriminate].
Qed.

Lemma crc_bank_touches (bank : Z) :
  emits (touches [add32 (regbase_of bank) FLASH_SR;
                  add32 (regbase_of bank) FLASH_CR]
                 [add32 (regbase_of bank) FLASH_CCR;
                  add32 (regbase_of bank) FLASH_KEYR;
                  add32 (regbase_of bank) FLASH_CR;
                  add32 (regbase_of bank) FLASH_CRCCR])
        (stm32h7_crc_bank bank).
Proof.
  unfold stm32h7_crc_bank.
  apply emits_bind.
  { eapply emits_weaken; [| apply unlock_emits].
    intros [] H; cbn in *; tauto. }
  intros ok. destruct (negb ok); [apply emits_ret|].
  do 3 (apply emits_bind; [apply emits_write32; cbn; tauto|]; intros _).
  apply emits_with_budget. intros n.
  induction n as [|n IH]; cbn [crc_bank_loop].
  - apply emits_stall.
  - repeat emits_step; cbn; auto.
Qed.

(** X14: the CRC run of a bank stays on the controller of that bank: it
    reads only FLASH_SR and FLASH_CR and writes only FLASH_CCR, FLASH_KEYR,
    FLASH_CR and FLASH_CRCCR of the controller that owns the bank address,
    and prints nothing.  In particular it does not read the digest
    register. *)
Theorem crc_bank_stays_on_its_controller (bank : Z) (t : target) :
  exists evs,
    log (final (stm32h7_crc_bank bank t)) = log t ++ evs
    /\ Forall (touches [add32 (regbase_of bank) FLASH_SR;
                        add32 (regbase_of bank) FLASH_CR]
                       [add32 (regbase_of bank) FLASH_CCR;
                        add32 (regbase_of bank) FLASH_KEYR;
                        add32 (regbase_of bank) FLASH_CR;
                        add32 (regbase_of bank) FLASH_CRCCR])
              evs.
Proof.
  destruct (crc_bank_touches bank t) as (evs & Hl & Hok & _).
  exists evs. split; assumption.
Qed.

(** *** The crc command prints on success only *)

Definition no_output (e : event) : Prop :=
  match e with EvPrintf _ _ => False | _ => True end.

Lemma touches_no_output (reads writes : list Z) (evs : list event) :
  Forall (touches reads writes) evs -> Forall no_output evs.
Proof.
  intros H. eapply Forall_impl; [|exact H].
  intros [] He; cbn in *; auto.
Qed.

(** X15: the crc command prints exactly one line, as the last thing it
    does, and only when it returns success; the two words on that line are
    words it read from the device.  When it returns failure (the CRC run of
    a bank returned -1) it has printed nothing. *)
Theorem crc_prints_on_success_only (t : target) (r : bool) (t' : target) :
  stm32h7_crc t = Ret r t' ->
  exists pre,
    Forall no_output pre
    /\ if r then
         exists crc1 crc2 a1 a2,
           In (EvRead32 a1 crc1) pre /\ In (EvRead32 a2 crc2) pre
           /\ log t' = log t ++ pre
                         ++ [EvPrintf "CRC: bank1 0x%08lx, bank2 0x%08lx\n"
                                      [ArgInt crc1; ArgInt crc2]]
       else log t' = log t ++ pre.
Proof.
  unfold stm32h7_crc. intros H. unfold bind at 1 in H.
  destruct (crc_bank_touches BANK1_START t) as (e1 & Hl1 & Hok1 & _).
  apply touches_no_output in Hok1.
  destruct (stm32h7_crc_bank BANK1_START t) as [r1 t1|t1|t1];
    try discriminate.
  cbn [final] in Hl1.
  destruct (nonzero r1).
  { unfold ret in H. injection H as <- <-. exists e1. auto. }
  unfold bind at 1 in H. unfold target_mem_read32 at 1 in H.
  destruct (budget t1) as [|b1]; [discriminate|].
  destruct (mem_read32 (world t1) (FPEC1_BASE + FLASH_CRCDATA)) as [v1 w1].
  unfold bind at 1 in H.
  match type of H with
  | match stm32h7_crc_bank _ ?t2 with _ => _ end = _ =>
      destruct (crc_bank_touches BANK2_START t2) as (e2 & Hl2 & Hok2 & _);
      destruct (stm32h7_crc_bank BANK2_START t2) as [r2 t3|t3|t3];
      try discriminate
  end.
  apply touches_no_output in Hok2.
  cbn [final] in Hl2. fields.
  destruct (nonzero r2).
  { unfold ret in H. injection H as <- <-.
    exists (e1 ++ [EvRead32 (FPEC1_BASE + FLASH_CRCDATA) (u32 v1)] ++ e2).
    split.
    - apply Forall_app. split; [exact Hok1|].
      constructor; [exact I | exact Hok2].
    - rewrite Hl2, Hl1. log_eq. }
  unfold bind at 1 in H. unfold target_mem_read32 at 1 in H.
  destruct (budget t3) as [|b3]; [discriminate|].
  destruct (mem_read32 (world t3) (FPEC1_BASE + FLASH_CRCDATA)) as [v2 w2].
  unfold bind, tc_printf, ret in H. injection H as <- <-.
  exists (e1 ++ [EvRead32 (FPEC1_BASE + FLASH_CRCDATA) (u32 v1)] ++ e2
             ++ [EvRead32 (FPEC1_BASE + FLASH_CRCDATA) (u32 v2)]).
  split.
  - apply Forall_app. split; [exact Hok1|].
    constructor; [exact I|]. apply Forall_app. split; [exact Hok2|].
    constructor; [exact I | constructor].
  - exists (u32 v1), (u32 v2), (FPEC1_BASE + FLASH_CRCDATA),
      (FPEC1_BASE + FLASH_CRCDATA).
    repeat apply conj.
    + apply in_or_app. right. left. reflexivity.
    + apply in_or_app. right. right. cbn [app].
      apply in_or_app. right. left. reflexivity.
    + fields. rewrite Hl2, Hl1. log_eq.
Qed.


(** *** Erasing inside a bank *)

Lemma in_span_from (k : Z) (n : nat) :
  forall first, In k (span_from first n) -> first <= k < first + Z.of_nat n.
Proof.
  induction n as [|n IH]; intros first Hin; cbn [span_from] in Hin.
  - contradiction.
  - destruct Hin as [<- | Hin]; [lia|]. apply IH in Hin. lia.
Qed.

Lemma in_sector_span (k first last : Z) :
  In k (sector_span first last) -> first <= k <= last.
Proof.
  unfold sector_span. intros Hin. apply in_span_from in Hin. lia.
Qed.

Lemma bank_relative_in_bank (start addr : Z) :
  start = BANK1_START \/ start = BANK2_START ->
  start <= addr < start + NUM_SECTOR_PER_BANK * FLASH_SECTOR_SIZE ->
  bank_relative addr = addr - start.
Proof.
  intros Hs Ha. unfold bank_relative.
  change (NUM_SECTOR_PER_BANK * FLASH_SECTOR_SIZE - 1) with (Z.ones 20).
  change (NUM_SECTOR_PER_BANK * FLASH_SECTOR_SIZE) with 1048576 in Ha.
  rewrite Z.land_ones by lia. change (2 ^ 20) with 1048576.
  destruct Hs as [-> | ->].
  - change BANK1_START with (128 * 1048576) in *.
    replace addr with (addr - 128 * 1048576 + 128 * 1048576) at 1 by lia.
    rewrite Z.mod_add by lia. apply Z.mod_small. lia.
  - change BANK2_START with (129 * 1048576) in *.
    replace addr with (addr - 129 * 1048576 + 129 * 1048576) at 1 by lia.
    rewrite Z.mod_add by lia. apply Z.mod_small. lia.
Qed.

(** X16: an erase of a non-empty range that lies inside one bank commands
    sectors of that bank only, numbered relative to the start of the bank.
    After a successful unlock, every word the erase writes to FLASH_CR is
    the arm or the trigger word of a sector k with
    (addr - start) / sector_size <= k <= (addr - start + len - 1) /
    sector_size, and k is below NUM_SECTOR_PER_BANK. *)
Theorem flash_erase_within_bank
        (f : stm32h7_flash) (start addr len : Z) (t t1 : target) :
  start = BANK1_START \/ start = BANK2_START ->
  start <= addr ->
  0 < len ->
  addr + len <= start + NUM_SECTOR_PER_BANK * FLASH_SECTOR_SIZE ->
  stm32h7_flash_unlock addr t = Ret true t1 ->
  exists evs,
    log (final (stm32h7_flash_erase f addr len t))
    = log t1 ++ EvWrite32 (add32 (regbase f) FLASH_ACR) 0 :: evs
    /\ Forall (fun v =>
                 exists k,
                   (addr - start) / FLASH_SECTOR_SIZE <= k
                   /\ k <= (addr - start + len - 1) / FLASH_SECTOR_SIZE
                   /\ 0 <= k < NUM_SECTOR_PER_BANK
                   /\ In v (arm_then_trigger (psize f) k))
              (writes_to (add32 (regbase f) FLASH_CR) evs).
Proof.
  intros Hs Hlo Hlen Hhi Hu.
  assert (Hrange : 0 <= addr < 2 ^ 32 /\ addr + len <= 2 ^ 32).
  { change (2 ^ 32) with 4294967296.
    change (NUM_SECTOR_PER_BANK * FLASH_SECTOR_SIZE) with 1048576 in Hhi.
    destruct Hs as [-> | ->]; unfold BANK1_START, BANK2_START in *; lia. }
  destruct Hrange as [Haddr Hend].
  rewrite (flash_erase_is_plan f addr len t Haddr Hlen Hend).
  unfold erase_plan. unfold bind, target_mem_write32. rewrite Hu.
  match goal with
  | |- context [erase_sectors f ?secs ?t2] =>
      destruct (erase_sectors_trace f secs t2)
        as (done & rest & evs & Hspan & Hl & Hw & _)
  end.
  exists evs. split; [rewrite Hl; fields; log_eq|].
  rewrite Hw. apply Forall_forall. intros v Hv.
  apply in_flat_map in Hv. destruct Hv as (k & Hk & Hv).
  assert (Hin : In k (erase_span addr len)).
  { rewrite Hspan. apply in_or_app. left. exact Hk. }
  unfold erase_span in Hin. apply in_sector_span in Hin.
  change (NUM_SECTOR_PER_BANK * FLASH_SECTOR_SIZE) with 1048576 in Hhi.
  rewrite (bank_relative_in_bank start addr Hs) in Hin
    by (change (NUM_SECTOR_PER_BANK * FLASH_SECTOR_SIZE) with 1048576; lia).
  exists k. repeat apply conj; try tauto.
  - apply Z.le_trans with ((addr - start) / FLASH_SECTOR_SIZE); [|tauto].
    apply Z.div_pos; [lia | reflexivity].
  - apply Z.le_lt_trans with ((addr - start + len - 1) / FLASH_SECTOR_SIZE);
      [tauto|].
    change FLASH_SECTOR_SIZE with 131072. change NUM_SECTOR_PER_BANK with 8.
    apply Z.div_lt_upper_bound; lia.
Qed.

(** The fields of a FLASH_CR word as the controller decodes them: the sector
    number in bits 8 to 10, the parallelism in bits 4 and 5. *)
Definition cr_sector (v : Z) : Z := Z.land (Z.shiftr v 8) 7.
Definition cr_psize (v : Z) : Z := Z.land (Z.shiftr v 4) 3.

Lemma erase_span_in_bank (start addr len k : Z) :
  start = BANK1_START \/ start = BANK2_START ->
  start <= addr ->
  0 < len ->
  addr + len <= start + NUM_SECTOR_PER_BANK * FLASH_SECTOR_SIZE ->
  In k (erase_span addr len) ->
  (addr - start) / FLASH_SECTOR_SIZE <= k
  /\ k <= (addr - start + len - 1) / FLASH_SECTOR_SIZE
  /\ 0 <= k < NUM_SECTOR_PER_BANK.
Proof.
  intros Hs Hlo Hlen Hhi Hin.
  unfold erase_span in Hin. apply in_sector_span in Hin.
  change (NUM_SECTOR_PER_BANK * FLASH_SECTOR_SIZE) with 1048576 in Hhi.
  rewrite (bank_relative_in_bank start addr Hs) in Hin
    by (change (NUM_SECTOR_PER_BANK * FLASH_SECTOR_SIZE) with 1048576; lia).
  repeat apply conj; try tauto.
  - apply Z.le_trans with ((addr - start) / FLASH_SECTOR_SIZE); [|tauto].
    apply Z.div_pos; [lia | reflexivity].
  - apply Z.le_lt_trans with ((addr - start + len - 1) / FLASH_SECTOR_SIZE);
      [tauto|].
    change FLASH_SECTOR_SIZE with 131072. change NUM_SECTOR_PER_BANK with 8.
    apply Z.div_lt_upper_bound; lia.
Qed.

Lemma sector_words_decode (ps : align) (k : Z) :
  0 <= k < NUM_SECTOR_PER_BANK ->
  Forall (fun v =>
            cr_sector v = k
            /\ cr_psize v = align_val ps
            /\ Z.land v FLASH_CR_SER = FLASH_CR_SER
            /\ Z.land v (Z.lor FLASH_CR_LOCK
                               (Z.lor FLASH_CR_PG
                                      (Z.lor FLASH_CR_BER FLASH_CR_CRC_EN)))
               = 0)
         (arm_then_trigger ps k)
  /\ map (fun v => nonzero (Z.land v FLASH_CR_START)) (arm_then_trigger ps k)
     = [false; true].
Proof.
  intros Hk. change NUM_SECTOR_PER_BANK with 8 in Hk.
  assert (Hcases : k = 0 \/ k = 1 \/ k = 2 \/ k = 3 \/ k = 4 \/ k = 5
                   \/ k = 6 \/ k = 7) by lia.
  destruct Hcases as [-> | [-> | [-> | [-> | [-> | [-> | [-> | ->]]]]]]];
    destruct ps;
    (split; [|vm_compute; reflexivity]);
    (apply Forall_cons; [vm_compute; auto|]);
    (apply Forall_cons; [vm_compute; auto | apply Forall_nil]).
Qed.

(** X17: the words the sector erase writes to FLASH_CR, read back field by
    field as the controller decodes them.  For a non-empty range inside one
    bank and after a successful unlock, every word the erase writes to
    FLASH_CR has, in bits 8 to 10, a sector number between the first and
    the last sector of the range (relative to the bank), in bits 4 and 5 the
    parallelism of the descriptor, the sector-erase bit set, and the lock,
    program, bank-erase and crc-enable bits clear: the fields the erase loop
    ors together do not overlap.  The start bit is clear in the first and set
    in the second word of every pair, so that each sector is armed before it
    is triggered. *)
Theorem sector_command_fields
        (f : stm32h7_flash) (start addr len : Z) (t t1 : target) :
  start = BANK1_START \/ start = BANK2_START ->
  start <= addr ->
  0 < len ->
  addr + len <= start + NUM_SECTOR_PER_BANK * FLASH_SECTOR_SIZE ->
  stm32h7_flash_unlock addr t = Ret true t1 ->
  exists evs,
    log (final (stm32h7_flash_erase f addr len t))
    = log t1 ++ EvWrite32 (add32 (regbase f) FLASH_ACR) 0 :: evs
    /\ writes_to (add32 (regbase f) FLASH_CR) evs <> []
    /\ Forall (fun v =>
                 (addr - start) / FLASH_SECTOR_SIZE <= cr_sector v
                 /\ cr_sector v
                    <= (addr - start + len - 1) / FLASH_SECTOR_SIZE
                 /\ cr_psize v = align_val (psize f)
                 /\ Z.land v FLASH_CR_SER = FLASH_CR_SER
                 /\ Z.land v (Z.lor FLASH_CR_LOCK
                                    (Z.lor FLASH_CR_PG
                                           (Z.lor FLASH_CR_BER
                                                  FLASH_CR_CRC_EN)))
                    = 0)
              (writes_to (add32 (regbase f) FLASH_CR) evs)
    /\ exists n,
        map (fun v => nonzero (Z.land v FLASH_CR_START))
            (writes_to (add32 (regbase f) FLASH_CR) evs)
        = List.concat (repeat [false; true] n).
Proof.
  intros Hs Hlo Hlen Hhi Hu.
  assert (Hrange : 0 <= addr < 2 ^ 32 /\ addr + len <= 2 ^ 32).
  { change (2 ^ 32) with 4294967296.
    change (NUM_SECTOR_PER_BANK * FLASH_SECTOR_SIZE) with 1048576 in Hhi.
    destruct Hs as [-> | ->]; unfold BANK1_START, BANK2_START in *; lia. }
  destruct Hrange as [Haddr Hend].
  rewrite (flash_erase_is_plan f addr len t Haddr Hlen Hend).
  unfold erase_plan. unfold bind, target_mem_write32. rewrite Hu.
  match goal with
  | |- context [erase_sectors f ?secs ?t2] =>
      destruct (erase_sectors_trace f secs t2)
        as (done & rest & evs & Hspan & Hl & Hw & Hne & _)
  end.
  exists evs. split; [rewrite Hl; fields; log_eq|].
  rewrite Hw.
  assert (Hdone : Forall (fun k => In k (erase_span addr len)) done).
  { apply Forall_forall. intros k Hk. rewrite Hspan.
    apply in_or_app. left. exact Hk. }
  split.
  { assert (Hd : done <> []) by (apply Hne, erase_span_first; lia).
    destruct done as [|k done']; [contradiction Hd; reflexivity|].
    discriminate. }
  clear Hspan Hl Hw Hne.
  induction Hdone as [|k done' Hk Hdone IH].
  - split; [constructor | exists O; reflexivity].
  - destruct IH as (IHf & n & IHn).
    destruct (erase_span_in_bank start addr len k Hs Hlo Hlen Hhi Hk)
      as (Hk1 & Hk2 & Hk3).
    destruct (sector_words_decode (psize f) k Hk3) as (Hdec & Hst).
    cbn [flat_map]. split.
    + apply Forall_app. split; [|exact IHf].
      eapply Forall_impl; [|exact Hdec].
      intros v (Hv1 & Hv2 & Hv3 & Hv4). rewrite Hv1. auto.
    + exists (S n). rewrite map_app, Hst, IHn. reflexivity.
Qed.

(** *** The order of a program operation *)

(** X18: a program operation whose unlock fails does nothing more and
    returns failure.  When the unlock succeeds, what follows it in the log
    is, in this order: the parallelism word written to FLASH_CR, the same
    word with the program-enable bit, the one block write of the data to the
    destination, the polls of the busy-wait, and then either the write of 0
    to FLASH_CR (success) or the acknowledgement of the error in FLASH_CCR
    (failure).  The data is written exactly once, and only between the
    program-enable write and the busy-wait. *)
Theorem flash_write_sequence
        (f : stm32h7_flash) (dest : Z) (src : list Z) (t : target)
        (ok : bool) (t1 : target) :
  stm32h7_flash_unlock dest t = Ret ok t1 ->
  if ok then
    exists srs tail,
      log (final (stm32h7_flash_write f dest src t))
      = log t1
          ++ [EvWrite32 (add32 (regbase f) FLASH_CR)
                        (align_val (psize f) * FLASH_CR_PSIZE16);
              EvWrite32 (add32 (regbase f) FLASH_CR)
                        (Z.lor (align_val (psize f) * FLASH_CR_PSIZE16)
                               FLASH_CR_PG);
              EvWriteBlock dest src]
          ++ polls (add32 (regbase f) FLASH_SR) srs
          ++ tail
      /\ match stm32h7_flash_write f dest src t with
         | Ret true _ =>
             exists sr,
               tail = [EvRead32 (add32 (regbase f) FLASH_SR) sr;
                       EvWrite32 (add32 (regbase f) FLASH_CR) 0]
         | Ret false _ =>
             exists sr,
               tail = [EvRead32 (add32 (regbase f) FLASH_SR) sr;
                       EvWrite32 (add32 (regbase f) FLASH_CCR)
                                 (Z.land sr FLASH_SR_ERROR_MASK)]
         | Stall _ => tail = []
         | Fault _ => False
         end
  else stm32h7_flash_write f dest src t = Ret false t1.
Proof.
  intros Hu. destruct ok.
  2:{ unfold stm32h7_flash_write. cbv zeta. unfold bind at 1.
      rewrite Hu. reflexivity. }
  remember (stm32h7_flash_write f dest src t) as o eqn:Ho.
  unfold stm32h7_flash_write in Ho. cbv zeta in Ho.
  unfold bind at 1 in Ho. rewrite Hu in Ho. cbn [negb] in Ho.
  unfold bind, target_mem_write32, target_mem_write in Ho.
  match type of Ho with
  | context [stm32h7_flash_busy_wait ?rb ?t3] =>
      pose proof (busy_wait_run rb t3) as Hbw;
      destruct (stm32h7_flash_busy_wait rb t3) as [ok2 t4|t4|t4]
  end; fields.
  - destruct Hbw as (srs & sr & Hl & _).
    destruct ok2; cbn [negb] in Ho; subst o; unfold ret; cbn [final].
    + exists srs, [EvRead32 (add32 (regbase f) FLASH_SR) sr;
                   EvWrite32 (add32 (regbase f) FLASH_CR) 0].
      split; [fields; rewrite Hl; log_eq | eauto].
    + exists srs, [EvRead32 (add32 (regbase f) FLASH_SR) sr;
                   EvWrite32 (add32 (regbase f) FLASH_CCR)
                             (Z.land sr FLASH_SR_ERROR_MASK)].
      split; [rewrite Hl; log_eq | eauto].
  - destruct Hbw as (srs & Hl & _). subst o. exists srs, []. cbn [final].
    split; [rewrite Hl, app_nil_r; log_eq | reflexivity].
  - contradiction.
Qed.

(** *** Attach, in full *)

(** X19: attach succeeds whenever the core attach does and the option status
    can be read; neither the watchdog warning nor a failed allocation makes
    it fail.  It reads FLASH_OPTSR of controller 1 once and prints the
    warning exactly when the IWDG1_SW bit of that word is clear; it replaces
    the memory map by the seven RAM regions and by the descriptors of those
    banks whose allocation succeeded, bank 1 before bank 2. *)
Theorem attach_outcome
        (t : target) (b : nat) (w1 w2 w3 w4 : W) (optsr : Z) (c1 c2 : bool) :
  core_attach (world t) = (true, w1) ->
  budget t = S b ->
  mem_read32 w1 (FPEC1_BASE + FLASH_OPTSR) = (optsr, w2) ->
  heap_calloc w2 = (c1, w3) ->
  heap_calloc w3 = (c2, w4) ->
  exists t',
    stm32h7_attach t = Ret true t'
    /\ log t' = log t
                ++ [EvCortexmAttach true;
                    EvRead32 (FPEC1_BASE + FLASH_OPTSR) (u32 optsr)]
                ++ (if nonzero (Z.land (u32 optsr) FLASH_OPTSR_IWDG1_SW)
                    then []
                    else [EvPrintf
                            "Hardware IWDG running. Expect failure. Set IWDG1_SW!"
                            []])
    /\ ram t' = [ mk_ram 0x00000000 0x10000;
                  mk_ram 0x20000000 0x20000;
                  mk_ram 0x24000000 0x80000;
                  mk_ram 0x30000000 0x20000;
                  mk_ram 0x30020000 0x20000;
                  mk_ram 0x30040000 0x08000;
                  mk_ram 0x38000000 0x10000 ]
    /\ flash t' = (if c1 then [bank_descriptor 0x8000000 ALIGN_DWORD] else [])
                  ++ (if c2 then [bank_descriptor 0x8100000 ALIGN_DWORD]
                      else [])
    /\ world t' = w4.
Proof.
  intros Ha Hb Hr Hc1 Hc2. unfold stm32h7_attach.
  unfold bind at 1. unfold cortexm_attach. rewrite Ha. cbn [negb].
  unfold bind at 1. unfold target_mem_read32. fields. rewrite Hb, Hr.
  unfold stm32h7_add_flash, target_mem_map_free, target_add_ram,
    target_add_flash.
  destruct (nonzero (Z.land (u32 optsr) FLASH_OPTSR_IWDG1_SW)); cbn [negb];
    unfold bind, tc_printf, calloc, ret; fields; rewrite Hc1;
    destruct c1; cbn [negb]; fields; rewrite Hc2; destruct c2; cbn [negb];
    eexists; (split; [reflexivity|]); fields;
    (split; [log_eq|]); repeat split; reflexivity.
Qed.

(** X20: when the core attach fails, attach returns failure at once: it
    reads no register, prints nothing, and the memory map registered before
    (like every other host-side field) is still in place. *)
Theorem attach_refused (t : target) (w1 : W) :
  core_attach (world t) = (false, w1) ->
  exists t',
    stm32h7_attach t = Ret false t'
    /\ log t' = log t ++ [EvCortexmAttach false]
    /\ session t' = session t
    /\ budget t' = budget t.
Proof.
  intros Ha. unfold stm32h7_attach. unfold bind at 1.
  unfold cortexm_attach. rewrite Ha. cbn [negb ret].
  eexists. split; [reflexivity|]. fields. auto.
Qed.

(** *** Probe *)

(** X21: the probe routine claims a target exactly for the part ids
    0x4500, 0x4800 and 0x4830.  For any other part id it returns false and
    leaves the target exactly as it was (no register is read or written).
    For one of the three, when a register read is available and the
    allocation of the private storage succeeds, it returns true: the driver
    name and the mass-erase, attach and detach hooks are those of the driver,
    its command table has been appended to the command tables, the memory
    map is untouched, DBGMCU_CR was read once, the word read is kept in the
    private storage, and DBGSLEEP_D1 | D1DBGCKEN was written to DBGMCU_CR.
    When the allocation fails the probe faults, because the result of calloc
    is not checked.  Whenever the probe returns, it returns true for the three
    part ids and false for all others. *)
Theorem probe_outcome (t : target) :
  (~ In (part_id t) [ID_STM32H74x; ID_STM32H7Bx; ID_STM32H72x] ->
   stm32h7_probe t = Ret false t)
  /\ (In (part_id t) [ID_STM32H74x; ID_STM32H7Bx; ID_STM32H72x] ->
      forall (b : nat) (w1 w2 : W) (v : Z),
        budget t = S b ->
        heap_calloc (world t) = (true, w1) ->
        mem_read32 w1 DBGMCU_CR = (v, w2) ->
        exists t',
          stm32h7_probe t = Ret true t'
          /\ driver t' = Some stm32h7_driver_str
          /\ mass_erase t' = Some fn_stm32h7_mass_erase
          /\ attach t' = Some fn_stm32h7_attach
          /\ detach t' = Some fn_stm32h7_detach
          /\ commands t'
             = commands t ++ [(stm32h7_driver_str, stm32h7_cmd_list)]
          /\ ram t' = ram t
          /\ flash t' = flash t
          /\ part_id t' = part_id t
          /\ target_storage t' = Some (mk_priv (u32 v))
          /\ log t' = log t
                        ++ [EvRead32 DBGMCU_CR (u32 v);
                            EvWrite32 DBGMCU_CR
                                      (Z.lor DBGSLEEP_D1 D1DBGCKEN)]
          /\ world t'
             = mem_write32 w2 DBGMCU_CR (Z.lor DBGSLEEP_D1 D1DBGCKEN))
  /\ (In (part_id t) [ID_STM32H74x; ID_STM32H7Bx; ID_STM32H72x] ->
      forall (b : nat) (w1 : W),
        budget t = S b ->
        heap_calloc (world t) = (false, w1) ->
        exists t', stm32h7_probe t = Fault t')
  /\ (forall (r : bool) (t' : target),
         stm32h7_probe t = Ret r t' ->
         (r = true
          <-> In (part_id t) [ID_STM32H74x; ID_STM32H7Bx; ID_STM32H72x])).
Proof.
  assert (Hcond :
            (part_id t =? ID_STM32H74x) || (part_id t =? ID_STM32H7Bx)
            || (part_id t =? ID_STM32H72x) = true
            <-> In (part_id t) [ID_STM32H74x; ID_STM32H7Bx; ID_STM32H72x]).
  { cbn [In]. rewrite !orb_true_iff, !Z.eqb_eq. intuition congruence. }
  repeat apply conj.
  - intros Hn. unfold stm32h7_probe. unfold bind at 1. unfold gets at 1.
    destruct ((part_id t =? ID_STM32H74x) || (part_id t =? ID_STM32H7Bx)
              || (part_id t =? ID_STM32H72x)) eqn:E; [|reflexivity].
    exfalso. apply Hn, Hcond. reflexivity.
  - intros Hin b w1 w2 v Hb Hc Hr. apply Hcond in Hin.
    unfold stm32h7_probe. unfold bind at 1. unfold gets at 1. rewrite Hin.
    unfold bind, modify, target_add_commands, calloc. fields. rewrite Hc.
    unfold target_mem_read32. fields. rewrite Hb, Hr. cbn [negb].
    unfold target_mem_write32, ret. eexists. split; [reflexivity|].
    fields. repeat apply conj; try reflexivity. log_eq.
  - intros Hin b w1 Hb Hc. apply Hcond in Hin.
    unfold stm32h7_probe. unfold bind at 1. unfold gets at 1. rewrite Hin.
    unfold bind, modify, target_add_commands, calloc. fields. rewrite Hc.
    unfold target_mem_read32. fields. rewrite Hb.
    destruct (mem_read32 w1 DBGMCU_CR) as [v w2]. cbn [negb].
    unfold fault. eexists. reflexivity.
  - intros r t'. unfold stm32h7_probe. unfold bind at 1. unfold gets at 1.
    destruct ((part_id t =? ID_STM32H74x) || (part_id t =? ID_STM32H7Bx)
              || (part_id t =? ID_STM32H72x)) eqn:E.
    + unfold bind, modify, target_add_commands, calloc. fields.
      destruct (heap_calloc (world t)) as [c w0].
      unfold target_mem_read32. fields.
      destruct (budget t) as [|b]; [discriminate|].
      destruct (mem_read32 w0 DBGMCU_CR) as [v w1].
      destruct c; cbn [negb]; [|discriminate].
      unfold target_mem_write32, ret. intros H. injection H as <- _.
      split; [intros _; apply Hcond; reflexivity | reflexivity].
    + unfold ret. intros H. injection H as <- _.
      split; [discriminate|]. intros Hin. apply Hcond in Hin. discriminate.
Qed.

(** *** The parallelism the mass erase uses *)

(** What the mass erase does once the erase of bank 1 has been asked for. *)
Definition mass_erase_rest (psize : align) (ok1 : bool) : M bool :=
  abort_start <- (if negb ok1 then ret true
                  else stm32h7_erase_bank psize BANK2_START FPEC2_BASE);;
  if abort_start then ret false
  else
    w1 <- stm32h7_wait_erase_bank 500 FPEC1_BASE;;
    abort_wait <- (if negb w1 then ret true
                   else
                     w2 <- stm32h7_wait_erase_bank 500 FPEC2_BASE;;
                     ret (negb w2));;
    if abort_wait then ret false
    else
      c1 <- stm32h7_check_bank FPEC1_BASE;;
      if c1 then stm32h7_check_bank FPEC2_BASE else ret false.

Lemma mass_erase_unfold (t : target) :
  stm32h7_mass_erase t
  = (ok1 <- stm32h7_erase_bank (configured_psize (flash t)) BANK1_START
                               FPEC1_BASE;;
     mass_erase_rest (configured_psize (flash t)) ok1) t.
Proof. reflexivity. Qed.

Lemma mass_erase_rest_emits (ps : align) (ok1 : bool) :
  emits anything (mass_erase_rest ps ok1).
Proof.
  unfold mass_erase_rest.
  apply emits_bind.
  { destruct (negb ok1); [apply emits_ret | apply erase_bank_emits]. }
  intros stop. destruct stop; [apply emits_ret|].
  apply emits_bind; [apply wait_erase_bank_emits|]. intros w1.
  apply emits_bind.
  { destruct (negb w1); [apply emits_ret|].
    apply emits_bind; [apply wait_erase_bank_emits|]. intros; apply emits_ret. }
  intros stop. destruct stop; [apply emits_ret|].
  apply emits_bind; [apply check_bank_emits|]. intros c1.
  destruct c1; [apply check_bank_emits | apply emits_ret].
Qed.

(** X22: the mass erase uses the parallelism the psize command stored.
    After the psize command with one of the arguments x8, x16, x32, x64 on a
    target with a flash descriptor of the driver, a mass erase whose unlock
    of bank 1 succeeds writes, right after that unlock, the bank-erase
    command to FLASH_CR of controller 1 with the stored parallelism in the
    PSIZE field, together with the bank-erase and start bits. *)
Theorem mass_erase_uses_stored_psize
        (argc : Z) (argv : list string) (a : string) (p : align)
        (t u : @target W) :
  In (a, p) psize_arguments ->
  argc <> 1 ->
  nth_error argv 1 = Some a ->
  existsb is_stm32h7_flash (flash t) = true ->
  stm32h7_flash_unlock BANK1_START (final (stm32h7_cmd_psize argc argv t))
  = Ret true u ->
  exists rest,
    log (final (stm32h7_mass_erase (final (stm32h7_cmd_psize argc argv t))))
    = log u
        ++ EvWrite32 (FPEC1_BASE + FLASH_CR)
             (Z.lor (Z.lor (align_val p * FLASH_CR_PSIZE16) FLASH_CR_BER)
                    FLASH_CR_START)
        :: rest.
Proof.
  intros Hin Hargc Harg Hdrv.
  rewrite (cmd_psize_store argc argv a p t Hin Hargc Harg). cbn [final].
  intros Hu. rewrite mass_erase_unfold. fields.
  assert (Hps : configured_psize (store_psize p (flash t)) = p).
  { unfold configured_psize. rewrite configured_psize_store, Hdrv.
    reflexivity. }
  rewrite Hps. unfold bind at 1. unfold stm32h7_erase_bank.
  unfold bind at 1. rewrite Hu. cbn [negb].
  unfold bind at 1. unfold target_mem_write32 at 1. unfold ret at 1.
  match goal with
  | |- context [mass_erase_rest p true ?t2] =>
      destruct (mass_erase_rest_emits p true t2) as (rest & Hl & _)
  end.
  exists rest. rewrite Hl. fields. log_eq.
Qed.

End Properties.

(** ** Concrete runs *)

Lemma busy_wait_success_not_busy_witness :
  exists pre sr,
    log (final (stm32h7_flash_busy_wait FPEC1_BASE sim_busy_then_done))
    = log sim_busy_then_done ++ pre
        ++ [EvRead32 (add32 FPEC1_BASE FLASH_SR) sr]
    /\ Z.land sr FLASH_SR_BSY = 0
    /\ Z.land sr FLASH_SR_QW = 0
    /\ Z.land sr FLASH_SR_ERROR_MASK = 0.
Proof.
  apply (busy_wait_success_not_busy FPEC1_BASE sim_busy_then_done).
  vm_compute. reflexivity.
Defined.

(** C3, as stated, fails: the status word read last by a successful busy-wait
    has the write-buffer-not-empty indicator set. *)
Lemma busy_wait_success_while_wbne :
  exists t',
    stm32h7_flash_busy_wait FPEC1_BASE sim_write_buffer_pending = Ret true t'
    /\ log t' = [EvRead32 (add32 FPEC1_BASE FLASH_SR) 0x2]
    /\ Z.land 0x2 FLASH_SR_WBNE <> 0
    /\ Z.land 0x2 FLASH_SR_BUSY_INDICATORS <> 0.
Proof.
  eexists. split; [vm_compute; reflexivity|].
  split; [vm_compute; reflexivity|].
  split; vm_compute; discriminate.
Qed.

Lemma busy_wait_error_acknowledged_witness :
  exists t',
    stm32h7_flash_busy_wait FPEC1_BASE sim_wrperr = Ret false t'
    /\ [EvWrite32 (add32 FPEC1_BASE FLASH_CCR) (Z.shiftl 1 17)]
       = [EvWrite32 (add32 FPEC1_BASE FLASH_CCR)
                    (Z.land 0x20001 FLASH_SR_ERROR_MASK)].
Proof.
  apply (busy_wait_error_acknowledged FPEC1_BASE sim_wrperr [] _ 0x20001).
  - vm_compute. reflexivity.
  - vm_compute. discriminate.
Defined.

Lemma flash_write_window_witness :
  exists evs,
    log (final (stm32h7_flash_write sim_bank1 0x8000000 [1; 2; 3; 4]
                                    sim_idle_target))
    = log sim_idle_target ++ evs
    /\ last_write32 (add32 (regbase sim_bank1) FLASH_CR) evs = Some 0.
Proof.
  apply (flash_write_window sim_bank1 0x8000000 [1; 2; 3; 4] sim_idle_target
                            true).
  - left. reflexivity.
  - vm_compute. reflexivity.
Defined.

(** C4, as stated, fails: on the path where the busy-wait after the block
    write reports an error, program returns failure and never writes 0 to
    FLASH_CR; the last word written there has the program-enable bit set. *)
Lemma flash_write_error_leaves_window_open :
  exists t',
    stm32h7_flash_write sim_bank1 0x8000000 [1; 2; 3; 4] sim_write_protected
    = Ret false t'
    /\ log t' = [ EvRead32 (FPEC1_BASE + FLASH_SR) 0;
                  EvRead32 (FPEC1_BASE + FLASH_CR) 0;
                  EvRead32 (FPEC1_BASE + FLASH_CR) 0;
                  EvWrite32 (FPEC1_BASE + FLASH_CR) FLASH_CR_PSIZE64;
                  EvWrite32 (FPEC1_BASE + FLASH_CR)
                            (Z.lor FLASH_CR_PSIZE64 FLASH_CR_PG);
                  EvWriteBlock 0x8000000 [1; 2; 3; 4];
                  EvRead32 (FPEC1_BASE + FLASH_SR) FLASH_SR_WRPERR;
                  EvWrite32 (FPEC1_BASE + FLASH_CCR) FLASH_SR_WRPERR ]
    /\ ~ In (EvWrite32 (FPEC1_BASE + FLASH_CR) 0) (log t')
    /\ last_write32 (FPEC1_BASE + FLASH_CR) (log t')
       = Some (Z.lor FLASH_CR_PSIZE64 FLASH_CR_PG).
Proof.
  eexists. split; [vm_compute; reflexivity|].
  split; [vm_compute; reflexivity|].
  split; [|vm_compute; reflexivity].
  vm_compute. intuition discriminate.
Qed.



Example erase_span_example : erase_span 0x8020100 0x40000 = [1; 2; 3].
Proof. reflexivity. Qed.

(** The generic layer erases non-empty ranges only.  For an empty range at
    the start of a bank the span is empty, while the last sector the loop
    computes wraps around in [size_t]. *)
Example erase_empty_range :
  erase_span 0x8000000 0 = []
  /\ @size_t sim sim_platform (bank_relative 0x8000000 + 0 - 1)
       / FLASH_SECTOR_SIZE = 32767.
Proof. split; reflexivity. Qed.

Example flash_erase_example :
  exists t',
    stm32h7_flash_erase sim_bank1 0x8020100 0x40000 sim_idle_target
    = Ret true t'
    /\ writes_to (FPEC1_BASE + FLASH_CR) (log t')
       = [0x134; 0x1b4; 0x234; 0x2b4; 0x334; 0x3b4].
Proof. eexists. split; vm_compute; reflexivity. Qed.

(** C1 (the code departs from the claim): on an idle, unlocked device whose
    status registers show no error bit, unlock and the bank-erase command
    succeed on both controllers, and the mass erase returns failure right
    after the command for bank 2: it never reads a status register again,
    neither to wait nor to check. *)
Theorem mass_erase_idle_device :
  exists t',
    stm32h7_mass_erase sim_idle_target = Ret false t'
    /\ log t'
       = [ EvRead32 (FPEC1_BASE + FLASH_SR) 0;
           EvRead32 (FPEC1_BASE + FLASH_CR) 0;
           EvRead32 (FPEC1_BASE + FLASH_CR) 0;
           EvWrite32 (FPEC1_BASE + FLASH_CR)
                     (Z.lor (Z.lor FLASH_CR_PSIZE64 FLASH_CR_BER) FLASH_CR_START);
           EvRead32 (FPEC2_BASE + FLASH_SR) 0;
           EvRead32 (FPEC2_BASE + FLASH_CR) 0;
           EvRead32 (FPEC2_BASE + FLASH_CR) 0;
           EvWrite32 (FPEC2_BASE + FLASH_CR)
                     (Z.lor (Z.lor FLASH_CR_PSIZE64 FLASH_CR_BER) FLASH_CR_START) ]
    /\ stm32h7_erase_bank ALIGN_DWORD BANK1_START FPEC1_BASE sim_idle_target
       = Ret true
           (final (stm32h7_erase_bank ALIGN_DWORD BANK1_START FPEC1_BASE
                                      sim_idle_target))
    /\ stm32h7_erase_bank ALIGN_DWORD BANK2_START FPEC2_BASE
         (final (stm32h7_erase_bank ALIGN_DWORD BANK1_START FPEC1_BASE
                                    sim_idle_target))
       = Ret true t'
    /\ Z.land (fst (mem_read32 (world t') (FPEC1_BASE + FLASH_SR)))
              FLASH_SR_ERROR_MASK = 0
    /\ Z.land (fst (mem_read32 (world t') (FPEC2_BASE + FLASH_SR)))
              FLASH_SR_ERROR_MASK = 0.
Proof.
  eexists. split; [vm_compute; reflexivity|].
  split; [vm_compute; reflexivity|].
  split; [vm_compute; reflexivity|].
  split; [vm_compute; reflexivity|].
  split; vm_compute; reflexivity.
Qed.

(** When the unlock of bank 2 fails, the mass erase goes on to the wait
    phase all the same: here bank 2 reports a write-protection error that
    fails its unlock, and the run ends with the status checks. *)
Example mass_erase_bank2_not_started :
  exists t',
    stm32h7_mass_erase
      (sim_target (mk_sim [] [0x0; 0x20000] false true 8) 64 ID_STM32H74x)
    = Ret true t'
    /\ log t'
       = [ EvRead32 (FPEC1_BASE + FLASH_SR) 0;
           EvRead32 (FPEC1_BASE + FLASH_CR) 0;
           EvRead32 (FPEC1_BASE + FLASH_CR) 0;
           EvWrite32 (FPEC1_BASE + FLASH_CR)
                     (Z.lor (Z.lor FLASH_CR_PSIZE64 FLASH_CR_BER) FLASH_CR_START);
           EvRead32 (FPEC2_BASE + FLASH_SR) FLASH_SR_WRPERR;
           EvWrite32 (FPEC2_BASE + FLASH_CCR) FLASH_SR_WRPERR;
           EvRead32 (FPEC1_BASE + FLASH_SR) 0;
           EvRead32 (FPEC2_BASE + FLASH_SR) 0;
           EvRead32 (FPEC1_BASE + FLASH_SR) 0;
           EvRead32 (FPEC2_BASE + FLASH_SR) 0 ].
Proof. eexists. split; vm_compute; reflexivity. Qed.

(** C2 (the code departs from the claim): the crc command runs the CRC of
    bank 2 on controller 2 and then reads the digest register of controller
    1 again: it prints the digest of bank 1 for both banks and never reads
    FPEC2_BASE + FLASH_CRCDATA. *)
Theorem crc_reads_bank1_digest_twice :
  exists t',
    stm32h7_crc sim_crc_target = Ret true t'
    /\ log t'
       = [ EvRead32 (FPEC1_BASE + FLASH_SR) 0;
           EvRead32 (FPEC1_BASE + FLASH_CR) 0;
           EvRead32 (FPEC1_BASE + FLASH_CR) 0;
           EvWrite32 (FPEC1_BASE + FLASH_CR) FLASH_CR_CRC_EN;
           EvWrite32 (FPEC1_BASE + FLASH_CRCCR)
             (Z.lor (Z.lor FLASH_CRCCR_CRC_BURST_3 FLASH_CRCCR_CLEAN_CRC)
                    FLASH_CRCCR_ALL_BANK);
           EvWrite32 (FPEC1_BASE + FLASH_CRCCR)
             (Z.lor (Z.lor (Z.lor FLASH_CRCCR_CRC_BURST_3 FLASH_CRCCR_CLEAN_CRC)
                           FLASH_CRCCR_ALL_BANK)
                    FLASH_CRCCR_START_CRC);
           EvRead32 (FPEC1_BASE + FLASH_SR) 0;
           EvRead32 (FPEC1_BASE + FLASH_CRCDATA) 0x11111111;
           EvRead32 (FPEC2_BASE + FLASH_SR) 0;
           EvRead32 (FPEC2_BASE + FLASH_CR) 0;
           EvRead32 (FPEC2_BASE + FLASH_CR) 0;
           EvWrite32 (FPEC2_BASE + FLASH_CR) FLASH_CR_CRC_EN;
           EvWrite32 (FPEC2_BASE + FLASH_CRCCR)
             (Z.lor (Z.lor FLASH_CRCCR_CRC_BURST_3 FLASH_CRCCR_CLEAN_CRC)
                    FLASH_CRCCR_ALL_BANK);
           EvWrite32 (FPEC2_BASE + FLASH_CRCCR)
             (Z.lor (Z.lor (Z.lor FLASH_CRCCR_CRC_BURST_3 FLASH_CRCCR_CLEAN_CRC)
                           FLASH_CRCCR_ALL_BANK)
                    FLASH_CRCCR_START_CRC);
           EvRead32 (FPEC2_BASE + FLASH_SR) 0;
           EvRead32 (FPEC1_BASE + FLASH_CRCDATA) 0x11111111;
           EvPrintf "CRC: bank1 0x%08lx, bank2 0x%08lx\n"
                    [ArgInt 0x11111111; ArgInt 0x11111111] ]
    /\ fst (mem_read32 (world t') (FPEC2_BASE + FLASH_CRCDATA)) = 0x22222222
    /\ existsb (fun e => match e with
                         | EvRead32 a _ => a =? FPEC2_BASE + FLASH_CRCDATA
                         | _ => false
                         end) (log t') = false.
Proof.
  eexists. split; [vm_compute; reflexivity|].
  split; [vm_compute; reflexivity|].
  split; vm_compute; reflexivity.
Qed.

Lemma detach_restores_probed_dbgmcu_cr_witness :
  exists v,
    log sim_probed
    = log sim_scanned
        ++ [EvRead32 DBGMCU_CR v;
            EvWrite32 DBGMCU_CR (Z.lor DBGSLEEP_D1 D1DBGCKEN)]
    /\ forall calls : list driver_call,
        exists t3,
          stm32h7_detach (final (run_calls calls sim_probed)) = Ret tt t3
          /\ log t3 = log (final (run_calls calls sim_probed))
                        ++ [EvWrite32 DBGMCU_CR v; EvCortexmDetach].
Proof.
  apply (detach_restores_probed_dbgmcu_cr sim_scanned sim_probed).
  vm_compute. reflexivity.
Defined.

Example session_example :
  log (final (stm32h7_detach
                (final (run_calls [CallAttach;
                                   CallPsize 2 ["psize"; "x16"]%string;
                                   CallRev]
                                  sim_probed))))
  = [ EvRead32 DBGMCU_CR 0x7;
      EvWrite32 DBGMCU_CR (Z.lor DBGSLEEP_D1 D1DBGCKEN);
      EvCortexmAttach true;
      EvRead32 (FPEC1_BASE + FLASH_OPTSR) FLASH_OPTSR_IWDG1_SW;
      EvRead32 DBGMCU_IDC 0;
      EvPrintf "Unknown STM32H7. This driver may not support it!\n" [];
      EvWrite32 DBGMCU_CR 0x7;
      EvCortexmDetach ].
Proof. vm_compute. reflexivity. Qed.

(** C7, as stated, fails: attach does not capture DBGMCU_CR.  In the session
    probe, attach, detach the only register attach reads is FLASH_OPTSR;
    while it runs DBGMCU_CR holds the word the probe routine wrote, and the
    word detach writes is the one the probe routine read before that. *)
Lemma attach_does_not_capture_dbgmcu_cr :
  exists t1 t2 t3,
    stm32h7_probe sim_scanned = Ret true t1
    /\ stm32h7_attach t1 = Ret true t2
    /\ stm32h7_detach t2 = Ret tt t3
    /\ log t1 = [ EvRead32 DBGMCU_CR 0x7;
                  EvWrite32 DBGMCU_CR (Z.lor DBGSLEEP_D1 D1DBGCKEN) ]
    /\ log t2 = log t1
                ++ [ EvCortexmAttach true;
                     EvRead32 (FPEC1_BASE + FLASH_OPTSR) FLASH_OPTSR_IWDG1_SW ]
    /\ log t3 = log t2 ++ [ EvWrite32 DBGMCU_CR 0x7; EvCortexmDetach ]
    /\ fst (mem_read32 (world t1) DBGMCU_CR) = Z.lor DBGSLEEP_D1 D1DBGCKEN
    /\ fst (mem_read32 (world t2) DBGMCU_CR) = Z.lor DBGSLEEP_D1 D1DBGCKEN
    /\ Z.lor DBGSLEEP_D1 D1DBGCKEN <> 0x7.
Proof.
  do 3 eexists.
  split; [vm_compute; reflexivity|].
  split; [vm_compute; reflexivity|].
  split; [vm_compute; reflexivity|].
  repeat split; try (vm_compute; reflexivity).
  vm_compute. discriminate.
Qed.

Example resolve_revision_examples :
  map resolve_revision [0x1000; 0x1001; 0x1003; 0x2001; 0x2003; 0x9999; 0]
  = ["A"; "Z"; "Y"; "X"; "V"; "?"; "?"]%char.
Proof. reflexivity. Qed.

Lemma psize_unrecognized_argument_witness :
  exists t' : target,
    stm32h7_cmd_psize 2 ["psize"; "x128"]%string sim_with_flash = Ret false t'
    /\ log t' = log sim_with_flash
                ++ [EvPrintf "usage: monitor psize (x8|x16|x32|x64)\n" []]
    /\ flash t' = flash sim_with_flash
    /\ map psize (flash t') = map psize (flash sim_with_flash)
    /\ session t' = session sim_with_flash
    /\ world t' = world sim_with_flash.
Proof.
  apply (psize_unrecognized_argument 2 ["psize"; "x128"]%string "x128"%string
                                     sim_with_flash);
    first [reflexivity | discriminate].
Defined.

Example psize_examples :
  map psize (flash (final (stm32h7_cmd_psize 2 ["psize"; "x16"]%string
                                             sim_with_flash)))
  = [ALIGN_HALFWORD; ALIGN_HALFWORD; ALIGN_BYTE]
  /\ log (final (stm32h7_cmd_psize 1 ["psize"]%string sim_with_flash))
     = [EvPrintf "Flash write parallelism: %s\n" [ArgStr "x32"]].
Proof. split; vm_compute; reflexivity. Qed.

Lemma attach_memory_map_witness :
  exists t',
    stm32h7_attach (sim_target sim_idle 64 ID_STM32H7Bx) = Ret true t'
    /\ ram t' = [ mk_ram 0x00000000 0x10000;
                  mk_ram 0x20000000 0x20000;
                  mk_ram 0x24000000 0x80000;
                  mk_ram 0x30000000 0x20000;
                  mk_ram 0x30020000 0x20000;
                  mk_ram 0x30040000 0x08000;
                  mk_ram 0x38000000 0x10000 ]
    /\ flash t' = [ mk_flash 0x08000000 (1024 * 1024) (128 * 1024)
                             (Some fn_stm32h7_flash_erase)
                             (Some fn_stm32h7_flash_write)
                             2048 0xff ALIGN_DWORD FPEC1_BASE;
                    mk_flash 0x08100000 (1024 * 1024) (128 * 1024)
                             (Some fn_stm32h7_flash_erase)
                             (Some fn_stm32h7_flash_write)
                             2048 0xff ALIGN_DWORD FPEC2_BASE ].
Proof.
  apply (attach_memory_map (sim_target sim_idle 64 ID_STM32H7Bx) 63
                           sim_idle sim_idle
                           (mk_sim [] [] false true 7)
                           (mk_sim [] [] false true 6) 0);
    reflexivity.
Defined.

(** ** Further concrete runs *)

(** After an attach, the descriptor of bank 2 and an address in its last
    sector. *)
Lemma descriptors_stay_bound_to_their_bank_witness :
  regbase_of 0x81e0000 = regbase (bank_descriptor 0x8100000 ALIGN_HALFWORD)
  /\ f_blocksize (bank_descriptor 0x8100000 ALIGN_HALFWORD) = FLASH_SECTOR_SIZE
  /\ f_writesize (bank_descriptor 0x8100000 ALIGN_HALFWORD) = 2048.
Proof.
  apply (descriptors_stay_bound_to_their_bank
           sim_idle_target
           [CallAttach; CallPsize 2 ["psize"; "x16"]%string; CallCrc]
           (bank_descriptor 0x8100000 ALIGN_HALFWORD) 0x81e0000).
  - constructor.
  - vm_compute. right. left. reflexivity.
  - reflexivity.
  - vm_compute. split; [discriminate | reflexivity].
Defined.

(** The link fails while bank 1 still reports BSY. *)
Lemma busy_wait_link_error_witness :
  exists t',
    stm32h7_flash_busy_wait FPEC1_BASE
      (sim_target (mk_sim [] [0x1] true true 8) 16 ID_STM32H74x)
    = Ret false t'
    /\ log t' = log (sim_target (mk_sim [] [0x1] true true 8) 16 ID_STM32H74x)
                ++ [EvRead32 (add32 FPEC1_BASE FLASH_SR) (u32 0x1);
                    EvWrite32 (add32 FPEC1_BASE FLASH_CCR) 0]
    /\ world t' = mem_write32 (mk_sim [] [] true true 8)
                              (add32 FPEC1_BASE FLASH_CCR) 0.
Proof.
  apply (busy_wait_link_error FPEC1_BASE
           (sim_target (mk_sim [] [0x1] true true 8) 16 ID_STM32H74x)
           15 0x1 (mk_sim [] [] true true 8) (mk_sim [] [] true true 8));
    reflexivity.
Defined.

(** The link fails while bank 1 still reports QW: the wait ends with the
    poll, without a progress report. *)
Lemma wait_erase_bank_run_witness :
  exists t',
    stm32h7_wait_erase_bank
      500 FPEC1_BASE (sim_target (mk_sim [] [0x4] true true 8) 16 ID_STM32H74x)
    = Ret false t'
    /\ log t' = log (sim_target (mk_sim [] [0x4] true true 8) 16 ID_STM32H74x)
                ++ [EvRead32 (add32 FPEC1_BASE FLASH_SR) (u32 0x4)].
Proof.
  apply (proj2 (wait_erase_bank_run
                  500 FPEC1_BASE
                  (sim_target (mk_sim [] [0x4] true true 8) 16 ID_STM32H74x)))
    with (b := 15%nat) (w := mk_sim [] [] true true 8)
         (w' := mk_sim [] [] true true 8);
    [reflexivity | reflexivity | vm_compute; discriminate | reflexivity].
Defined.

(** With a working link the wait reports progress after each poll that shows
    QW and returns true on the first poll that does not. *)
Example wait_erase_bank_example :
  exists t',
    stm32h7_wait_erase_bank
      500 FPEC1_BASE
      (sim_target (mk_sim [] [0x4; 0x4; 0x0] false true 8) 16 ID_STM32H74x)
    = Ret true t'
    /\ log t' = [ EvRead32 (FPEC1_BASE + FLASH_SR) 0x4; EvProgress 500;
                  EvRead32 (FPEC1_BASE + FLASH_SR) 0x4; EvProgress 500;
                  EvRead32 (FPEC1_BASE + FLASH_SR) 0x0 ].
Proof. eexists. split; vm_compute; reflexivity. Qed.

(** Bank 2 fails its unlock with a write-protection error; the mass erase
    goes on and reports success. *)
Definition sim_bank2_protected : target :=
  sim_target (mk_sim [] [0x0; 0x20000] false true 8) 64 ID_STM32H74x.

Lemma mass_erase_success_without_bank2_witness :
  exists evs,
    log (final (stm32h7_mass_erase sim_bank2_protected))
    = log sim_bank2_protected ++ evs
    /\ writes_to (FPEC1_BASE + FLASH_CR) evs
       = [Z.lor (Z.lor (align_val (configured_psize (flash sim_bank2_protected))
                          * FLASH_CR_PSIZE16)
                       FLASH_CR_BER)
                FLASH_CR_START]
    /\ writes_to (FPEC2_BASE + FLASH_CR) evs = [].
Proof.
  apply (mass_erase_success_without_bank2 sim_bank2_protected).
  vm_compute. reflexivity.
Defined.

Lemma mass_erase_success_checks_witness :
  exists pre s1 s2,
    log (final (stm32h7_mass_erase sim_bank2_protected))
    = log sim_bank2_protected ++ pre
        ++ [EvRead32 (FPEC1_BASE + FLASH_SR) s1;
            EvRead32 (FPEC2_BASE + FLASH_SR) s2]
    /\ Z.land s1 FLASH_SR_ERROR_MASK = 0
    /\ Z.land s2 FLASH_SR_ERROR_MASK = 0.
Proof.
  apply (mass_erase_success_checks sim_bank2_protected).
  vm_compute. reflexivity.
Defined.

Lemma psize_store_then_query_witness :
  exists t1 t2 : target,
    stm32h7_cmd_psize 2 ["psize"; "x16"]%string sim_with_flash = Ret true t1
    /\ log t1 = log sim_with_flash
    /\ world t1 = world sim_with_flash
    /\ Forall (fun f => is_stm32h7_flash f = true -> psize f = ALIGN_HALFWORD)
              (flash t1)
    /\ stm32h7_cmd_psize 1 ["psize"]%string t1 = Ret true t2
    /\ log t2 = log sim_with_flash
                ++ [EvPrintf "Flash write parallelism: %s\n" [ArgStr "x16"]]
    /\ flash t2 = flash t1.
Proof.
  apply (psize_store_then_query 2 ["psize"; "x16"]%string ["psize"]%string
                                "x16"%string ALIGN_HALFWORD sim_with_flash).
  - right. left. reflexivity.
  - discriminate.
  - reflexivity.
  - reflexivity.
Defined.

Lemma psize_store_changes_psize_only_witness :
  Forall2 (psize_stored ALIGN_BYTE) (flash sim_with_flash)
          (flash (final (stm32h7_cmd_psize 2 ["psize"; "x8"]%string
                                           sim_with_flash)))
  /\ ram (final (stm32h7_cmd_psize 2 ["psize"; "x8"]%string sim_with_flash))
     = ram sim_with_flash
  /\ target_storage (final (stm32h7_cmd_psize 2 ["psize"; "x8"]%string
                                              sim_with_flash))
     = target_storage sim_with_flash.
Proof.
  apply (psize_store_changes_psize_only 2 ["psize"; "x8"]%string "x8"%string
                                        ALIGN_BYTE sim_with_flash).
  - left. reflexivity.
  - discriminate.
  - reflexivity.
Defined.

(** The unique id of an H7Bx part, as stored at 0x08fff800. *)
Definition sim_uid_target : target :=
  sim_target (mk_sim [ (0x08fff800, 0x00450031); (0x08fff804, 0x3439510a);
                       (0x08fff808, 0x30333532) ] [] false true 8)
             3 ID_STM32H7Bx.

Lemma uid_prints_identifier_witness :
  exists t' v0 v1 v2,
    stm32h7_uid sim_uid_target = Ret true t'
    /\ log t' = log sim_uid_target ++ [EvPrintf "0x" []]
                  ++ uid_line 0x08fff800 v0
                  ++ uid_line (0x08fff800 + 4) v1
                  ++ uid_line (0x08fff800 + 8) v2
                  ++ [EvPrintf "\n" []]
    /\ Forall (fun v => 0 <= v < 2 ^ 32
                        /\ be_decode (be_bytes v) = v
                        /\ Forall (fun b => 0 <= b < 256) (be_bytes v))
              [v0; v1; v2].
Proof.
  apply (uid_prints_identifier sim_uid_target). vm_compute. lia.
Defined.

Example uid_example :
  log (final (stm32h7_uid sim_uid_target))
  = [ EvPrintf "0x" [];
      EvRead32 0x08fff800 0x00450031;
      EvPrintf "%02X" [ArgInt 0x00]; EvPrintf "%02X" [ArgInt 0x45];
      EvPrintf "%02X" [ArgInt 0x00]; EvPrintf "%02X" [ArgInt 0x31];
      EvRead32 0x08fff804 0x3439510a;
      EvPrintf "%02X" [ArgInt 0x34]; EvPrintf "%02X" [ArgInt 0x39];
      EvPrintf "%02X" [ArgInt 0x51]; EvPrintf "%02X" [ArgInt 0x0a];
      EvRead32 0x08fff808 0x30333532;
      EvPrintf "%02X" [ArgInt 0x30]; EvPrintf "%02X" [ArgInt 0x33];
      EvPrintf "%02X" [ArgInt 0x35]; EvPrintf "%02X" [ArgInt 0x32];
      EvPrintf "\n" [] ].
Proof. vm_compute. reflexivity. Qed.

Lemma crc_bank_run_witness :
  (0 = 0 \/ 0 = -1)
  /\ (0 = 0 ->
      exists t1 srs sr,
        stm32h7_flash_unlock BANK2_START sim_crc_target = Ret true t1
        /\ log (final (stm32h7_crc_bank BANK2_START sim_crc_target))
           = log t1
               ++ [EvWrite32 (add32 (regbase_of BANK2_START) FLASH_CR)
                             FLASH_CR_CRC_EN;
                   EvWrite32 (add32 (regbase_of BANK2_START) FLASH_CRCCR)
                     (Z.lor (Z.lor FLASH_CRCCR_CRC_BURST_3
                                   FLASH_CRCCR_CLEAN_CRC)
                            FLASH_CRCCR_ALL_BANK);
                   EvWrite32 (add32 (regbase_of BANK2_START) FLASH_CRCCR)
                     (Z.lor (Z.lor (Z.lor FLASH_CRCCR_CRC_BURST_3
                                          FLASH_CRCCR_CLEAN_CRC)
                                   FLASH_CRCCR_ALL_BANK)
                            FLASH_CRCCR_START_CRC)]
               ++ polls (add32 (regbase_of BANK2_START) FLASH_SR) srs
               ++ [EvRead32 (add32 (regbase_of BANK2_START) FLASH_SR) sr]
        /\ Forall crc_in_progress srs
        /\ Z.land sr FLASH_SR_CRC_BUSY = 0).
Proof.
  apply (crc_bank_run BANK2_START sim_crc_target 0).
  vm_compute. reflexivity.
Defined.

Lemma flash_erase_within_bank_witness :
  exists evs,
    log (final (stm32h7_flash_erase (bank_descriptor 0x8100000 ALIGN_DWORD)
                                    0x81c0000 0x40000 sim_idle_target))
    = log (final (stm32h7_flash_unlock 0x81c0000 sim_idle_target))
        ++ EvWrite32
             (add32 (regbase (bank_descriptor 0x8100000 ALIGN_DWORD)) FLASH_ACR)
             0
        :: evs
    /\ Forall (fun v =>
                 exists k,
                   (0x81c0000 - BANK2_START) / FLASH_SECTOR_SIZE <= k
                   /\ k <= (0x81c0000 - BANK2_START + 0x40000 - 1)
                           / FLASH_SECTOR_SIZE
                   /\ 0 <= k < NUM_SECTOR_PER_BANK
                   /\ In v (arm_then_trigger
                              (psize (bank_descriptor 0x8100000 ALIGN_DWORD))
                              k))
              (writes_to
                 (add32 (regbase (bank_descriptor 0x8100000 ALIGN_DWORD))
                        FLASH_CR)
                 evs).
Proof.
  apply (flash_erase_within_bank
           (bank_descriptor 0x8100000 ALIGN_DWORD) BANK2_START 0x81c0000
           0x40000 sim_idle_target
           (final (stm32h7_flash_unlock 0x81c0000 sim_idle_target))).
  - right. reflexivity.
  - vm_compute. discriminate.
  - reflexivity.
  - vm_compute. discriminate.
  - vm_compute. reflexivity.
Defined.

(** An erase of sectors 6 and 7 of bank 2 with 32-bit parallelism. *)
Lemma sector_command_fields_witness :
  exists evs,
    log (final (stm32h7_flash_erase (bank_descriptor 0x8100000 ALIGN_WORD)
                                    0x81c0000 0x40000 sim_idle_target))
    = log (final (stm32h7_flash_unlock 0x81c0000 sim_idle_target))
        ++ EvWrite32 (add32 (regbase (bank_descriptor 0x8100000 ALIGN_WORD))
                            FLASH_ACR) 0
        :: evs
    /\ writes_to (add32 (regbase (bank_descriptor 0x8100000 ALIGN_WORD))
                        FLASH_CR) evs <> []
    /\ Forall (fun v =>
                 (0x81c0000 - BANK2_START) / FLASH_SECTOR_SIZE <= cr_sector v
                 /\ cr_sector v
                    <= (0x81c0000 - BANK2_START + 0x40000 - 1)
                         / FLASH_SECTOR_SIZE
                 /\ cr_psize v
                    = align_val (psize (bank_descriptor 0x8100000 ALIGN_WORD))
                 /\ Z.land v FLASH_CR_SER = FLASH_CR_SER
                 /\ Z.land v (Z.lor FLASH_CR_LOCK
                                    (Z.lor FLASH_CR_PG
                                           (Z.lor FLASH_CR_BER
                                                  FLASH_CR_CRC_EN)))
                    = 0)
              (writes_to (add32 (regbase (bank_descriptor 0x8100000
                                                          ALIGN_WORD))
                                FLASH_CR) evs)
    /\ exists n,
        map (fun v => nonzero (Z.land v FLASH_CR_START))
            (writes_to (add32 (regbase (bank_descriptor 0x8100000 ALIGN_WORD))
                              FLASH_CR) evs)
        = List.concat (repeat [false; true] n).
Proof.
  apply (sector_command_fields
           (bank_descriptor 0x8100000 ALIGN_WORD) BANK2_START 0x81c0000
           0x40000 sim_idle_target
           (final (stm32h7_flash_unlock 0x81c0000 sim_idle_target))).
  - right. reflexivity.
  - vm_compute. discriminate.
  - reflexivity.
  - vm_compute. discriminate.
  - vm_compute. reflexivity.
Defined.

Example sector_command_fields_example :
  writes_to (FPEC2_BASE + FLASH_CR)
            (log (final (stm32h7_flash_erase
                           (bank_descriptor 0x8100000 ALIGN_WORD)
                           0x81c0000 0x40000 sim_idle_target)))
  = [0x624; 0x6a4; 0x724; 0x7a4]
  /\ map cr_sector [0x624; 0x6a4; 0x724; 0x7a4] = [6; 6; 7; 7]
  /\ map cr_psize [0x624; 0x6a4; 0x724; 0x7a4] = [2; 2; 2; 2].
Proof.
  split; [vm_compute; reflexivity|]. split; reflexivity.
Qed.

Lemma flash_write_sequence_witness :
  exists srs tail,
    log (final (stm32h7_flash_write sim_bank1 0x8000000 [1; 2; 3; 4]
                                    sim_write_protected))
    = log (final (stm32h7_flash_unlock 0x8000000 sim_write_protected))
        ++ [EvWrite32 (add32 (regbase sim_bank1) FLASH_CR)
                      (align_val (psize sim_bank1) * FLASH_CR_PSIZE16);
            EvWrite32 (add32 (regbase sim_bank1) FLASH_CR)
                      (Z.lor (align_val (psize sim_bank1) * FLASH_CR_PSIZE16)
                             FLASH_CR_PG);
            EvWriteBlock 0x8000000 [1; 2; 3; 4]]
        ++ polls (add32 (regbase sim_bank1) FLASH_SR) srs
        ++ tail
    /\ match stm32h7_flash_write sim_bank1 0x8000000 [1; 2; 3; 4]
                                 sim_write_protected with
       | Ret true _ =>
           exists sr,
             tail = [EvRead32 (add32 (regbase sim_bank1) FLASH_SR) sr;
                     EvWrite32 (add32 (regbase sim_bank1) FLASH_CR) 0]
       | Ret false _ =>
           exists sr,
             tail = [EvRead32 (add32 (regbase sim_bank1) FLASH_SR) sr;
                     EvWrite32 (add32 (regbase sim_bank1) FLASH_CCR)
                               (Z.land sr FLASH_SR_ERROR_MASK)]
       | Stall _ => tail = []
       | Fault _ => False
       end.
Proof.
  apply (flash_write_sequence sim_bank1 0x8000000 [1; 2; 3; 4]
                              sim_write_protected true
           (final (stm32h7_flash_unlock 0x8000000 sim_write_protected))).
  vm_compute. reflexivity.
Defined.

(** The hardware watchdog runs and the heap has room for one descriptor
    only. *)
Lemma attach_outcome_witness :
  exists t',
    stm32h7_attach (sim_target (mk_sim [] [] false true 1) 8 ID_STM32H72x)
    = Ret true t'
    /\ log t' = log (sim_target (mk_sim [] [] false true 1) 8 ID_STM32H72x)
                ++ [EvCortexmAttach true;
                    EvRead32 (FPEC1_BASE + FLASH_OPTSR) (u32 0)]
                ++ (if nonzero (Z.land (u32 0) FLASH_OPTSR_IWDG1_SW)
                    then []
                    else [EvPrintf
                            "Hardware IWDG running. Expect failure. Set IWDG1_SW!"
                            []])
    /\ ram t' = [ mk_ram 0x00000000 0x10000;
                  mk_ram 0x20000000 0x20000;
                  mk_ram 0x24000000 0x80000;
                  mk_ram 0x30000000 0x20000;
                  mk_ram 0x30020000 0x20000;
                  mk_ram 0x30040000 0x08000;
                  mk_ram 0x38000000 0x10000 ]
    /\ flash t' = (if true then [bank_descriptor 0x8000000 ALIGN_DWORD]
                   else [])
                  ++ (if false then [bank_descriptor 0x8100000 ALIGN_DWORD]
                      else [])
    /\ world t' = mk_sim [] [] false true 0.
Proof.
  apply (attach_outcome (sim_target (mk_sim [] [] false true 1) 8 ID_STM32H72x)
                        7 (mk_sim [] [] false true 1)
                        (mk_sim [] [] false true 1)
                        (mk_sim [] [] false true 0)
                        (mk_sim [] [] false true 0) 0 true false);
    reflexivity.
Defined.

Lemma attach_refused_witness :
  exists t',
    stm32h7_attach (sim_target (mk_sim [] [] false false 8) 8 ID_STM32H74x)
    = Ret false t'
    /\ log t' = log (sim_target (mk_sim [] [] false false 8) 8 ID_STM32H74x)
                ++ [EvCortexmAttach false]
    /\ session t'
       = session (sim_target (mk_sim [] [] false false 8) 8 ID_STM32H74x)
    /\ budget t'
       = budget (sim_target (mk_sim [] [] false false 8) 8 ID_STM32H74x).
Proof.
  apply (attach_refused
           (sim_target (mk_sim [] [] false false 8) 8 ID_STM32H74x)
           (mk_sim [] [] false false 8)).
  reflexivity.
Defined.

(** The probe claims each of the three parts the driver knows. *)
Lemma probe_outcome_witness :
  Forall (fun id =>
            exists t',
              stm32h7_probe (sim_part id) = Ret true t'
              /\ driver t' = Some stm32h7_driver_str
              /\ mass_erase t' = Some fn_stm32h7_mass_erase
              /\ attach t' = Some fn_stm32h7_attach
              /\ detach t' = Some fn_stm32h7_detach
              /\ commands t'
                 = commands (sim_part id)
                     ++ [(stm32h7_driver_str, stm32h7_cmd_list)]
              /\ ram t' = ram (sim_part id)
              /\ flash t' = flash (sim_part id)
              /\ part_id t' = part_id (sim_part id)
              /\ target_storage t' = Some (mk_priv (u32 0x7))
              /\ log t' = log (sim_part id)
                            ++ [EvRead32 DBGMCU_CR (u32 0x7);
                                EvWrite32 DBGMCU_CR
                                          (Z.lor DBGSLEEP_D1 D1DBGCKEN)]
              /\ world t'
                 = mem_write32 (mk_sim [(DBGMCU_CR, 0x7)] [] false true 7)
                               DBGMCU_CR (Z.lor DBGSLEEP_D1 D1DBGCKEN))
         [ID_STM32H74x; ID_STM32H7Bx; ID_STM32H72x].
Proof.
  repeat apply Forall_cons; [| | | apply Forall_nil].
  - apply (proj1 (proj2 (probe_outcome (sim_part ID_STM32H74x))))
      with (b := 63%nat) (w1 := mk_sim [(DBGMCU_CR, 0x7)] [] false true 7);
      [left; reflexivity | reflexivity | reflexivity | reflexivity].
  - apply (proj1 (proj2 (probe_outcome (sim_part ID_STM32H7Bx))))
      with (b := 63%nat) (w1 := mk_sim [(DBGMCU_CR, 0x7)] [] false true 7);
      [right; left; reflexivity | reflexivity | reflexivity | reflexivity].
  - apply (proj1 (proj2 (probe_outcome (sim_part ID_STM32H72x))))
      with (b := 63%nat) (w1 := mk_sim [(DBGMCU_CR, 0x7)] [] false true 7);
      [right; right; left; reflexivity
      | reflexivity | reflexivity | reflexivity].
Defined.

(** Without memory for the private storage the probe of a known part does
    not return. *)
Example probe_without_heap :
  exists t',
    stm32h7_probe (sim_target (mk_sim [] [] false true 0) 8 ID_STM32H7Bx)
    = Fault t'.
Proof. eexists. reflexivity. Qed.

(** A part the driver does not know (an STM32F4) is left alone. *)
Example probe_declines :
  stm32h7_probe (sim_target sim_idle 8 0x413)
  = Ret false (sim_target sim_idle 8 0x413).
Proof. reflexivity. Qed.

Example probe_example :
  exists t',
    stm32h7_probe sim_scanned = Ret true t'
    /\ driver t' = Some "STM32H7"%string
    /\ map fst (commands t') = ["STM32H7"%string]
    /\ target_storage t' = Some (mk_priv 0x7).
Proof. eexists. repeat split; vm_compute; reflexivity. Qed.

Lemma crc_prints_on_success_only_witness :
  exists pre,
    Forall no_output pre
    /\ exists crc1 crc2 a1 a2,
        In (EvRead32 a1 crc1) pre /\ In (EvRead32 a2 crc2) pre
        /\ log (final (stm32h7_crc sim_crc_target))
           = log sim_crc_target ++ pre
               ++ [EvPrintf "CRC: bank1 0x%08lx, bank2 0x%08lx\n"
                            [ArgInt crc1; ArgInt crc2]].
Proof.
  apply (crc_prints_on_success_only sim_crc_target true).
  vm_compute. reflexivity.
Defined.

Lemma mass_erase_uses_stored_psize_witness :
  exists rest,
    log (final (stm32h7_mass_erase
                  (final (stm32h7_cmd_psize 2 ["psize"; "x16"]%string
                                            sim_with_flash))))
    = log (final (stm32h7_flash_unlock BANK1_START
                    (final (stm32h7_cmd_psize 2 ["psize"; "x16"]%string
                                              sim_with_flash))))
        ++ EvWrite32 (FPEC1_BASE + FLASH_CR)
             (Z.lor (Z.lor (align_val ALIGN_HALFWORD * FLASH_CR_PSIZE16)
                           FLASH_CR_BER)
                    FLASH_CR_START)
        :: rest.
Proof.
  apply (mass_erase_uses_stored_psize 2 ["psize"; "x16"]%string "x16"%string
                                      ALIGN_HALFWORD sim_with_flash).
  - right. left. reflexivity.
  - discriminate.
  - reflexivity.
  - reflexivity.
  - vm_compute. reflexivity.
Defined.
